(** * SdSpi.h: the SPI back-ends of the SD card driver

    A shallow embedding of [SdSpi.h] (Arduino SdSpi Library, with the
    delay-based multi-byte receive) and the properties of its three
    back-ends: [SdSpi] (AVR registers), [SdSpiLib] (Arduino SPI library)
    and [SdSpiSoft] (bit-banged SoftSPI).

    Code that runs on the microcontroller is written in a small
    state-and-fault monad over a [world]: the device it drives, and the
    RAM buffer the caller passed as [buf].

    The SPI peripheral of the AVR comes twice. [Section Bus] has the
    peripheral as the specification describes it, SPIF falling with the
    write to SPDR that starts a transfer; [sheet] has the flag rule and
    the enable and master bits of the data sheet. The transfer functions
    of [SdSpi] are run on both. *)

From stdpp Require Import base list numbers.

Local Open Scope Z_scope.

(** ** Machine integers *)

(** [uint8_t]: arithmetic is done in [int] and truncated on assignment. *)
Definition uint8 (x : Z) : Z := x mod 256.

(** [size_t] is 16 bits wide on AVR. *)
Definition size_t (x : Z) : Z := x mod 65536.

(** ** Programs *)

(** Ways in which a run does not return: a busy-wait whose flag never
    rises, an access outside the buffer (undefined behaviour in C), and a
    loop of the model that was given too little fuel. *)
Inductive fault := Hang | OutOfBounds | OutOfFuel.

Inductive outcome (W A : Type) :=
| Done (a : A) (w : W)
| Fault (f : fault).
Arguments Done {W A} a w.
Arguments Fault {W A} f.

Definition M (W A : Type) : Type := W -> outcome W A.

Definition ret {W A} (a : A) : M W A := fun w => Done a w.

Definition bind {W A B} (c : M W A) (k : A -> M W B) : M W B :=
  fun w => match c w with
           | Done a w' => k a w'
           | Fault f => Fault f
           end.

Definition fail {W A} (f : fault) : M W A := fun _ => Fault f.

Declare Scope prog_scope.
Delimit Scope prog_scope with prog.
Notation "x <- c ;; k" := (bind c (fun x => k))
  (at level 100, c at next level, right associativity) : prog_scope.
Notation "c ;; k" := (bind c (fun _ => k))
  (at level 100, right associativity) : prog_scope.
Local Open Scope prog_scope.

(** The device [D] a back-end drives, the bytes at [buf], and the offsets
    the program has stored to, oldest first. *)
Record world (D : Type) := World {
  dev : D;
  ram : list Z;
  stored : list Z
}.
Arguments World {D} dev ram stored.
Arguments dev {D} w.
Arguments ram {D} w.
Arguments stored {D} w.

(** A step of the device alone. *)
Definition on_dev {D A} (f : D -> A * D) : M (world D) A :=
  fun w => let '(a, d) := f (dev w) in Done a (World d (ram w) (stored w)).

(** [buf[i]] as an rvalue. *)
Definition load {D} (i : Z) : M (world D) Z :=
  fun w => if (0 <=? i) && (i <? Z.of_nat (length (ram w)))
           then match ram w !! Z.to_nat i with
                | Some v => Done v w
                | None => Fault OutOfBounds
                end
           else Fault OutOfBounds.

(** [buf[i] = v]. *)
Definition store {D} (i v : Z) : M (world D) unit :=
  fun w => if (0 <=? i) && (i <? Z.of_nat (length (ram w)))
           then Done tt (World (dev w) (<[Z.to_nat i := v]> (ram w)) (stored w ++ [i]))
           else Fault OutOfBounds.

(** [for (size_t i = i0; i < n; i++) body(i)]. *)
Fixpoint for_lt {W} (fuel : nat) (i n : Z) (body : Z -> M W unit) : M W unit :=
  if i <? n then
    match fuel with
    | O => fail OutOfFuel
    | S fuel' => body i ;; for_lt fuel' (size_t (i + 1)) n body
    end
  else ret tt.

(** ** The AVR SPI peripheral *)

(** Modelled from the spec: bit positions in the control and status
    registers, which come from the toolchain's [avr/io.h] and not from this
    repository. The status register "carries the transfer-complete flag
    SPIF in its high bit and the high bit of the clock-select field in its
    low bit"; the control register carries "the low two bits" of that field
    in its own low bits. The enable and master-mode bits [SPE] and [MSTR]
    are parameters of [SdSpi.init]. *)
Definition SPIF : Z := 7.
Definition SPI2X : Z := 0.

(** The state of the peripheral and of port B. The peripheral behaves as
    the AVR documentation that the source refers to describes it: SPDR is
    buffered in the receive direction only, so that a read of it during a
    shift gives the byte received before, and a write to it during a shift
    is a write collision that does not reach the shift register.
    [shifter] holds the byte of a transfer in flight and [shift_left] the
    CPU cycles it still takes; [SPDR_rx] is the receive buffer read through
    SPDR; [mosi] lists the bytes clocked out, oldest first; [clocked] counts
    the bytes taken from MISO; [dr_writes] counts the writes to SPDR. *)
Record avr := Avr {
  PORTB : Z;
  DDRB : Z;
  SPCR : Z;
  SPSR_w : Z;
  SPIF_flag : bool;
  shifter : option Z;
  shift_left : Z;
  SPDR_rx : Z;
  mosi : list Z;
  clocked : nat;
  dr_writes : nat
}.

(** Reading SPSR: the flag, and the writable doubling bit. *)
Definition SPSR (p : avr) : Z :=
  Z.lor (if SPIF_flag p then Z.shiftl 1 SPIF else 0)
        (Z.land (SPSR_w p) (Z.shiftl 1 SPI2X)).

(** Modelled from the spec: the SCK divisor selected by the clock-select
    field, which is the hardware's table and not part of this repository.
    The spec gives encoded rates 1, 3 and 7 (doubling bit clear) the
    divisors 4, 16 and 128 and rate 4 (doubling bit set) the divisor 32,
    and says that the doubling bit doubles the clock: the two-bit field
    selects 4, 16, 64 or 128, halved when SPI2X is set. *)
Definition sck_divisor (spcr spsr : Z) : Z :=
  let base := match Z.land spcr 3 with
              | 0 => 4
              | 1 => 16
              | 2 => 64
              | _ => 128
              end in
  if Z.testbit spsr SPI2X then base / 2 else base.

(** One SCK period, in CPU clock periods. *)
Definition sck_period (p : avr) : Z := sck_divisor (SPCR p) (SPSR p).

(** The CPU cycles that the shifting of one byte takes: eight SCK
    periods. *)
Definition shift_cycles (p : avr) : Z := 8 * sck_period p.

Section Bus.

(** The byte the slave presents on MISO during the [k]-th transfer. *)
Variable miso : nat -> Z.

(** The CPU cycles from the write to SPDR in one turn of the pipelined
    receive loop to the read of SPDR in the next turn: the store to [buf],
    the four [adiw] (eight cycles) and the loop's own instructions. The
    loop does not poll SPIF: it relies on this time. *)
Variable turn_cycles : Z.

(** The shift of byte [v] ends: [v] has gone out on MOSI, the byte from
    MISO is in the receive buffer, and SPIF rises. *)
Definition shift_complete (v : Z) (p : avr) : avr :=
  Avr (PORTB p) (DDRB p) (SPCR p) (SPSR_w p) true None 0
      (miso (clocked p)) (mosi p ++ [v]) (S (clocked p)) (dr_writes p).

(** [SPDR = v]: starts a transfer and lets SPIF fall; a write while a
    byte is being shifted is ignored by the hardware. That SPIF falls
    with the write, within the cycle of the [nop], is how the
    specification has it; by the data sheet it falls only if SPSR was read
    with SPIF set before, and nothing is shifted unless the peripheral is
    enabled: see [sheet_write_SPDR]. *)
Definition write_SPDR (v : Z) : M (world avr) unit :=
  on_dev (fun p =>
    match shifter p with
    | None => (tt, Avr (PORTB p) (DDRB p) (SPCR p) (SPSR_w p) false (Some v)
                       (shift_cycles p) (SPDR_rx p) (mosi p) (clocked p)
                       (S (dr_writes p)))
    | Some _ => (tt, Avr (PORTB p) (DDRB p) (SPCR p) (SPSR_w p) (SPIF_flag p)
                         (shifter p) (shift_left p) (SPDR_rx p) (mosi p)
                         (clocked p) (S (dr_writes p)))
    end).

(** [SPDR] as an rvalue: the last byte completely received. The flag
    stays as it is; by the data sheet this access, too, lets SPIF fall
    after a read of SPSR has seen it set: see [sheet_read_SPDR]. *)
Definition read_SPDR : M (world avr) Z :=
  on_dev (fun p => (SPDR_rx p, p)).

(** [while (!(SPSR & (1 << SPIF))) {}]: leaves at once when the flag is
    set, else waits for the transfer in flight to end; with nothing in
    flight the flag never rises. *)
Definition spin_SPIF : M (world avr) unit :=
  fun w =>
    if negb (Z.land (SPSR (dev w)) (Z.shiftl 1 SPIF) =? 0) then Done tt w
    else match shifter (dev w) with
         | Some v => Done tt (World (shift_complete v (dev w)) (ram w) (stored w))
         | None => Fault Hang
         end.

(** [asm volatile("nop")]: one cycle, shorter than any shift. *)
Definition nop : M (world avr) unit := ret tt.

(** [turn_cycles] later. *)
Definition elapse (p : avr) : avr :=
  Avr (PORTB p) (DDRB p) (SPCR p) (SPSR_w p) (SPIF_flag p) (shifter p)
      (shift_left p - turn_cycles) (SPDR_rx p) (mosi p) (clocked p)
      (dr_writes p).

(** The four [adiw r24,0] of the receive loop, with the rest of the turn:
    by the next turn the transfer in flight has ended if no more than
    [turn_cycles] were left of it, and is [turn_cycles] further if not. *)
Definition delay_8_cycles : M (world avr) unit :=
  fun w =>
    match shifter (dev w) with
    | Some v =>
        if shift_left (dev w) <=? turn_cycles
        then Done tt (World (shift_complete v (dev w)) (ram w) (stored w))
        else Done tt (World (elapse (dev w)) (ram w) (stored w))
    | None => Done tt w
    end.

End Bus.

(** Writes to the other registers. SPSR keeps what was written to it; a
    read of it sees only the doubling bit of that (see [SPSR]). *)
Definition write_PORTB (v : Z) : M (world avr) unit :=
  on_dev (fun p => (tt, Avr v (DDRB p) (SPCR p) (SPSR_w p) (SPIF_flag p)
                            (shifter p) (shift_left p) (SPDR_rx p) (mosi p)
                            (clocked p) (dr_writes p))).

Definition write_DDRB (v : Z) : M (world avr) unit :=
  on_dev (fun p => (tt, Avr (PORTB p) v (SPCR p) (SPSR_w p) (SPIF_flag p)
                            (shifter p) (shift_left p) (SPDR_rx p) (mosi p)
                            (clocked p) (dr_writes p))).

Definition write_SPCR (v : Z) : M (world avr) unit :=
  on_dev (fun p => (tt, Avr (PORTB p) (DDRB p) v (SPSR_w p) (SPIF_flag p)
                            (shifter p) (shift_left p) (SPDR_rx p) (mosi p)
                            (clocked p) (dr_writes p))).

Definition write_SPSR (v : Z) : M (world avr) unit :=
  on_dev (fun p => (tt, Avr (PORTB p) (DDRB p) (SPCR p) v (SPIF_flag p)
                            (shifter p) (shift_left p) (SPDR_rx p) (mosi p)
                            (clocked p) (dr_writes p))).

Definition read_PORTB : M (world avr) Z := on_dev (fun p => (PORTB p, p)).
Definition read_DDRB : M (world avr) Z := on_dev (fun p => (DDRB p, p)).

(** ** The back-end interface: [class SdSpiBase] *)

Module SdSpiBase.

Record ops (W : Type) := Ops {
  begin : M W unit;
  init : Z -> M W unit;
  receive : M W Z;
  receive_buf : Z -> M W Z;
  send : Z -> M W unit;
  send_buf : Z -> M W unit;
  useSpiTransactions : M W bool
}.
Arguments Ops {W}.
Arguments begin {W}.
Arguments init {W}.
Arguments receive {W}.
Arguments receive_buf {W}.
Arguments send {W}.
Arguments send_buf {W}.
Arguments useSpiTransactions {W}.

End SdSpiBase.

(** ** [class SdSpi]: the AVR registers driven directly *)

Module SdSpi.

(** The loop of [init]: [for (; divisor > b && r < 7; b <<= 1, r += r < 5 ? 1 : 2) {}]
    on [uint8_t b, r]; the result is the final [(b, r)]. *)
Fixpoint init_loop (fuel : nat) (divisor b r : Z) : option (Z * Z) :=
  if (divisor >? b) && (r <? 7) then
    match fuel with
    | O => None
    | S fuel' =>
        init_loop fuel' divisor (uint8 (Z.shiftl b 1))
                  (uint8 (r + (if r <? 5 then 1 else 2)))
    end
  else Some (b, r).

(** The encoded rate [r] that [init] computes from [b = 2], [r = 0]. *)
Definition init_rate (divisor : Z) : option Z :=
  snd <$> init_loop 8 divisor 2 0.

Section Registers.

Variables SPE MSTR : Z.
Variable miso : nat -> Z.
Variable turn_cycles : Z.

(** [begin], the [__AVR_ATmega328P__] branch; the other branch drives the
    same pins through the Arduino core. *)
Definition begin : M (world avr) unit :=
  (v <- read_PORTB ;; write_PORTB (uint8 (Z.lor v (Z.shiftl 1 2)))) ;;
  (v <- read_DDRB ;; write_DDRB (uint8 (Z.lor v (Z.shiftl 1 2)))) ;;
  (v <- read_DDRB ;; write_DDRB (uint8 (Z.lor v (Z.shiftl 1 3)))) ;;
  (v <- read_DDRB ;; write_DDRB (uint8 (Z.lor v (Z.shiftl 1 5)))).

Definition init (divisor : Z) : M (world avr) unit :=
  match init_loop 8 divisor 2 0 with
  | Some (_, r) =>
      write_SPCR
        (uint8 (Z.lor (Z.lor (Z.shiftl 1 SPE) (Z.shiftl 1 MSTR)) (Z.shiftr r 1))) ;;
      write_SPSR (uint8 (if negb (Z.land r 1 =? 0) then 0 else Z.shiftl 1 SPI2X))
  | None => fail OutOfFuel
  end.

Definition receive : M (world avr) Z :=
  write_SPDR 255 ;;
  nop ;;
  spin_SPIF miso ;;
  read_SPDR.

(** [receive(buf, n)]: [if (n-- == 0) return 0;] leaves [n - 1] in [n]. *)
Definition receive_buf (n : Z) : M (world avr) Z :=
  if n =? 0 then ret 0
  else
    let n := size_t (n - 1) in
    write_SPDR 255 ;;
    spin_SPIF miso ;;
    for_lt (Z.to_nat n) 0 n (fun i =>
      b <- read_SPDR ;;
      write_SPDR 255 ;;
      store i b ;;
      delay_8_cycles miso turn_cycles) ;;
    spin_SPIF miso ;;
    b <- read_SPDR ;;
    store n b ;;
    ret 0.

Definition send (data : Z) : M (world avr) unit :=
  write_SPDR data ;;
  nop ;;
  spin_SPIF miso.

(** The [while (1)] of [send(buf, n)], entered with [b] loaded and
    [i] the next offset. *)
Fixpoint send_loop (fuel : nat) (b i n : Z) : M (world avr) unit :=
  match fuel with
  | O => fail OutOfFuel
  | S fuel' =>
      spin_SPIF miso ;;
      write_SPDR b ;;
      if i =? n then ret tt
      else (b' <- load i ;; send_loop fuel' b' (size_t (i + 1)) n)
  end.

Definition send_buf (n : Z) : M (world avr) unit :=
  if n =? 0 then ret tt
  else
    b0 <- load 0 ;;
    write_SPDR b0 ;;
    (if n >? 1 then (b <- load 1 ;; send_loop (Z.to_nat n) b 2 n) else ret tt) ;;
    spin_SPIF miso.

Definition useSpiTransactions : M (world avr) bool := ret true.

Definition as_base : SdSpiBase.ops (world avr) :=
  SdSpiBase.Ops begin init receive receive_buf send send_buf useSpiTransactions.

(** [n] back-to-back calls of the single-byte operations, the caller
    keeping each received byte in [buf[i]] and sending each [buf[i]]. *)
Definition receive_each (n : Z) : M (world avr) unit :=
  for_lt (Z.to_nat n) 0 n (fun i => b <- receive ;; store i b).

Definition send_each (n : Z) : M (world avr) unit :=
  for_lt (Z.to_nat n) 0 n (fun i => b <- load i ;; send b).

End Registers.

End SdSpi.

(** ** The transfer functions of [SdSpi] over any peripheral *)

(** The four accesses that the transfer functions of [SdSpi] make to the
    peripheral: [SPDR = v], [SPDR] as an rvalue,
    [while (!(SPSR & (1 << SPIF))) {}], and the four [adiw] that end a turn
    of the receive loop. *)
Record port (D : Type) := Port {
  SPDR_write : Z -> M (world D) unit;
  SPDR_read : M (world D) Z;
  SPIF_spin : M (world D) unit;
  turn_delay : M (world D) unit
}.
Arguments Port {D}.
Arguments SPDR_write {D}.
Arguments SPDR_read {D}.
Arguments SPIF_spin {D}.
Arguments turn_delay {D}.

(** Lines 324 to 376 of the source once more, the accesses to the
    peripheral taken from a port [P]: the program text of [SdSpi.receive],
    [SdSpi.receive_buf], [SdSpi.send] and [SdSpi.send_buf], which are these
    functions at [plain_port]. *)
Module SdSpiOn.

Section Bodies.

Context {D : Type}.
Variable P : port D.

Definition receive : M (world D) Z :=
  SPDR_write P 255 ;;
  ret tt ;;
  SPIF_spin P ;;
  SPDR_read P.

Definition receive_buf (n : Z) : M (world D) Z :=
  if n =? 0 then ret 0
  else
    let n := size_t (n - 1) in
    SPDR_write P 255 ;;
    SPIF_spin P ;;
    for_lt (Z.to_nat n) 0 n (fun i =>
      b <- SPDR_read P ;;
      SPDR_write P 255 ;;
      store i b ;;
      turn_delay P) ;;
    SPIF_spin P ;;
    b <- SPDR_read P ;;
    store n b ;;
    ret 0.

Definition send (data : Z) : M (world D) unit :=
  SPDR_write P data ;;
  ret tt ;;
  SPIF_spin P.

Fixpoint send_loop (fuel : nat) (b i n : Z) : M (world D) unit :=
  match fuel with
  | O => fail OutOfFuel
  | S fuel' =>
      SPIF_spin P ;;
      SPDR_write P b ;;
      if i =? n then ret tt
      else (b' <- load i ;; send_loop fuel' b' (size_t (i + 1)) n)
  end.

Definition send_buf (n : Z) : M (world D) unit :=
  if n =? 0 then ret tt
  else
    b0 <- load 0 ;;
    SPDR_write P b0 ;;
    (if n >? 1 then (b <- load 1 ;; send_loop (Z.to_nat n) b 2 n) else ret tt) ;;
    SPIF_spin P.

(** [for (i = 0; i < n; i++) buf[i] = receive();] and
    [for (i = 0; i < n; i++) send(buf[i]);]. *)
Definition receive_each (n : Z) : M (world D) unit :=
  for_lt (Z.to_nat n) 0 n (fun i => b <- receive ;; store i b).

Definition send_each (n : Z) : M (world D) unit :=
  for_lt (Z.to_nat n) 0 n (fun i => b <- load i ;; send b).

End Bodies.

End SdSpiOn.

(** The port of the peripheral of [Section Bus]. *)
Definition plain_port (miso : nat -> Z) (turn_cycles : Z) : port avr :=
  Port write_SPDR read_SPDR (spin_SPIF miso) (delay_8_cycles miso turn_cycles).

(** An access to the peripheral leaves the buffer alone. *)
Definition keeps_buffer {D A} (c : M (world D) A) : Prop :=
  forall w a w', c w = Done a w' -> ram w' = ram w.

Definition port_keeps_buffer {D} (P : port D) : Prop :=
  (forall v, keeps_buffer (SPDR_write P v)) /\
  keeps_buffer (SPDR_read P) /\
  keeps_buffer (SPIF_spin P) /\
  keeps_buffer (turn_delay P).

(** ** [class SdSpiLib]: the Arduino SPI library *)

Module SdSpiLib.

(** Modelled from the spec: the global [SPI] object of the platform's
    [SPI.h], which is not part of this repository: "an opaque platform SPI
    service that exposes begin, setBitOrder, setDataMode, setClockDivider,
    and a blocking transfer(byte) returning the byte shifted in". The
    setters record their last argument; [sent] lists the bytes handed to
    [transfer], oldest first. *)
Record SPIClass := Spi {
  begun : bool;
  bitOrder : option Z;
  dataMode : option Z;
  clockDivider : option Z;
  sent : list Z
}.

(** The constants the back-end takes from the platform's headers. The
    divider constants exist only where [SPI.h] defines [SPI_CLOCK_DIV128]. *)
Record clock_dividers := ClockDividers {
  SPI_CLOCK_DIV2 : Z;
  SPI_CLOCK_DIV4 : Z;
  SPI_CLOCK_DIV8 : Z;
  SPI_CLOCK_DIV16 : Z;
  SPI_CLOCK_DIV32 : Z;
  SPI_CLOCK_DIV64 : Z;
  SPI_CLOCK_DIV128 : Z
}.

Record headers := Headers {
  MSBFIRST : Z;
  SPI_MODE0 : Z;
  dividers : option clock_dividers
}.

Section Library.

Variable miso : nat -> Z.
Variable platform : headers.

Definition SPI_begin : M (world SPIClass) unit :=
  on_dev (fun s => (tt, Spi true (bitOrder s) (dataMode s) (clockDivider s) (sent s))).

Definition SPI_setBitOrder (v : Z) : M (world SPIClass) unit :=
  on_dev (fun s => (tt, Spi (begun s) (Some v) (dataMode s) (clockDivider s) (sent s))).

Definition SPI_setDataMode (v : Z) : M (world SPIClass) unit :=
  on_dev (fun s => (tt, Spi (begun s) (bitOrder s) (Some v) (clockDivider s) (sent s))).

Definition SPI_setClockDivider (v : Z) : M (world SPIClass) unit :=
  on_dev (fun s => (tt, Spi (begun s) (bitOrder s) (dataMode s) (Some v) (sent s))).

Definition SPI_transfer (b : Z) : M (world SPIClass) Z :=
  on_dev (fun s => (miso (length (sent s)),
                    Spi (begun s) (bitOrder s) (dataMode s) (clockDivider s)
                        (sent s ++ [b]))).

Definition begin : M (world SPIClass) unit := SPI_begin.

(** [init]: the [#ifndef SPI_CLOCK_DIV128] branch passes [divisor] on,
    the [#else] branch picks a constant. *)
Definition init (divisor : Z) : M (world SPIClass) unit :=
  SPI_setBitOrder (MSBFIRST platform) ;;
  SPI_setDataMode (SPI_MODE0 platform) ;;
  match dividers platform with
  | None => SPI_setClockDivider divisor
  | Some c =>
      let v :=
        if divisor <=? 2 then SPI_CLOCK_DIV2 c
        else if divisor <=? 4 then SPI_CLOCK_DIV4 c
        else if divisor <=? 8 then SPI_CLOCK_DIV8 c
        else if divisor <=? 16 then SPI_CLOCK_DIV16 c
        else if divisor <=? 32 then SPI_CLOCK_DIV32 c
        else if divisor <=? 64 then SPI_CLOCK_DIV64 c
        else SPI_CLOCK_DIV128 c in
      SPI_setClockDivider v
  end.

Definition receive : M (world SPIClass) Z := SPI_transfer 255.

Definition receive_buf (n : Z) : M (world SPIClass) Z :=
  for_lt (Z.to_nat n) 0 n (fun i => b <- SPI_transfer 255 ;; store i b) ;;
  ret 0.

Definition send (b : Z) : M (world SPIClass) unit :=
  SPI_transfer b ;; ret tt.

Definition send_buf (n : Z) : M (world SPIClass) unit :=
  for_lt (Z.to_nat n) 0 n (fun i => b <- load i ;; SPI_transfer b ;; ret tt).

Definition useSpiTransactions : M (world SPIClass) bool := ret true.

Definition as_base : SdSpiBase.ops (world SPIClass) :=
  SdSpiBase.Ops begin init receive receive_buf send send_buf useSpiTransactions.

End Library.

End SdSpiLib.

(** ** [class SdSpiSoft]: bit-banged SPI *)

Module SdSpiSoft.

Section Soft.

(** The member [m_spi : SoftSPI<MisoPin, MosiPin, SckPin, 0>] of
    [utility/SoftSPI.h]: its state and its three operations are parameters;
    the template's pins select the instance. *)
Variable SoftSPI : Type.
Variable m_spi_begin : SoftSPI -> SoftSPI.
Variable m_spi_receive : SoftSPI -> Z * SoftSPI.
Variable m_spi_send : Z -> SoftSPI -> SoftSPI.

Definition begin : M (world SoftSPI) unit :=
  on_dev (fun s => (tt, m_spi_begin s)).

Definition init (divisor : Z) : M (world SoftSPI) unit := ret tt.

Definition receive : M (world SoftSPI) Z := on_dev m_spi_receive.

Definition receive_buf (n : Z) : M (world SoftSPI) Z :=
  for_lt (Z.to_nat n) 0 n (fun i => b <- receive ;; store i b) ;;
  ret 0.

Definition send (data : Z) : M (world SoftSPI) unit :=
  on_dev (fun s => (tt, m_spi_send data s)).

Definition send_buf (n : Z) : M (world SoftSPI) unit :=
  for_lt (Z.to_nat n) 0 n (fun i => b <- load i ;; send b).

Definition useSpiTransactions : M (world SoftSPI) bool := ret false.

Definition as_base : SdSpiBase.ops (world SoftSPI) :=
  SdSpiBase.Ops begin init receive receive_buf send send_buf useSpiTransactions.

End Soft.

End SdSpiSoft.

(** ** What is observed of a configured peripheral *)

(** The divisors the peripheral can be set to. *)
Definition supported_divisors : list Z := [2; 4; 8; 16; 32; 64; 128].

(** The SCK rate for a CPU clock of [f_cpu] Hz. *)
Definition sck_hz (f_cpu : Z) (p : avr) : Z := f_cpu / sck_period p.

(** A period of at least [d] and less than [2 d] CPU periods. *)
Definition in_band (d period : Z) : Prop := d <= period < 2 * d.

(** The divisor each encoded rate of [SdSpi.init] stands for. *)
Definition rate_divisors : list (Z * Z) :=
  [(0, 2); (1, 4); (2, 8); (3, 16); (4, 32); (5, 64); (7, 128)].

(** [k] is the smallest supported divisor not below [d], and 128 when
    [d] is above them all. *)
Definition smallest_supported (d k : Z) : Prop :=
  k ∈ supported_divisors /\
  (d <= 128 -> d <= k /\ forall s, s ∈ supported_divisors -> d <= s -> k <= s) /\
  (128 < d -> k = 128).

(** Requested divisors and the SCK rates in Hz they give with a 16 MHz
    CPU clock. *)
Definition rates_at_16MHz : list (Z * Z) :=
  [(1, 8000000); (2, 8000000); (3, 4000000); (128, 125000); (129, 125000)].

(** The registers after reset, and after [begin(); init(2)] from reset
    with the enable bit at 6 and the master bit at 4: SCK at half the CPU
    clock. *)
Definition power_on : avr := Avr 0 0 0 0 false None 0 0 [] 0 0.

Definition full_speed : avr := Avr 4 44 80 1 false None 0 0 [] 0 0.

(** The platform's meaning of the divider constants: [divider_of] gives
    the SCK divisor that an argument of [setClockDivider] selects. The
    platform has the full power-of-two ladder when each constant selects
    the divisor in its name. *)
Definition full_ladder (divider_of : Z -> Z) (c : SdSpiLib.clock_dividers) : Prop :=
  divider_of (SdSpiLib.SPI_CLOCK_DIV2 c) = 2 /\
  divider_of (SdSpiLib.SPI_CLOCK_DIV4 c) = 4 /\
  divider_of (SdSpiLib.SPI_CLOCK_DIV8 c) = 8 /\
  divider_of (SdSpiLib.SPI_CLOCK_DIV16 c) = 16 /\
  divider_of (SdSpiLib.SPI_CLOCK_DIV32 c) = 32 /\
  divider_of (SdSpiLib.SPI_CLOCK_DIV64 c) = 64 /\
  divider_of (SdSpiLib.SPI_CLOCK_DIV128 c) = 128.

(** One platform with the ladder: the constants of the Arduino AVR core,
    whose divider constants are the clock-select bits themselves. *)
Definition avr_core_dividers : SdSpiLib.clock_dividers :=
  SdSpiLib.ClockDividers 4 0 5 1 6 2 3.

Definition avr_core : SdSpiLib.headers :=
  SdSpiLib.Headers 1 0 (Some avr_core_dividers).

Definition avr_core_divider_of (v : Z) : Z :=
  sck_divisor v (Z.shiftr v 2).


(** The SPI library before [begin]. *)
Definition SPI_fresh : SdSpiLib.SPIClass := SdSpiLib.Spi false None None None [].

(** ** Whole transfers *)

(** The states that the single-byte operations lead through, in closed
    form; the multi-byte loops are compared with these. *)
Section Transfers.

Variable miso : nat -> Z.

(** An idle bus after [v] was written to SPDR. *)
Definition started (v : Z) (p : avr) : avr :=
  Avr (PORTB p) (DDRB p) (SPCR p) (SPSR_w p) false (Some v) (shift_cycles p)
      (SPDR_rx p) (mosi p) (clocked p) (S (dr_writes p)).

(** A transfer of [v] on an idle bus, from the write to SPDR to the end
    of the shift. *)
Definition xfer (v : Z) (p : avr) : avr :=
  Avr (PORTB p) (DDRB p) (SPCR p) (SPSR_w p) true None 0
      (miso (clocked p)) (mosi p ++ [v]) (S (clocked p)) (S (dr_writes p)).

(** The world after [k] bytes were received with the dummy byte 0xFF and
    kept in [buf[0]] to [buf[k - 1]]. *)
Fixpoint received (k : nat) (w : world avr) : world avr :=
  match k with
  | O => w
  | S k' =>
      let w' := received k' w in
      let p := xfer 255 (dev w') in
      World p (<[k' := SPDR_rx p]> (ram w')) (stored w' ++ [Z.of_nat k'])
  end.

(** The peripheral after the bytes [vs] were sent one after the other. *)
Definition sent_all (vs : list Z) (p : avr) : avr :=
  foldl (fun q v => xfer v q) p vs.

End Transfers.

(** The bus can still raise SPIF: the flag is up, or a byte is on its way. *)
Definition live (p : avr) : Prop :=
  SPIF_flag p = true \/ is_Some (shifter p).

(** The flag is not up while a byte is on its way; so it is on an idle
    bus, and after any operation that began on one. *)
Definition coherent (p : avr) : Prop :=
  SPIF_flag p = true -> shifter p = None.

(** A slave that answers the [k]-th transfer with the byte [k + 1]. *)
Definition counting_slave (k : nat) : Z := Z.of_nat k + 1.

(** ** A caller of the single-byte operations *)


Section Callers.

Variable miso : nat -> Z.




End Callers.

(** ** The peripheral with the flag rule of the data sheet *)

(** The peripheral of [Section Bus] lets SPIF fall with the write to SPDR
    that starts a transfer, and shifts whatever SPCR holds. The AVR
    hardware, to whose documentation the source refers, is more
    particular, and the difference shows as soon as the receive loop runs
    with a delay shorter than the shift: SPIF falls only
    on an access to SPDR, read or write, that follows a read of SPSR with
    SPIF set; and the peripheral shifts, as the master that this driver
    makes of it, only while the enable bit and the master bit of SPCR are
    set. [sheet] adds to the registers what the first rule needs:
    [SPSR_seen] holds when SPSR was read with SPIF set and SPDR has not
    been accessed since. The hardware clears the master bit by itself when
    the slave-select pin is an input and driven low; the pins are not part
    of this model, whose statements are about a bus with SS an output, as
    [begin] makes it. *)
Record sheet := Sheet {
  regs : avr;
  SPSR_seen : bool
}.

Definition lower_SPIF (p : avr) : avr :=
  Avr (PORTB p) (DDRB p) (SPCR p) (SPSR_w p) false (shifter p) (shift_left p)
      (SPDR_rx p) (mosi p) (clocked p) (dr_writes p).

(** An access to SPDR: SPIF falls if a read of SPSR has seen it set. *)
Definition SPDR_access (q : sheet) : sheet :=
  if SPSR_seen q then Sheet (lower_SPIF (regs q)) false else q.

(** SS, bit 2 of port B, is an output: the hardware then leaves the
    master bit of SPCR alone. *)
Definition SS_output (p : avr) : bool := Z.testbit (DDRB p) 2.

Section SheetBus.

(** The positions of the enable and master bits in SPCR, as in
    [SdSpi.init]. *)
Variables SPE MSTR : Z.
Variable miso : nat -> Z.
Variable turn_cycles : Z.

Definition SPI_master (p : avr) : bool :=
  Z.testbit (SPCR p) SPE && Z.testbit (SPCR p) MSTR.

(** The data written to SPDR reaches the shift register, and starts a
    transfer, when the peripheral is an enabled master and no byte is being
    shifted; SPIF is not touched. *)
Definition load_shifter (v : Z) (p : avr) : avr :=
  match shifter p with
  | None =>
      if SPI_master p
      then Avr (PORTB p) (DDRB p) (SPCR p) (SPSR_w p) (SPIF_flag p) (Some v)
               (shift_cycles p) (SPDR_rx p) (mosi p) (clocked p)
               (S (dr_writes p))
      else Avr (PORTB p) (DDRB p) (SPCR p) (SPSR_w p) (SPIF_flag p) None
               (shift_left p) (SPDR_rx p) (mosi p) (clocked p)
               (S (dr_writes p))
  | Some u =>
      Avr (PORTB p) (DDRB p) (SPCR p) (SPSR_w p) (SPIF_flag p) (Some u)
          (shift_left p) (SPDR_rx p) (mosi p) (clocked p) (S (dr_writes p))
  end.

(** [SPDR = v]. *)
Definition sheet_write_SPDR (v : Z) : M (world sheet) unit :=
  on_dev (fun q =>
    (tt, Sheet (load_shifter v (regs (SPDR_access q)))
               (SPSR_seen (SPDR_access q)))).

(** [SPDR] as an rvalue. *)
Definition sheet_read_SPDR : M (world sheet) Z :=
  on_dev (fun q => (SPDR_rx (regs q), SPDR_access q)).

(** [while (!(SPSR & (1 << SPIF))) {}]: the read of SPSR that finds SPIF
    set is the one that lets the next access to SPDR clear it. *)
Definition sheet_spin_SPIF : M (world sheet) unit :=
  fun w =>
    let p := regs (dev w) in
    if negb (Z.land (SPSR p) (Z.shiftl 1 SPIF) =? 0)
    then Done tt (World (Sheet p true) (ram w) (stored w))
    else match shifter p with
         | Some v =>
             Done tt (World (Sheet (shift_complete miso v p) true)
                            (ram w) (stored w))
         | None => Fault Hang
         end.

(** The four [adiw] with the rest of the turn, as [delay_8_cycles]. *)
Definition sheet_delay : M (world sheet) unit :=
  on_dev (fun q =>
    (tt, match shifter (regs q) with
         | Some v =>
             if shift_left (regs q) <=? turn_cycles
             then Sheet (shift_complete miso v (regs q)) (SPSR_seen q)
             else Sheet (elapse turn_cycles (regs q)) (SPSR_seen q)
         | None => q
         end)).

Definition sheet_port : port sheet :=
  Port sheet_write_SPDR sheet_read_SPDR sheet_spin_SPIF sheet_delay.

(** The bus as every transfer function expects to find it: the peripheral
    is an enabled master and stays one, no byte is being shifted, and SPIF
    is not up unless a spin has seen it. *)
Definition quiescent (q : sheet) : Prop :=
  SPI_master (regs q) = true /\
  SS_output (regs q) = true /\
  shifter (regs q) = None /\
  (SPIF_flag (regs q) = true -> SPSR_seen q = true).

(** A transfer of [v] on a quiescent bus, from the write to SPDR to the
    spin that sees its end. *)
Definition sheet_xfer (v : Z) (q : sheet) : sheet :=
  Sheet (xfer miso v (regs q)) true.

Definition sheet_sent_all (vs : list Z) (q : sheet) : sheet :=
  foldl (fun q v => sheet_xfer v q) q vs.

End SheetBus.

(** [begin] and [init], which touch neither SPDR nor the flag. *)
Definition on_regs {A} (c : M (world avr) A) : M (world sheet) A :=
  fun w =>
    match c (World (regs (dev w)) (ram w) (stored w)) with
    | Done a w' =>
        Done a (World (Sheet (dev w') (SPSR_seen (dev w))) (ram w') (stored w'))
    | Fault f => Fault f
    end.

(** The registers of a world, for the peripheral of [Section Bus]. *)
Definition plain_world (w : world sheet) : world avr :=
  World (regs (dev w)) (ram w) (stored w).

(** Two worlds that differ in SPIF at most. *)
Definition same_up_to_SPIF (wp : world avr) (ws : world sheet) : Prop :=
  lower_SPIF (dev wp) = lower_SPIF (regs (dev ws)) /\
  ram wp = ram ws /\ stored wp = stored ws.

(** [power_on] and [full_speed] with no read of SPSR pending, and the
    state after [begin(); init(128)]. *)
Definition sheet_power_on : sheet := Sheet power_on false.
Definition sheet_full_speed : sheet := Sheet full_speed false.
Definition sheet_slow : sheet := Sheet (Avr 4 44 83 0 false None 0 0 [] 0 0) false.

(** The world after [k] bytes were received on a quiescent bus and kept
    in [buf[0]] to [buf[k - 1]]: [received], with SPIF cleared by the read
    of SPDR that ends [receive()]. *)
Definition sheet_received (miso : nat -> Z) (k : nat) (w : world sheet) : world sheet :=
  match k with
  | O => w
  | S _ =>
      let r := received miso k (plain_world w) in
      World (Sheet (lower_SPIF (dev r)) false) (ram r) (stored r)
  end.

(** What the receive loop keeps at any clock rate, before turn [i]: [k]
    dummy bytes have gone out and [k] bytes have come in, one more is
    perhaps on its way, SPDR was written [i + 1] times, and only before
    the first turn has a spin seen SPIF. *)
Definition sheet_receiving (SPE MSTR : Z) (miso : nat -> Z) (w : world sheet)
    (i : Z) (w' : world sheet) : Prop :=
  exists k : nat,
    (1 <= k)%nat /\
    ((shifter (regs (dev w')) = None /\ SPIF_flag (regs (dev w')) = true /\
      Z.of_nat k <= i + 1) \/
     (shifter (regs (dev w')) = Some 255 /\ Z.of_nat k <= i)) /\
    SPSR_seen (dev w') = (i =? 0) /\
    SPI_master SPE MSTR (regs (dev w')) = true /\
    mosi (regs (dev w')) = mosi (regs (dev w)) ++ replicate k 255 /\
    clocked (regs (dev w')) = (clocked (regs (dev w)) + k)%nat /\
    dr_writes (regs (dev w')) = (dr_writes (regs (dev w)) + Z.to_nat (i + 1))%nat /\
    (i = 0 -> SPDR_rx (regs (dev w')) = miso (clocked (regs (dev w)))) /\
    (1 <= i -> ram w' !! 0%nat = Some (miso (clocked (regs (dev w))))) /\
    length (ram w') = length (ram w).

(** ** Buffers filled by a device *)

(** The world after [k] turns of [buf[i] = get()], where [get] is the
    step [f] of the device. *)
Fixpoint filled {D} (f : D -> Z * D) (k : nat) (w : world D) : world D :=
  match k with
  | O => w
  | S k' =>
      let w' := filled f k' w in
      World (snd (f (dev w'))) (<[k' := fst (f (dev w'))]> (ram w'))
            (stored w' ++ [Z.of_nat k'])
  end.

(** The step of [SPI.transfer(b)] on the state of the library. *)
Definition SPI_exchange (miso : nat -> Z) (b : Z) (s : SdSpiLib.SPIClass) :
    Z * SdSpiLib.SPIClass :=
  (miso (length (SdSpiLib.sent s)),
   SdSpiLib.Spi (SdSpiLib.begun s) (SdSpiLib.bitOrder s) (SdSpiLib.dataMode s)
                (SdSpiLib.clockDivider s) (SdSpiLib.sent s ++ [b])).

(** ** The build configuration: [SD_SPI_CONFIGURATION] *)

Module Config.

Inductive backend := SdSpi_class | SdSpiLib_class | SdSpiSoft_class.

(** [typedef ... SpiDefault_t], [None] where the chain ends in [#error]. *)
Definition SpiDefault_t (SD_SPI_CONFIGURATION : Z) : option backend :=
  if (SD_SPI_CONFIGURATION =? 0) || (SD_SPI_CONFIGURATION >=? 3) then
    Some SdSpi_class
  else if SD_SPI_CONFIGURATION =? 1 then Some SdSpiLib_class
  else if SD_SPI_CONFIGURATION =? 2 then Some SdSpiSoft_class
  else None.

(** The classes whose definition the preprocessor lets through. *)
Definition defined (SD_SPI_CONFIGURATION : Z) (DOXYGEN : bool) (c : backend) : bool :=
  match c with
  | SdSpi_class => true
  | SdSpiLib_class =>
      (SD_SPI_CONFIGURATION >=? 3) || (SD_SPI_CONFIGURATION =? 1) || DOXYGEN
  | SdSpiSoft_class => (SD_SPI_CONFIGURATION >? 1) || DOXYGEN
  end.

(** Whether a class is declared [: public SdSpiBase]. *)
Definition derives_SdSpiBase (SD_SPI_CONFIGURATION : Z) (c : backend) : bool :=
  match c with
  | SdSpi_class | SdSpiLib_class => SD_SPI_CONFIGURATION >=? 3
  | SdSpiSoft_class => true
  end.

End Config.

(** * Properties *)

(** ** Running programs *)

Lemma bind_Done {W A B} (c : M W A) (k : A -> M W B) w a w' :
  c w = Done a w' -> bind c k w = k a w'.
Proof. unfold bind. now intros ->. Qed.

Lemma bind_Done_inv {W A B} (c : M W A) (k : A -> M W B) w b w2 :
  bind c k w = Done b w2 ->
  exists a w1, c w = Done a w1 /\ k a w1 = Done b w2.
Proof.
  unfold bind. destruct (c w) as [a w1|f]; [|discriminate].
  intros H. now exists a, w1.
Qed.

Lemma size_t_small i : 0 <= i < 65536 -> size_t i = i.
Proof. intros H. unfold size_t. now apply Z.mod_small. Qed.

(** The rule for a counted loop: an invariant [P] kept by every turn
    holds at the end, and the fuel [n - i] is enough. *)
Lemma for_lt_rule {W} (P : Z -> W -> Prop) (body : Z -> M W unit) n :
  0 <= n < 65536 ->
  (forall i w, 0 <= i < n -> P i w ->
     exists w', body i w = Done tt w' /\ P (i + 1) w') ->
  forall fuel i w,
    0 <= i <= n -> n - i <= Z.of_nat fuel -> P i w ->
    exists w', for_lt fuel i n body w = Done tt w' /\ P n w'.
Proof.
  intros Hn Hbody fuel.
  induction fuel as [|fuel IH]; intros i w Hi Hfuel HP.
  - assert (i = n) as -> by lia.
    exists w. simpl. rewrite Z.ltb_irrefl. now split.
  - simpl. destruct (Z.ltb_spec i n) as [Hlt|Hge].
    + destruct (Hbody i w) as (w1 & Hrun & HP1); [lia|assumption|].
      rewrite (bind_Done _ _ _ _ _ Hrun).
      rewrite size_t_small by lia.
      apply IH; [lia|lia|assumption].
    + assert (i = n) as -> by lia.
      exists w. now split.
Qed.

(** ** The buffer *)

Lemma load_in {D} (w : world D) i v :
  0 <= i -> ram w !! Z.to_nat i = Some v -> load i w = Done v w.
Proof.
  intros Hi Hv. unfold load.
  pose proof (lookup_lt_Some _ _ _ Hv) as Hlen.
  destruct (Z.leb_spec 0 i); [|lia].
  destruct (Z.ltb_spec i (Z.of_nat (length (ram w)))); [|lia].
  simpl. now rewrite Hv.
Qed.

Lemma store_in {D} (w : world D) i v :
  0 <= i < Z.of_nat (length (ram w)) ->
  store i v w = Done tt (World (dev w) (<[Z.to_nat i := v]> (ram w)) (stored w ++ [i])).
Proof.
  intros Hi. unfold store.
  destruct (Z.leb_spec 0 i); [|lia].
  destruct (Z.ltb_spec i (Z.of_nat (length (ram w)))); [|lia].
  reflexivity.
Qed.

(** ** The status flag *)

Lemma SPSR_SPIF p :
  negb (Z.land (SPSR p) (Z.shiftl 1 SPIF) =? 0) = SPIF_flag p.
Proof.
  unfold SPSR. change (Z.shiftl 1 SPIF) with 128.
  change (Z.shiftl 1 SPI2X) with 1.
  rewrite Z.land_lor_distr_l, <- Z.land_assoc.
  change (Z.land 1 128) with 0. rewrite Z.land_0_r, Z.lor_0_r.
  now destruct (SPIF_flag p).
Qed.

Lemma SPSR_SPI2X p : Z.testbit (SPSR p) SPI2X = Z.testbit (SPSR_w p) 0.
Proof.
  unfold SPSR. change (Z.shiftl 1 SPIF) with 128.
  change (Z.shiftl 1 SPI2X) with 1. change SPI2X with 0.
  rewrite Z.lor_spec, Z.land_spec.
  destruct (SPIF_flag p); simpl; now rewrite andb_true_r.
Qed.

Lemma spin_SPIF_set miso (w : world avr) :
  SPIF_flag (dev w) = true -> spin_SPIF miso w = Done tt w.
Proof. intros H. unfold spin_SPIF. now rewrite SPSR_SPIF, H. Qed.

Lemma spin_SPIF_busy miso (w : world avr) v :
  SPIF_flag (dev w) = false -> shifter (dev w) = Some v ->
  spin_SPIF miso w = Done tt (World (shift_complete miso v (dev w)) (ram w) (stored w)).
Proof. intros H Hv. unfold spin_SPIF. now rewrite SPSR_SPIF, H, Hv. Qed.

(** ** [SdSpi.init] *)

Lemma init_loop_stop fuel d b r :
  d <= b \/ 7 <= r -> SdSpi.init_loop fuel d b r = Some (b, r).
Proof.
  intros H. destruct fuel; simpl; rewrite Z.gtb_ltb;
    (destruct (Z.ltb_spec b d); destruct (Z.ltb_spec r 7); simpl;
     lia || reflexivity).
Qed.

Lemma init_loop_turn fuel d b r b' r' :
  b < d -> r < 7 ->
  uint8 (Z.shiftl b 1) = b' -> uint8 (r + (if r <? 5 then 1 else 2)) = r' ->
  SdSpi.init_loop (S fuel) d b r = SdSpi.init_loop fuel d b' r'.
Proof.
  intros Hb Hr <- <-. simpl. rewrite Z.gtb_ltb.
  destruct (Z.ltb_spec b d); [|lia]. destruct (Z.ltb_spec r 7); [|lia].
  reflexivity.
Qed.

(** One more turn of the loop from [(b, r)], or the exit there. *)
Ltac init_turn d b r b' r' :=
  let H := fresh "Hd" in
  destruct (Z.le_gt_cases d b) as [H|H];
  [ left; split; [lia | apply init_loop_stop; lia]
  | right; rewrite (init_loop_turn _ d b r b' r') by (lia || reflexivity) ].

(** The loop leaves with the first [b] of 2, 4, ..., 128 that is not
    below [divisor], and with 128 when there is none; eight turns of fuel
    are enough. *)
Lemma init_loop_cases d :
  (d <= 2 /\ SdSpi.init_loop 8 d 2 0 = Some (2, 0)) \/
  (2 < d <= 4 /\ SdSpi.init_loop 8 d 2 0 = Some (4, 1)) \/
  (4 < d <= 8 /\ SdSpi.init_loop 8 d 2 0 = Some (8, 2)) \/
  (8 < d <= 16 /\ SdSpi.init_loop 8 d 2 0 = Some (16, 3)) \/
  (16 < d <= 32 /\ SdSpi.init_loop 8 d 2 0 = Some (32, 4)) \/
  (32 < d <= 64 /\ SdSpi.init_loop 8 d 2 0 = Some (64, 5)) \/
  (64 < d /\ SdSpi.init_loop 8 d 2 0 = Some (128, 7)).
Proof.
  init_turn d 2 0 4 1.
  init_turn d 4 1 8 2.
  init_turn d 8 2 16 3.
  init_turn d 16 3 32 4.
  init_turn d 32 4 64 5.
  init_turn d 64 5 128 7.
  split; [lia | apply init_loop_stop; lia].
Qed.

Lemma bit_position_cases k :
  2 <= k <= 7 -> k = 2 \/ k = 3 \/ k = 4 \/ k = 5 \/ k = 6 \/ k = 7.
Proof. lia. Qed.

(** The enable and master bits lie above the clock-select field. *)
Lemma clock_select_field SPE MSTR r :
  2 <= SPE <= 7 -> 2 <= MSTR <= 7 -> 0 <= r <= 7 ->
  Z.land
    (uint8 (Z.lor (Z.lor (Z.shiftl 1 SPE) (Z.shiftl 1 MSTR)) (Z.shiftr r 1))) 3
  = Z.shiftr r 1.
Proof.
  intros HE HM Hr.
  assert (r = 0 \/ r = 1 \/ r = 2 \/ r = 3 \/ r = 4 \/ r = 5 \/ r = 6 \/ r = 7)
    as Hcases by lia.
  destruct (bit_position_cases SPE HE) as [->|[->|[->|[->|[->| ->]]]]];
  destruct (bit_position_cases MSTR HM) as [->|[->|[->|[->|[->| ->]]]]];
  destruct Hcases as [->|[->|[->|[->|[->|[->|[->| ->]]]]]]];
  reflexivity.
Qed.

(** What [init] leaves in the registers, for the rate [r] its loop ends
    with: the top two bits of [r] in the clock-select field of SPCR, the
    doubling bit of SPSR set exactly when [r] is even, and nothing else of
    the peripheral, the buffer or the store log changed. *)
Lemma init_registers SPE MSTR d w b r :
  2 <= SPE <= 7 -> 2 <= MSTR <= 7 -> 0 <= r <= 7 ->
  SdSpi.init_loop 8 d 2 0 = Some (b, r) ->
  exists w',
    SdSpi.init SPE MSTR d w = Done tt w' /\
    Z.land (SPCR (dev w')) 3 = Z.shiftr r 1 /\
    Z.testbit (SPSR (dev w')) SPI2X = Z.even r /\
    Z.testbit (SPCR (dev w')) SPE = true /\
    Z.testbit (SPCR (dev w')) MSTR = true /\
    shifter (dev w') = shifter (dev w) /\
    mosi (dev w') = mosi (dev w) /\
    ram w' = ram w /\ stored w' = stored w.
Proof.
  intros HE HM Hr Hloop. unfold SdSpi.init. rewrite Hloop.
  eexists. split; [reflexivity|]. cbn [dev SPCR shifter mosi ram stored].
  split; [now apply clock_select_field|].
  split.
  { rewrite SPSR_SPI2X. cbn [SPSR_w].
    assert (r = 0 \/ r = 1 \/ r = 2 \/ r = 3 \/ r = 4 \/ r = 5 \/ r = 6 \/ r = 7)
      as Hcases by lia.
    destruct Hcases as [->|[->|[->|[->|[->|[->|[->| ->]]]]]]]; reflexivity. }
  unfold uint8 at 1 2. change 256 with (2 ^ 8).
  rewrite !Z.mod_pow2_bits_low by lia.
  split.
  { rewrite !Z.lor_spec, Z.shiftl_spec, Z.sub_diag by lia. reflexivity. }
  split.
  { rewrite !Z.lor_spec, (Z.shiftl_spec 1 MSTR), Z.sub_diag by lia.
    simpl. now rewrite orb_true_r. }
  repeat split; reflexivity.
Qed.

(** The period that the two register fields select. *)
Lemma sck_period_fields p r k :
  (r, k) ∈ rate_divisors ->
  Z.land (SPCR p) 3 = Z.shiftr r 1 ->
  Z.testbit (SPSR p) SPI2X = Z.even r ->
  sck_period p = k.
Proof.
  intros Hin Hcr Hsr. unfold sck_period, sck_divisor. rewrite Hcr, Hsr.
  unfold rate_divisors in Hin.
  repeat (apply elem_of_cons in Hin as [[= -> ->]|Hin]; [reflexivity|]).
  now apply elem_of_nil in Hin.
Qed.

Ltac init_case Hrun Hl r k :=
  let w' := fresh "w'" in
  destruct (Hrun _ r k Hl) as (w' & ? & ? & ? & ? & ? & ?); [repeat constructor|lia|];
  exists w', r, k; do 6 (split; [assumption|]); lia.

(** [init] returns, and the period it configures follows the ladder. *)
Lemma init_cases SPE MSTR d w :
  2 <= SPE <= 7 -> 2 <= MSTR <= 7 ->
  exists w' r k,
    SdSpi.init SPE MSTR d w = Done tt w' /\
    SdSpi.init_rate d = Some r /\
    (r, k) ∈ rate_divisors /\
    sck_period (dev w') = k /\
    Z.land (SPCR (dev w')) 3 = Z.shiftr r 1 /\
    Z.testbit (SPSR (dev w')) SPI2X = Z.even r /\
    ((d <= 2 /\ k = 2) \/ (2 < d <= 4 /\ k = 4) \/ (4 < d <= 8 /\ k = 8) \/
     (8 < d <= 16 /\ k = 16) \/ (16 < d <= 32 /\ k = 32) \/
     (32 < d <= 64 /\ k = 64) \/ (64 < d /\ k = 128)).
Proof.
  intros HE HM.
  assert (forall b r k, SdSpi.init_loop 8 d 2 0 = Some (b, r) ->
            (r, k) ∈ rate_divisors -> 0 <= r <= 7 ->
            exists w',
              SdSpi.init SPE MSTR d w = Done tt w' /\
              SdSpi.init_rate d = Some r /\
              (r, k) ∈ rate_divisors /\
              sck_period (dev w') = k /\
              Z.land (SPCR (dev w')) 3 = Z.shiftr r 1 /\
              Z.testbit (SPSR (dev w')) SPI2X = Z.even r) as Hrun.
  { intros b r k Hloop Hin Hr.
    destruct (init_registers SPE MSTR d w b r HE HM Hr Hloop)
      as (w' & Hdone & Hcr & Hsr & _).
    exists w'. repeat split; try assumption.
    - unfold SdSpi.init_rate. now rewrite Hloop.
    - now apply (sck_period_fields _ r k). }
  unfold rate_divisors in Hrun.
  destruct (init_loop_cases d)
    as [[Hd Hl]|[[Hd Hl]|[[Hd Hl]|[[Hd Hl]|[[Hd Hl]|[[Hd Hl]|[Hd Hl]]]]]]].
  - init_case Hrun Hl 0 2.
  - init_case Hrun Hl 1 4.
  - init_case Hrun Hl 2 8.
  - init_case Hrun Hl 3 16.
  - init_case Hrun Hl 4 32.
  - init_case Hrun Hl 5 64.
  - init_case Hrun Hl 7 128.
Qed.

Lemma supported_divisors_cases s :
  s ∈ supported_divisors ->
  s = 2 \/ s = 4 \/ s = 8 \/ s = 16 \/ s = 32 \/ s = 64 \/ s = 128.
Proof.
  unfold supported_divisors. rewrite !elem_of_cons, elem_of_nil. tauto.
Qed.

(** C3. For every requested divisor [d], [SdSpi.init d] returns with the
    smallest SCK divisor of 2, 4, 8, 16, 32, 64, 128 that is not below
    [d], and with 128 for [d] above 128; with a 16 MHz CPU clock, [init(1)]
    and [init(2)] give 8 MHz, [init(3)] gives 4 MHz, [init(128)] and
    [init(129)] give 125 kHz. *)
Theorem SdSpi_init_smallest_supported_divisor SPE MSTR d w :
  2 <= SPE <= 7 -> 2 <= MSTR <= 7 -> 0 <= d <= 255 ->
  exists w',
    SdSpi.init SPE MSTR d w = Done tt w' /\
    smallest_supported d (sck_period (dev w')) /\
    (forall hz, (d, hz) ∈ rates_at_16MHz -> sck_hz 16000000 (dev w') = hz).
Proof.
  intros HE HM Hd.
  destruct (init_cases SPE MSTR d w HE HM)
    as (w' & r & k & Hdone & _ & _ & Hk & _ & _ & Hcases).
  exists w'. split; [assumption|]. unfold sck_hz. rewrite Hk. split.
  - unfold smallest_supported. split; [|split].
    + unfold supported_divisors.
      destruct Hcases as [[_ ->]|[[_ ->]|[[_ ->]|[[_ ->]|[[_ ->]|[[_ ->]|[_ ->]]]]]]];
        repeat constructor.
    + intros Hle. split; [lia|].
      intros s Hs Hds. apply supported_divisors_cases in Hs. lia.
    + lia.
  - intros hz Hin. unfold rates_at_16MHz in Hin.
    repeat (apply elem_of_cons in Hin as [Heq|Hin];
            [injection Heq as -> ->;
             assert (k = 2 \/ k = 4 \/ k = 128) as [->|[->| ->]] by lia;
             (reflexivity || lia)|]).
    now apply elem_of_nil in Hin.
Qed.

Lemma SdSpi_init_smallest_supported_divisor_witness :
  (2 <= 6 <= 7 /\ 2 <= 4 <= 7 /\ 0 <= 3 <= 255) /\
  exists w',
    SdSpi.init 6 4 3 (World power_on [] []) = Done tt w' /\
    smallest_supported 3 (sck_period (dev w')) /\
    (forall hz, (3, hz) ∈ rates_at_16MHz -> sck_hz 16000000 (dev w') = hz).
Proof.
  split; [lia|].
  apply (SdSpi_init_smallest_supported_divisor 6 4 3); lia.
Defined.

(** [begin] touches port B only. *)
Lemma begin_registers w :
  exists w',
    SdSpi.begin w = Done tt w' /\
    SPCR (dev w') = SPCR (dev w) /\ SPSR (dev w') = SPSR (dev w) /\
    shifter (dev w') = shifter (dev w) /\ mosi (dev w') = mosi (dev w) /\
    Z.testbit (PORTB (dev w')) 2 = true /\
    ram w' = ram w /\ stored w' = stored w.
Proof.
  destruct w as [p buf log].
  exists (World (Avr (uint8 (Z.lor (PORTB p) 4))
                     (uint8 (Z.lor (uint8 (Z.lor (uint8 (Z.lor (DDRB p) 4)) 8)) 32))
                     (SPCR p) (SPSR_w p) (SPIF_flag p) (shifter p)
                     (shift_left p) (SPDR_rx p) (mosi p) (clocked p)
                     (dr_writes p)) buf log).
  split; [reflexivity|].
  cbn [dev ram stored SPCR shifter mosi PORTB].
  repeat split.
  unfold uint8. change 256 with (2 ^ 8).
  rewrite Z.mod_pow2_bits_low by lia.
  rewrite Z.lor_spec. apply orb_true_r.
Qed.

(** ** [SdSpiLib.init] *)

Lemma SdSpiLib_init_run platform d (v : world SdSpiLib.SPIClass) :
  exists v' a,
    SdSpiLib.init platform d v = Done tt v' /\
    SdSpiLib.bitOrder (dev v') = Some (SdSpiLib.MSBFIRST platform) /\
    SdSpiLib.dataMode (dev v') = Some (SdSpiLib.SPI_MODE0 platform) /\
    SdSpiLib.clockDivider (dev v') = Some a /\
    SdSpiLib.sent (dev v') = SdSpiLib.sent (dev v) /\
    match SdSpiLib.dividers platform with
    | None => a = d
    | Some c =>
        (d <= 2 /\ a = SdSpiLib.SPI_CLOCK_DIV2 c) \/
        (2 < d <= 4 /\ a = SdSpiLib.SPI_CLOCK_DIV4 c) \/
        (4 < d <= 8 /\ a = SdSpiLib.SPI_CLOCK_DIV8 c) \/
        (8 < d <= 16 /\ a = SdSpiLib.SPI_CLOCK_DIV16 c) \/
        (16 < d <= 32 /\ a = SdSpiLib.SPI_CLOCK_DIV32 c) \/
        (32 < d <= 64 /\ a = SdSpiLib.SPI_CLOCK_DIV64 c) \/
        (64 < d /\ a = SdSpiLib.SPI_CLOCK_DIV128 c)
    end.
Proof.
  unfold SdSpiLib.init. destruct (SdSpiLib.dividers platform) as [c|].
  - eexists _, _. split; [reflexivity|]. cbn.
    do 4 (split; [reflexivity|]).
    repeat match goal with
           | |- context [?a <=? ?b] => destruct (Z.leb_spec a b)
           end; lia || (repeat split; lia || auto 10).
  - eexists _, _. split; [reflexivity|]. now cbn.
Qed.

(** ** The configured clock *)

(** C4, amended. For every [d] from 2 to 128, after [begin(); init(d)]
    the SCK period is at least [d] and less than [2 d] CPU periods, for
    [SdSpi] and for [SdSpiLib] on a platform with the full ladder of divider
    constants; for [d = 1] the period is 2 CPU periods, and for [d] from 129
    to 255 it is 128. *)
Theorem sck_period_in_band_between_2_and_128
    SPE MSTR platform c divider_of d
    (w : world avr) (v : world SdSpiLib.SPIClass) :
  2 <= SPE <= 7 -> 2 <= MSTR <= 7 ->
  SdSpiLib.dividers platform = Some c -> full_ladder divider_of c ->
  1 <= d <= 255 ->
  exists w' v' a,
    (SdSpi.begin ;; SdSpi.init SPE MSTR d) w = Done tt w' /\
    (SdSpiLib.begin ;; SdSpiLib.init platform d) v = Done tt v' /\
    SdSpiLib.clockDivider (dev v') = Some a /\
    (2 <= d <= 128 ->
     in_band d (sck_period (dev w')) /\ in_band d (divider_of a)) /\
    (d = 1 -> sck_period (dev w') = 2 /\ divider_of a = 2) /\
    (128 < d -> sck_period (dev w') = 128 /\ divider_of a = 128).
Proof.
  intros HE HM Hc Hladder Hd.
  destruct (begin_registers w) as (w1 & Hbegin & _).
  destruct (init_cases SPE MSTR d w1 HE HM)
    as (w' & r & k & Hinit & _ & _ & Hk & _ & _ & Hcases).
  assert (exists v1, SdSpiLib.begin v = Done tt v1) as [v1 Hbegin']
    by (eexists; reflexivity).
  destruct (SdSpiLib_init_run platform d v1)
    as (v' & a & Hinit' & _ & _ & Ha & _ & Hsel).
  rewrite Hc in Hsel.
  destruct Hladder as (L2 & L4 & L8 & L16 & L32 & L64 & L128).
  exists w', v', a.
  split; [now rewrite (bind_Done _ _ _ _ _ Hbegin)|].
  split; [now rewrite (bind_Done _ _ _ _ _ Hbegin')|].
  split; [assumption|].
  rewrite Hk. unfold in_band.
  destruct Hsel as [[? ->]|[[? ->]|[[? ->]|[[? ->]|[[? ->]|[[? ->]|[? ->]]]]]]];
    rewrite ?L2, ?L4, ?L8, ?L16, ?L32, ?L64, ?L128; lia.
Qed.

Lemma sck_period_in_band_between_2_and_128_witness :
  (2 <= 6 <= 7 /\ 2 <= 4 <= 7 /\
   SdSpiLib.dividers avr_core = Some avr_core_dividers /\
   full_ladder avr_core_divider_of avr_core_dividers /\ 1 <= 5 <= 255) /\
  exists w' v' a,
    (SdSpi.begin ;; SdSpi.init 6 4 5) (World power_on [] []) = Done tt w' /\
    (SdSpiLib.begin ;; SdSpiLib.init avr_core 5) (World SPI_fresh [] [])
    = Done tt v' /\
    SdSpiLib.clockDivider (dev v') = Some a /\
    (2 <= 5 <= 128 ->
     in_band 5 (sck_period (dev w')) /\ in_band 5 (avr_core_divider_of a)) /\
    (5 = 1 -> sck_period (dev w') = 2 /\ avr_core_divider_of a = 2) /\
    (128 < 5 -> sck_period (dev w') = 128 /\ avr_core_divider_of a = 128).
Proof.
  assert (full_ladder avr_core_divider_of avr_core_dividers) as Hladder
    by (repeat split; reflexivity).
  split.
  - repeat split; (lia || reflexivity).
  - apply (sck_period_in_band_between_2_and_128 6 4 avr_core avr_core_dividers);
      (lia || reflexivity || exact Hladder).
Defined.

(** The claim of C4 as stated fails at both ends of its range: [init(1)]
    configures a period of 2, which is not below [2 * 1], and [init(129)]
    configures 128, which is below 129; the same on both back-ends. *)
Lemma sck_period_out_of_band_at_1_and_129 :
  (exists w',
     (SdSpi.begin ;; SdSpi.init 6 4 1) (World power_on [] []) = Done tt w' /\
     sck_period (dev w') = 2 /\ ~ in_band 1 (sck_period (dev w'))) /\
  (exists w',
     (SdSpi.begin ;; SdSpi.init 6 4 129) (World power_on [] []) = Done tt w' /\
     sck_period (dev w') = 128 /\ ~ in_band 129 (sck_period (dev w'))) /\
  (exists v',
     (SdSpiLib.begin ;; SdSpiLib.init avr_core 1) (World SPI_fresh [] [])
     = Done tt v' /\
     avr_core_divider_of <$> SdSpiLib.clockDivider (dev v') = Some 2 /\
     ~ in_band 1 2) /\
  (exists v',
     (SdSpiLib.begin ;; SdSpiLib.init avr_core 129) (World SPI_fresh [] [])
     = Done tt v' /\
     avr_core_divider_of <$> SdSpiLib.clockDivider (dev v') = Some 128 /\
     ~ in_band 129 128).
Proof.
  assert (~ in_band 1 2 /\ ~ in_band 129 128) as [H1 H129]
    by (unfold in_band; lia).
  split; [|split; [|split]]; eexists;
    (split; [vm_compute; reflexivity|]);
    (split; [vm_compute; reflexivity|]); assumption.
Qed.

(** ** The encoded rate *)

(** C5, amended. For every requested divisor [d], the encoded rate [r]
    that [SdSpi.init] computes is one of 0, 1, 2, 3, 4, 5, 7, where 0, 1, 2,
    3, 4, 5 stand for the divisors 2, 4, 8, 16, 32, 64 and 7 for 128; its
    top two bits are written to the clock-select field of SPCR and its low
    bit, inverted, to the doubling bit SPI2X of SPSR, so that an even [r]
    has the doubled clock active. *)
Theorem SdSpi_init_rate_encoding SPE MSTR d w :
  2 <= SPE <= 7 -> 2 <= MSTR <= 7 -> 0 <= d <= 255 ->
  exists r k w',
    SdSpi.init_rate d = Some r /\
    r ∈ [0; 1; 2; 3; 4; 5; 7] /\
    (r, k) ∈ rate_divisors /\
    SdSpi.init SPE MSTR d w = Done tt w' /\
    sck_period (dev w') = k /\
    Z.land (SPCR (dev w')) 3 = Z.shiftr r 1 /\
    Z.testbit (SPSR (dev w')) SPI2X = negb (Z.testbit r 0) /\
    (Z.even r = true -> Z.testbit (SPSR (dev w')) SPI2X = true).
Proof.
  intros HE HM Hd.
  destruct (init_cases SPE MSTR d w HE HM)
    as (w' & r & k & Hinit & Hrate & Hin & Hk & Hcr & Hsr & _).
  exists r, k, w'.
  split; [assumption|]. split.
  { unfold rate_divisors in Hin.
    repeat (apply elem_of_cons in Hin as [[= -> ->]|Hin]; [repeat constructor|]).
    now apply elem_of_nil in Hin. }
  do 4 (split; [assumption|]). split.
  - now rewrite Hsr, Z.bit0_odd, Z.negb_odd.
  - intros Heven. now rewrite Hsr.
Qed.

Lemma SdSpi_init_rate_encoding_witness :
  (2 <= 6 <= 7 /\ 2 <= 4 <= 7 /\ 0 <= 64 <= 255) /\
  exists r k w',
    SdSpi.init_rate 64 = Some r /\
    r ∈ [0; 1; 2; 3; 4; 5; 7] /\
    (r, k) ∈ rate_divisors /\
    SdSpi.init 6 4 64 (World power_on [] []) = Done tt w' /\
    sck_period (dev w') = k /\
    Z.land (SPCR (dev w')) 3 = Z.shiftr r 1 /\
    Z.testbit (SPSR (dev w')) SPI2X = negb (Z.testbit r 0) /\
    (Z.even r = true -> Z.testbit (SPSR (dev w')) SPI2X = true).
Proof.
  split; [lia|].
  apply (SdSpi_init_rate_encoding 6 4 64); lia.
Defined.

(** The claim of C5 as stated fails for the divisors 33 to 64: the loop
    steps [r] from 4 to 5 and from 5 to 7, so the rate for 64 is 5, which
    is not among 0, 1, 2, 3, 4, 6, 7. *)
Lemma SdSpi_init_rate_64_is_5 :
  SdSpi.init_rate 64 = Some 5 /\ ~ (5 ∈ [0; 1; 2; 3; 4; 6; 7]).
Proof.
  split; [reflexivity|].
  rewrite !elem_of_cons, elem_of_nil. lia.
Qed.

(** ** The transaction flag *)

(** C8. [useSpiTransactions] returns true for [SdSpi], true for
    [SdSpiLib] and false for [SdSpiSoft], whatever the instance and its
    state, and changes nothing. *)
Theorem useSpiTransactions_of_each_backend :
  (forall SPE MSTR miso turn_cycles (w : world avr),
     SdSpiBase.useSpiTransactions
       (SdSpi.as_base SPE MSTR miso turn_cycles) w = Done true w) /\
  (forall miso platform (w : world SdSpiLib.SPIClass),
     SdSpiBase.useSpiTransactions (SdSpiLib.as_base miso platform) w
     = Done true w) /\
  (forall SoftSPI m_spi_begin m_spi_receive m_spi_send (w : world SoftSPI),
     SdSpiBase.useSpiTransactions
       (SdSpiSoft.as_base SoftSPI m_spi_begin m_spi_receive m_spi_send) w
     = Done false w).
Proof. repeat split. Qed.

(** ** The library's clock divider *)



(** ** The bus primitives *)

Lemma write_SPDR_idle v (w : world avr) :
  shifter (dev w) = None ->
  write_SPDR v w = Done tt (World (started v (dev w)) (ram w) (stored w)).
Proof. intros H. unfold write_SPDR, on_dev. now rewrite H. Qed.

Lemma write_SPDR_run v (w : world avr) :
  exists p,
    write_SPDR v w = Done tt (World p (ram w) (stored w)) /\
    is_Some (shifter p) /\
    (coherent (dev w) -> coherent p).
Proof.
  unfold write_SPDR, on_dev, coherent.
  destruct (shifter (dev w)) as [u|] eqn:Hs; eexists; (split; [reflexivity|]);
    cbn; rewrite ?Hs; split; eauto; discriminate.
Qed.

Lemma read_SPDR_run (w : world avr) :
  read_SPDR w = Done (SPDR_rx (dev w)) w.
Proof. now destruct w. Qed.

Lemma spin_SPIF_live miso (w : world avr) :
  live (dev w) ->
  exists p,
    spin_SPIF miso w = Done tt (World p (ram w) (stored w)) /\
    SPIF_flag p = true /\
    (coherent (dev w) -> shifter p = None).
Proof.
  intros Hlive. destruct (SPIF_flag (dev w)) eqn:Hf.
  - exists (dev w). rewrite spin_SPIF_set by assumption.
    split; [now destruct w|]. split; [assumption|]. intros Hc. now apply Hc.
  - destruct Hlive as [Hf'|[v Hv]]; [congruence|].
    eexists. rewrite (spin_SPIF_busy _ _ v) by assumption.
    repeat split.
Qed.

Lemma delay_8_cycles_live miso turn_cycles (w : world avr) :
  live (dev w) ->
  exists p,
    delay_8_cycles miso turn_cycles w = Done tt (World p (ram w) (stored w)) /\
    live p /\
    (coherent (dev w) -> coherent p).
Proof.
  intros Hlive. unfold delay_8_cycles.
  destruct (shifter (dev w)) as [v|] eqn:Hs.
  - destruct (shift_left (dev w) <=? turn_cycles).
    + eexists. split; [reflexivity|]. split; [now left|]. now intros _ _.
    + eexists. split; [reflexivity|]. split.
      * right. cbn. rewrite Hs. eauto.
      * unfold coherent. cbn. now rewrite Hs.
  - exists (dev w). now destruct w.
Qed.

(** When no more cycles are left of the shift than a turn lasts, the
    byte on its way is in by the end of the delay. *)
Lemma delay_8_cycles_covers miso turn_cycles (w : world avr) v :
  shift_left (dev w) <= turn_cycles ->
  shifter (dev w) = Some v ->
  delay_8_cycles miso turn_cycles w
  = Done tt (World (shift_complete miso v (dev w)) (ram w) (stored w)).
Proof.
  intros Hc H. unfold delay_8_cycles. rewrite H.
  now destruct (Z.leb_spec (shift_left (dev w)) turn_cycles); [|lia].
Qed.

(** Transfers leave the clock as it was configured. *)
Lemma shift_cycles_same p q :
  SPCR q = SPCR p -> SPSR_w q = SPSR_w p -> shift_cycles q = shift_cycles p.
Proof.
  intros Hcr Hsr. unfold shift_cycles, sck_period, sck_divisor.
  now rewrite !SPSR_SPI2X, Hcr, Hsr.
Qed.

(** ** The single-byte operations *)

Lemma receive_idle miso (w : world avr) :
  shifter (dev w) = None ->
  SdSpi.receive miso w
  = Done (miso (clocked (dev w))) (World (xfer miso 255 (dev w)) (ram w) (stored w)).
Proof.
  intros Hidle. unfold SdSpi.receive.
  rewrite (bind_Done _ _ _ _ _ (write_SPDR_idle 255 w Hidle)).
  unfold nop. rewrite (bind_Done _ _ _ tt _ eq_refl).
  erewrite bind_Done by (now apply (spin_SPIF_busy _ _ 255)).
  now rewrite read_SPDR_run.
Qed.

Lemma send_idle miso v (w : world avr) :
  shifter (dev w) = None ->
  SdSpi.send miso v w = Done tt (World (xfer miso v (dev w)) (ram w) (stored w)).
Proof.
  intros Hidle. unfold SdSpi.send.
  rewrite (bind_Done _ _ _ _ _ (write_SPDR_idle v w Hidle)).
  unfold nop. rewrite (bind_Done _ _ _ tt _ eq_refl).
  now rewrite (spin_SPIF_busy _ _ v).
Qed.

(** ** Received bytes *)

Section Received.

Variable miso : nat -> Z.

Lemma received_length k (w : world avr) :
  length (ram (received miso k w)) = length (ram w).
Proof. induction k as [|k IH]; [reflexivity|]. cbn. now rewrite length_insert. Qed.

Lemma received_idle k (w : world avr) :
  shifter (dev w) = None -> shifter (dev (received miso k w)) = None.
Proof. now destruct k. Qed.

Lemma received_clocked k (w : world avr) :
  clocked (dev (received miso k w)) = (clocked (dev w) + k)%nat.
Proof. induction k as [|k IH]; cbn; [lia|]. rewrite IH. lia. Qed.

Lemma received_mosi k (w : world avr) :
  mosi (dev (received miso k w)) = mosi (dev w) ++ replicate k 255.
Proof.
  induction k as [|k IH]; cbn [received dev xfer mosi];
    [now rewrite app_nil_r|].
  now rewrite IH, replicate_S_end, app_assoc.
Qed.

Lemma received_clock k (w : world avr) :
  SPCR (dev (received miso k w)) = SPCR (dev w) /\
  SPSR_w (dev (received miso k w)) = SPSR_w (dev w).
Proof. induction k as [|k IH]; [now split|exact IH]. Qed.

Lemma received_stored k (w : world avr) :
  stored (received miso k w) = stored w ++ seqZ 0 (Z.of_nat k).
Proof.
  induction k as [|k IH]; cbn [received stored]; [now rewrite app_nil_r|].
  now rewrite IH, seqZ_S, app_assoc.
Qed.

Lemma received_ram_below k (w : world avr) (j : nat) :
  (k <= length (ram w))%nat -> (j < k)%nat ->
  ram (received miso k w) !! j = Some (miso (clocked (dev w) + j)%nat).
Proof.
  induction k as [|k IH]; intros Hk Hj; [lia|].
  cbn [received ram dev SPDR_rx xfer].
  destruct (decide (j = k)) as [->|Hne].
  - rewrite list_lookup_insert_eq by (rewrite received_length; lia).
    now rewrite received_clocked.
  - rewrite list_lookup_insert_ne by congruence. apply IH; lia.
Qed.

Lemma received_ram_above k (w : world avr) (j : nat) :
  (k <= j)%nat -> ram (received miso k w) !! j = ram w !! j.
Proof.
  induction k as [|k IH]; intros Hj; [reflexivity|].
  cbn [received ram]. rewrite list_lookup_insert_ne by lia. apply IH. lia.
Qed.

(** [n] calls of [receive], each byte kept in [buf[i]]. *)
Lemma receive_each_received n (w : world avr) :
  0 <= n < 65536 -> n <= Z.of_nat (length (ram w)) ->
  shifter (dev w) = None ->
  SdSpi.receive_each miso n w = Done tt (received miso (Z.to_nat n) w).
Proof.
  intros Hn Hlen Hidle. unfold SdSpi.receive_each.
  destruct (for_lt_rule
              (fun i w' => w' = received miso (Z.to_nat i) w)
              (fun i => b <- SdSpi.receive miso ;; store i b) n Hn)
    with (fuel := Z.to_nat n) (i := 0) (w := w) as (w' & Hrun & ->);
    [|lia|lia|reflexivity|assumption].
  intros i w' Hi ->.
  rewrite (bind_Done _ _ _ _ _ (receive_idle miso _ (received_idle _ _ Hidle))).
  rewrite store_in by (cbn [ram]; rewrite received_length; lia).
  eexists. split; [reflexivity|].
  replace (Z.to_nat (i + 1)) with (S (Z.to_nat i)) by lia.
  cbn [received dev ram stored xfer SPDR_rx]. now rewrite Z2Nat.id by lia.
Qed.

(** The pipelined loop, when a turn of it is not shorter than the shift
    of a byte. *)
Lemma receive_buf_received turn_cycles n (w : world avr) :
  shift_cycles (dev w) <= turn_cycles ->
  1 <= n < 65536 -> n <= Z.of_nat (length (ram w)) ->
  shifter (dev w) = None ->
  SdSpi.receive_buf miso turn_cycles n w
  = Done 0 (received miso (Z.to_nat n) w).
Proof.
  intros Hturn Hn Hlen Hidle. unfold SdSpi.receive_buf.
  destruct (Z.eqb_spec n 0) as [|_]; [lia|].
  rewrite (size_t_small (n - 1)) by lia.
  rewrite (bind_Done _ _ _ _ _ (write_SPDR_idle 255 w Hidle)).
  erewrite bind_Done by (now apply (spin_SPIF_busy _ _ 255)).
  cbn [dev ram stored].
  change (shift_complete miso 255 _) with (xfer miso 255 (dev w)).
  destruct (for_lt_rule
              (fun i w' =>
                 let r := received miso (Z.to_nat i) w in
                 w' = World (xfer miso 255 (dev r)) (ram r) (stored r))
              (fun i =>
                 b <- read_SPDR ;; write_SPDR 255 ;; store i b ;;
                 delay_8_cycles miso turn_cycles) (n - 1))
    with (fuel := Z.to_nat (n - 1)) (i := 0)
         (w := World (xfer miso 255 (dev w)) (ram w) (stored w))
    as (w' & Hrun & ->); [lia| |lia|lia|reflexivity|].
  - intros i w' Hi ->.
    erewrite bind_Done by apply read_SPDR_run.
    erewrite bind_Done by (apply write_SPDR_idle; reflexivity).
    erewrite bind_Done
      by (apply store_in; cbn [ram]; rewrite received_length; lia).
    erewrite (delay_8_cycles_covers _ _ _ 255); [|cbn [dev]|reflexivity].
    + eexists. split; [reflexivity|].
      replace (Z.to_nat (i + 1)) with (S (Z.to_nat i)) by lia.
      cbn [received dev ram stored xfer SPDR_rx]. now rewrite Z2Nat.id by lia.
    + destruct (received_clock (Z.to_nat i) w) as [Hcr Hsr].
      cbn [started shift_left].
      now rewrite (shift_cycles_same (dev w)).
  - rewrite (bind_Done _ _ _ _ _ Hrun).
    erewrite bind_Done by (apply spin_SPIF_set; reflexivity).
    erewrite bind_Done by apply read_SPDR_run.
    erewrite bind_Done
      by (apply store_in; cbn [ram]; rewrite received_length; lia).
    replace (Z.to_nat n) with (S (Z.to_nat (n - 1))) by lia.
    cbn [received dev ram stored xfer SPDR_rx]. now rewrite Z2Nat.id by lia.
Qed.

End Received.

(** ** Pipelined receive *)

(** The world of [full_speed] is reached through [begin] and [init], and
    there the shift of a byte takes 16 CPU cycles. *)
Lemma full_speed_after_init buf log :
  (SdSpi.begin ;; SdSpi.init 6 4 2) (World power_on buf log)
  = Done tt (World full_speed buf log) /\
  shift_cycles full_speed = 16.
Proof. split; reflexivity. Qed.

(** C1. The code does not do what the claim says when a byte takes
    longer to shift than a turn of the loop lasts, as at the SCK rates
    below the one the delay was written for, which [init] offers all the
    same. After [init(128)] a byte takes 1024 CPU cycles; with a turn of 17
    cycles, the second turn reads SPDR before the second byte is in and
    finds the first byte again, and its write to SPDR is lost. With the
    bytes 1, 2, 3 arriving, [receive(buf, 3)] returns zero, has clocked two
    bytes and leaves 1, 1, 2 in [buf], where three calls of [receive()]
    leave 1, 2, 3: so on the peripheral of [Section Bus], and so on the
    one with the flag rule of the data sheet. *)
Lemma pipelined_receive_differs_when_delay_is_short :
  (exists w,
     (SdSpi.begin ;; SdSpi.init 6 4 128) (World power_on [0; 0; 0] [])
     = Done tt w /\
     shift_cycles (dev w) = 1024 /\ shifter (dev w) = None /\
     (exists w',
        SdSpi.receive_buf counting_slave 17 3 w = Done 0 w' /\
        ram w' = [1; 1; 2]) /\
     (exists w',
        SdSpi.receive_each counting_slave 3 w = Done tt w' /\
        ram w' = [1; 2; 3])) /\
  (exists w,
     (on_regs SdSpi.begin ;; on_regs (SdSpi.init 6 4 128))
       (World sheet_power_on [0; 0; 0] []) = Done tt w /\
     shift_cycles (regs (dev w)) = 1024 /\ quiescent 6 4 (dev w) /\
     (exists w',
        SdSpiOn.receive_buf (sheet_port 6 4 counting_slave 17) 3 w = Done 0 w' /\
        ram w' = [1; 1; 2] /\
        mosi (regs (dev w')) = [255; 255]) /\
     (exists w',
        SdSpiOn.receive_each (sheet_port 6 4 counting_slave 17) 3 w = Done tt w' /\
        ram w' = [1; 2; 3] /\
        mosi (regs (dev w')) = [255; 255; 255])).
Proof.
  split.
  - eexists. split; [vm_compute; reflexivity|].
    split; [reflexivity|]. split; [reflexivity|].
    split; eexists; (split; [vm_compute; reflexivity|]); reflexivity.
  - eexists. split; [vm_compute; reflexivity|].
    split; [reflexivity|].
    split.
    { split; [reflexivity|]. split; [reflexivity|].
      split; [reflexivity|discriminate]. }
    split; eexists; (split; [vm_compute; reflexivity|]); split; reflexivity.
Qed.

(** ** The receive loop at any clock rate *)

Lemma seqZ_snoc i : 0 <= i -> seqZ 0 (i + 1) = seqZ 0 i ++ [i].
Proof. intros Hi. now rewrite seqZ_app by lia. Qed.

(** Whether or not the delay covers the shift, [receive(buf, n)] returns
    zero, has stored to the offsets 0 to [n - 1] in this order, once each,
    and has left the rest of the buffer alone; begun on a coherent bus it
    ends on an idle one. *)
Lemma receive_buf_runs miso turn_cycles n (w : world avr) :
  1 <= n < 65536 -> n <= Z.of_nat (length (ram w)) ->
  exists w',
    SdSpi.receive_buf miso turn_cycles n w = Done 0 w' /\
    stored w' = stored w ++ seqZ 0 n /\
    length (ram w') = length (ram w) /\
    (forall j : nat, n <= Z.of_nat j -> ram w' !! j = ram w !! j) /\
    (coherent (dev w) -> shifter (dev w') = None).
Proof.
  intros Hn Hlen. unfold SdSpi.receive_buf.
  destruct (Z.eqb_spec n 0) as [|_]; [lia|].
  rewrite (size_t_small (n - 1)) by lia.
  destruct (write_SPDR_run 255 w) as (p1 & Hwrite & Hbusy & Hc1).
  rewrite (bind_Done _ _ _ _ _ Hwrite).
  destruct (spin_SPIF_live miso (World p1 (ram w) (stored w)))
    as (p2 & Hspin & Hflag & Hc2); [now right|].
  rewrite (bind_Done _ _ _ _ _ Hspin). cbn [dev ram stored] in *.
  destruct (for_lt_rule
              (fun i w' =>
                 live (dev w') /\
                 stored w' = stored w ++ seqZ 0 i /\
                 length (ram w') = length (ram w) /\
                 (forall j : nat, i <= Z.of_nat j -> ram w' !! j = ram w !! j) /\
                 (coherent (dev w) -> coherent (dev w')))
              (fun i =>
                 b <- read_SPDR ;; write_SPDR 255 ;; store i b ;;
                 delay_8_cycles miso turn_cycles) (n - 1))
    with (fuel := Z.to_nat (n - 1)) (i := 0)
         (w := World p2 (ram w) (stored w))
    as (w3 & Hloop & Hlive & Hlog & Hlen3 & Hrest & Hc3); [lia| |lia|lia| |].
  - intros i w' Hi (_ & Hlog & Hlen' & Hrest & Hc).
    rewrite (bind_Done _ _ _ _ _ (read_SPDR_run w')).
    destruct (write_SPDR_run 255 w') as (q1 & Hw & Hb & Hcq1).
    rewrite (bind_Done _ _ _ _ _ Hw).
    erewrite bind_Done by (apply store_in; cbn [ram]; lia).
    cbn [dev ram stored].
    destruct (delay_8_cycles_live miso turn_cycles
                (World q1 (<[Z.to_nat i := SPDR_rx (dev w')]> (ram w'))
                       (stored w' ++ [i])))
      as (q2 & Hdelay & Hq2 & Hcq2); [now right|].
    rewrite Hdelay. eexists. split; [reflexivity|]. cbn [dev ram stored] in *.
    split; [assumption|]. split; [|split; [|split]].
    + now rewrite Hlog, seqZ_snoc, app_assoc by lia.
    + now rewrite length_insert.
    + intros j Hj. rewrite list_lookup_insert_ne by lia. apply Hrest. lia.
    + auto.
  - cbn [dev ram stored]. split; [now left|].
    split; [now rewrite app_nil_r|]. split; [reflexivity|].
    split; [now intros|]. intros Hc _. auto.
  - rewrite (bind_Done _ _ _ _ _ Hloop).
    destruct (spin_SPIF_live miso w3 Hlive) as (p4 & Hspin4 & _ & Hc4).
    rewrite (bind_Done _ _ _ _ _ Hspin4).
    erewrite bind_Done by apply read_SPDR_run.
    erewrite bind_Done by (apply store_in; cbn [ram]; lia).
    eexists. split; [reflexivity|]. cbn [dev ram stored].
    split; [|split; [|split]].
    + rewrite Hlog, <- app_assoc, <- seqZ_snoc by lia.
      do 2 f_equal. lia.
    + now rewrite length_insert.
    + intros j Hj. rewrite list_lookup_insert_ne by lia. apply Hrest. lia.
    + auto.
Qed.

(** ** Sent bytes *)

Section Sent.

Variable miso : nat -> Z.

Lemma sent_all_snoc vs v p :
  sent_all miso (vs ++ [v]) p = xfer miso v (sent_all miso vs p).
Proof. unfold sent_all. now rewrite foldl_snoc. Qed.

Lemma sent_all_idle vs p :
  shifter p = None -> shifter (sent_all miso vs p) = None.
Proof.
  intros Hidle. induction vs as [|v vs IH] using rev_ind; [assumption|].
  now rewrite sent_all_snoc.
Qed.

Lemma sent_all_mosi vs p : mosi (sent_all miso vs p) = mosi p ++ vs.
Proof.
  induction vs as [|v vs IH] using rev_ind; [now rewrite app_nil_r|].
  rewrite sent_all_snoc. cbn [xfer mosi]. now rewrite IH, app_assoc.
Qed.

(** One more byte of the buffer sent. *)
Lemma sent_all_take_S (buf : list Z) k v p :
  buf !! k = Some v ->
  sent_all miso (take (S k) buf) p = xfer miso v (sent_all miso (take k buf) p).
Proof. intros Hv. now rewrite (take_S_r _ _ _ Hv), sent_all_snoc. Qed.

Lemma buffer_at (buf : list Z) i :
  0 <= i < Z.of_nat (length buf) -> exists v, buf !! Z.to_nat i = Some v.
Proof.
  intros Hi. destruct (lookup_lt_is_Some_2 buf (Z.to_nat i)) as [v Hv]; [lia|].
  now exists v.
Qed.

(** [n] calls of [send], on [buf[0]] to [buf[n - 1]]. *)
Lemma send_each_sent n (w : world avr) :
  0 <= n < 65536 -> n <= Z.of_nat (length (ram w)) ->
  shifter (dev w) = None ->
  SdSpi.send_each miso n w
  = Done tt (World (sent_all miso (take (Z.to_nat n) (ram w)) (dev w))
                   (ram w) (stored w)).
Proof.
  intros Hn Hlen Hidle. unfold SdSpi.send_each.
  destruct (for_lt_rule
              (fun i w' =>
                 w' = World (sent_all miso (take (Z.to_nat i) (ram w)) (dev w))
                            (ram w) (stored w))
              (fun i => b <- load i ;; SdSpi.send miso b) n Hn)
    with (fuel := Z.to_nat n) (i := 0) (w := w) as (w' & Hrun & ->);
    [|lia|lia|now destruct w|assumption].
  intros i w' Hi ->.
  destruct (buffer_at (ram w) i) as [v Hv]; [lia|].
  erewrite bind_Done by (apply load_in; [lia|exact Hv]).
  rewrite send_idle by (now apply sent_all_idle).
  eexists. split; [reflexivity|]. cbn [dev ram stored].
  replace (Z.to_nat (i + 1)) with (S (Z.to_nat i)) by lia.
  now rewrite (sent_all_take_S _ _ v).
Qed.

(** The [while (1)] of [send(buf, n)]: entered with [buf[i - 2]] on its
    way and [buf[i - 1]] loaded, left with [buf[n - 1]] on its way. *)
Lemma send_loop_sent n p0 (buf : list Z) log :
  0 <= n < 65536 -> n <= Z.of_nat (length buf) -> shifter p0 = None ->
  forall fuel i b v,
    2 <= i <= n -> n - i < Z.of_nat fuel ->
    buf !! Z.to_nat (i - 2) = Some v ->
    buf !! Z.to_nat (i - 1) = Some b ->
    exists last,
      buf !! Z.to_nat (n - 1) = Some last /\
      SdSpi.send_loop miso fuel b i n
        (World (started v (sent_all miso (take (Z.to_nat (i - 2)) buf) p0)) buf log)
      = Done tt
          (World (started last (sent_all miso (take (Z.to_nat (n - 1)) buf) p0))
                 buf log).
Proof.
  intros Hn Hlen Hidle fuel.
  induction fuel as [|fuel IH]; intros i b v Hi Hfuel Hv Hb; [lia|].
  cbn [SdSpi.send_loop].
  erewrite bind_Done by (now apply (spin_SPIF_busy _ _ v)).
  cbn [dev ram stored].
  change (shift_complete miso v (started v ?p)) with (xfer miso v p).
  rewrite <- (sent_all_take_S _ _ v) by exact Hv.
  replace (S (Z.to_nat (i - 2))) with (Z.to_nat (i - 1)) by lia.
  erewrite bind_Done by (apply write_SPDR_idle; now apply sent_all_idle).
  cbn [dev ram stored].
  destruct (Z.eqb_spec i n) as [->|Hne].
  - exists b. split; [assumption|reflexivity].
  - destruct (buffer_at buf i) as [b' Hb']; [lia|].
    erewrite bind_Done by (apply load_in; [lia|exact Hb']).
    rewrite size_t_small by lia.
    replace (Z.to_nat (i - 1)) with (Z.to_nat (i + 1 - 2)) by lia.
    apply IH; [lia|lia| |].
    + now replace (Z.to_nat (i + 1 - 2)) with (Z.to_nat (i - 1)) by lia.
    + now replace (Z.to_nat (i + 1 - 1)) with (Z.to_nat i) by lia.
Qed.

(** The pipelined send. *)
Lemma send_buf_sent n (w : world avr) :
  1 <= n < 65536 -> n <= Z.of_nat (length (ram w)) ->
  shifter (dev w) = None ->
  SdSpi.send_buf miso n w
  = Done tt (World (sent_all miso (take (Z.to_nat n) (ram w)) (dev w))
                   (ram w) (stored w)).
Proof.
  intros Hn Hlen Hidle. unfold SdSpi.send_buf.
  destruct (Z.eqb_spec n 0) as [|_]; [lia|].
  destruct (buffer_at (ram w) 0) as [b0 Hb0]; [lia|].
  erewrite bind_Done by (apply load_in; [lia|exact Hb0]).
  rewrite (bind_Done _ _ _ _ _ (write_SPDR_idle b0 w Hidle)).
  rewrite Z.gtb_ltb. destruct (Z.ltb_spec 1 n) as [Hgt|Hle].
  - destruct (buffer_at (ram w) 1) as [b1 Hb1]; [lia|].
    destruct (send_loop_sent n (dev w) (ram w) (stored w) ltac:(lia) Hlen Hidle
                (Z.to_nat n) 2 b1 b0) as (last & Hlast & Hloop);
      [lia|lia|exact Hb0|exact Hb1|].
    change (Z.to_nat (2 - 2)) with 0%nat in Hloop.
    rewrite take_0 in Hloop. change (sent_all miso [] (dev w)) with (dev w) in Hloop.
    erewrite bind_Done.
    2:{ erewrite bind_Done by (apply load_in; [lia|exact Hb1]). exact Hloop. }
    rewrite (spin_SPIF_busy _ _ last) by reflexivity.
    cbn [dev ram stored].
    change (shift_complete miso last (started last ?p)) with (xfer miso last p).
    rewrite <- (sent_all_take_S _ _ last) by exact Hlast.
    now replace (S (Z.to_nat (n - 1))) with (Z.to_nat n) by lia.
  - assert (n = 1) as -> by lia.
    rewrite (bind_Done _ _ _ tt _ eq_refl).
    rewrite (spin_SPIF_busy _ _ b0) by reflexivity.
    cbn [dev ram stored].
    change (shift_complete miso b0 (started b0 ?p)) with (xfer miso b0 p).
    change (Z.to_nat 1) with 1%nat.
    now rewrite (sent_all_take_S _ 0 b0) by exact Hb0.
Qed.

End Sent.

(** ** Loops over the buffer in the library and software back-ends *)

Lemma on_dev_run {D A} (f : D -> A * D) (w : world D) :
  exists a d, on_dev f w = Done a (World d (ram w) (stored w)).
Proof. unfold on_dev. destruct (f (dev w)) as [a d]. now exists a, d. Qed.

(** [for (i = 0; i < n; i++) buf[i] = get();] returns when [buf] has
    [n] bytes and [get] returns. *)
Lemma fill_loop_runs {D} (get : M (world D) Z) n (w : world D) :
  (forall u, exists b d, get u = Done b (World d (ram u) (stored u))) ->
  0 <= n < 65536 -> n <= Z.of_nat (length (ram w)) ->
  exists w',
    for_lt (Z.to_nat n) 0 n (fun i => b <- get ;; store i b) w = Done tt w' /\
    length (ram w') = length (ram w).
Proof.
  intros Hget Hn Hlen.
  apply (for_lt_rule (fun _ w' => length (ram w') = length (ram w)));
    [assumption| |lia|lia|reflexivity].
  intros i u Hi Hu.
  destruct (Hget u) as (b & d & Hrun).
  rewrite (bind_Done _ _ _ _ _ Hrun).
  rewrite store_in by (cbn [ram]; lia).
  eexists. split; [reflexivity|]. cbn [ram]. now rewrite length_insert.
Qed.

(** A program that ends in [return 0] returns nothing else. *)
Lemma then_ret_0 {W A} (c : M W A) w r w' :
  (c ;; ret 0) w = Done r w' -> r = 0.
Proof.
  intros H. apply bind_Done_inv in H as (a & w1 & _ & H).
  now injection H as <- _.
Qed.

(** ** Zero-length transfers *)

(** C6. With [n = 0] the multi-byte operations leave the world as it is:
    [SdSpi.send(buf, 0)] returns and [SdSpi.receive(buf, 0)] returns zero
    with no write to SPDR and nothing clocked out, and the [SdSpiLib]
    variants return without a call of [SPI.transfer]. *)
Theorem zero_length_transfers_do_nothing
    miso turn_cycles (w : world avr) (v : world SdSpiLib.SPIClass) :
  SdSpi.send_buf miso 0 w = Done tt w /\
  SdSpi.receive_buf miso turn_cycles 0 w = Done 0 w /\
  SdSpiLib.send_buf miso 0 v = Done tt v /\
  SdSpiLib.receive_buf miso 0 v = Done 0 v.
Proof. repeat split. Qed.

(** ** The result of the multi-byte receive *)

(** C7. For every length [n] and every buffer of at least [n] bytes,
    [receive(buf, n)] of [SdSpi], of [SdSpiLib] and of [SdSpiSoft] returns
    zero; and whatever the length and the buffer, no run of any of the
    three returns another value. *)
Theorem receive_buf_returns_zero
    miso turn_cycles SoftSPI (m_spi_receive : SoftSPI -> Z * SoftSPI) n
    (w : world avr) (v : world SdSpiLib.SPIClass) (u : world SoftSPI) :
  0 <= n < 65536 ->
  n <= Z.of_nat (length (ram w)) ->
  n <= Z.of_nat (length (ram v)) ->
  n <= Z.of_nat (length (ram u)) ->
  (exists w', SdSpi.receive_buf miso turn_cycles n w = Done 0 w') /\
  (exists v', SdSpiLib.receive_buf miso n v = Done 0 v') /\
  (exists u', SdSpiSoft.receive_buf SoftSPI m_spi_receive n u = Done 0 u') /\
  (forall m x r x',
     SdSpi.receive_buf miso turn_cycles m x = Done r x' -> r = 0) /\
  (forall m x r x', SdSpiLib.receive_buf miso m x = Done r x' -> r = 0) /\
  (forall m x r x',
     SdSpiSoft.receive_buf SoftSPI m_spi_receive m x = Done r x' -> r = 0).
Proof.
  intros Hn Hw Hv Hu. split; [|split; [|split; [|split; [|split]]]].
  - destruct (Z.eq_dec n 0) as [->|Hne]; [now exists w|].
    destruct (receive_buf_runs miso turn_cycles n w) as (w' & Hrun & _);
      [lia|assumption|].
    now exists w'.
  - destruct (fill_loop_runs (SdSpiLib.SPI_transfer miso 255) n v)
      as (v' & Hrun & _); [intros x; apply on_dev_run|assumption..|].
    exists v'. unfold SdSpiLib.receive_buf.
    now rewrite (bind_Done _ _ _ _ _ Hrun).
  - destruct (fill_loop_runs (SdSpiSoft.receive SoftSPI m_spi_receive) n u)
      as (u' & Hrun & _); [intros x; apply on_dev_run|assumption..|].
    exists u'. unfold SdSpiSoft.receive_buf.
    now rewrite (bind_Done _ _ _ _ _ Hrun).
  - intros m x r x'. unfold SdSpi.receive_buf.
    destruct (m =? 0); [now intros [= <- _]|].
    intros H.
    do 5 (apply bind_Done_inv in H as (? & ? & _ & H)).
    now apply then_ret_0 in H.
  - intros m x r x'. apply then_ret_0.
  - intros m x r x'. apply then_ret_0.
Qed.

Lemma receive_buf_returns_zero_witness :
  (0 <= 2 < 65536 /\ 2 <= Z.of_nat (length [0; 0]) /\
   2 <= Z.of_nat (length [0; 0]) /\ 2 <= Z.of_nat (length [0; 0])) /\
  (exists w',
     SdSpi.receive_buf counting_slave 17 2 (World power_on [0; 0] [])
     = Done 0 w') /\
  (exists v',
     SdSpiLib.receive_buf counting_slave 2 (World SPI_fresh [0; 0] [])
     = Done 0 v') /\
  (exists u',
     SdSpiSoft.receive_buf nat (fun k => (counting_slave k, S k)) 2
       (World 0%nat [0; 0] []) = Done 0 u').
Proof.
  split; [cbn; lia|].
  destruct (receive_buf_returns_zero counting_slave 17 nat
              (fun k => (counting_slave k, S k)) 2
              (World power_on [0; 0] []) (World SPI_fresh [0; 0] [])
              (World 0%nat [0; 0] []))
    as (Hw & Hv & Hu & _); [lia|cbn; lia..|].
  now repeat split.
Defined.

(** ** The offsets that the pipelined receive stores to *)

(** C10. For every [n >= 1] and every buffer of at least [n] bytes,
    whether or not the delay covers the shift, the stores of
    [SdSpi.receive(buf, n)] go to the offsets 0, 1, ..., [n - 1], once each
    and in this order, the loop filling 0 to [n - 2] and the store after it
    [n - 1]; no byte at or beyond [n] changes. *)
Theorem receive_buf_stores_below_n miso turn_cycles n (w : world avr) :
  1 <= n < 65536 -> n <= Z.of_nat (length (ram w)) ->
  exists w',
    SdSpi.receive_buf miso turn_cycles n w = Done 0 w' /\
    stored w' = stored w ++ seqZ 0 n /\
    (forall i, i ∈ seqZ 0 n <-> 0 <= i < n) /\
    (forall j : nat, n <= Z.of_nat j -> ram w' !! j = ram w !! j).
Proof.
  intros Hn Hlen.
  destruct (receive_buf_runs miso turn_cycles n w Hn Hlen)
    as (w' & Hrun & Hlog & _ & Hrest & _).
  exists w'. split; [assumption|]. split; [assumption|]. split; [|assumption].
  intros i. rewrite elem_of_seqZ. lia.
Qed.

Lemma receive_buf_stores_below_n_witness :
  (1 <= 3 < 65536 /\ 3 <= Z.of_nat (length [0; 0; 0; 9])) /\
  exists w',
    SdSpi.receive_buf counting_slave 17 3 (World power_on [0; 0; 0; 9] [])
    = Done 0 w' /\
    stored w' = [] ++ seqZ 0 3 /\
    (forall i, i ∈ seqZ 0 3 <-> 0 <= i < 3) /\
    (forall j : nat, 3 <= Z.of_nat j -> ram w' !! j = [0; 0; 0; 9] !! j).
Proof.
  split; [cbn; lia|].
  apply (receive_buf_stores_below_n counting_slave 17 3
           (World power_on [0; 0; 0; 9] [])); cbn; lia.
Defined.

(** * Further properties *)

(** ** Bits of the 8-bit registers *)

Lemma uint8_testbit x i :
  0 <= i -> Z.testbit (uint8 x) i = (i <? 8) && Z.testbit x i.
Proof.
  intros Hi. unfold uint8. change 256 with (2 ^ 8).
  destruct (Z.ltb_spec i 8).
  - now rewrite Z.mod_pow2_bits_low by lia.
  - now rewrite Z.mod_pow2_bits_high by lia.
Qed.

Lemma register_testbit_high x i :
  0 <= x < 256 -> 8 <= i -> Z.testbit x i = false.
Proof.
  intros Hx Hi. rewrite <- (Z.mod_small x 256) by lia.
  change 256 with (2 ^ 8). now rewrite Z.mod_pow2_bits_high by lia.
Qed.

Lemma bit_testbit k i :
  0 <= k -> 0 <= i -> Z.testbit (Z.shiftl 1 k) i = (i =? k).
Proof.
  intros Hk Hi. rewrite Z.shiftl_1_l, Z.pow2_bits_eqb by lia.
  apply Z.eqb_sym.
Qed.

(** ** [SdSpi.begin] *)

Lemma begin_run (w : world avr) :
  SdSpi.begin w
  = Done tt
      (World (Avr (uint8 (Z.lor (PORTB (dev w)) (Z.shiftl 1 2)))
                  (uint8 (Z.lor (uint8 (Z.lor (uint8 (Z.lor (DDRB (dev w)) (Z.shiftl 1 2)))
                                              (Z.shiftl 1 3)))
                                (Z.shiftl 1 5)))
                  (SPCR (dev w)) (SPSR_w (dev w)) (SPIF_flag (dev w))
                  (shifter (dev w)) (shift_left (dev w)) (SPDR_rx (dev w))
                  (mosi (dev w)) (clocked (dev w)) (dr_writes (dev w)))
             (ram w) (stored w)).
Proof. destruct w as [p buf log]. reflexivity. Qed.

(** X1. [SdSpi.begin] drives SS high and makes SS, MOSI and SCK outputs:
    it sets bit 2 of PORTB and bits 2, 3 and 5 of DDRB, and leaves every
    other bit of the two registers, the SPI registers, the bus and the
    buffer as they were. *)
Theorem begin_sets_only_its_pins (w : world avr) :
  0 <= PORTB (dev w) < 256 -> 0 <= DDRB (dev w) < 256 ->
  exists w',
    SdSpi.begin w = Done tt w' /\
    (forall i, 0 <= i ->
       Z.testbit (PORTB (dev w')) i = (i =? 2) || Z.testbit (PORTB (dev w)) i) /\
    (forall i, 0 <= i ->
       Z.testbit (DDRB (dev w')) i
       = (i =? 2) || (i =? 3) || (i =? 5) || Z.testbit (DDRB (dev w)) i) /\
    SPCR (dev w') = SPCR (dev w) /\ SPSR (dev w') = SPSR (dev w) /\
    shifter (dev w') = shifter (dev w) /\ SPDR_rx (dev w') = SPDR_rx (dev w) /\
    mosi (dev w') = mosi (dev w) /\ clocked (dev w') = clocked (dev w) /\
    dr_writes (dev w') = dr_writes (dev w) /\
    ram w' = ram w /\ stored w' = stored w.
Proof.
  intros HB HD. eexists. split; [apply begin_run|].
  cbn [dev ram stored PORTB DDRB SPCR shifter SPDR_rx mosi clocked dr_writes].
  split; [|split; [|repeat split]].
  - intros i Hi. rewrite uint8_testbit, Z.lor_spec, bit_testbit by lia.
    destruct (Z.ltb_spec i 8) as [Hlt|Hge]; cbn [andb].
    + apply orb_comm.
    + rewrite (register_testbit_high _ i HB Hge).
      destruct (Z.eqb_spec i 2); [lia|reflexivity].
  - intros i Hi.
    rewrite !uint8_testbit, !Z.lor_spec, !uint8_testbit, !Z.lor_spec,
      !uint8_testbit, !Z.lor_spec, !bit_testbit by lia.
    destruct (Z.ltb_spec i 8) as [Hlt|Hge]; cbn [andb].
    + destruct (i =? 2), (i =? 3), (i =? 5), (Z.testbit (DDRB (dev w)) i);
        reflexivity.
    + rewrite (register_testbit_high _ i HD Hge).
      destruct (Z.eqb_spec i 2), (Z.eqb_spec i 3), (Z.eqb_spec i 5);
        lia || reflexivity.
Qed.

(** X2. [begin] is idempotent: a second call changes nothing. *)
Theorem begin_twice_is_begin (w : world avr) :
  (SdSpi.begin ;; SdSpi.begin) w = SdSpi.begin w.
Proof.
  rewrite (bind_Done _ _ _ _ _ (begin_run w)), begin_run.
  cbn [dev ram stored PORTB DDRB SPCR SPSR_w SPIF_flag shifter shift_left
       SPDR_rx mosi clocked dr_writes].
  rewrite begin_run. do 2 f_equal.
  f_equal.
  - apply Z.bits_inj'. intros i Hi.
    rewrite !uint8_testbit, !Z.lor_spec, !uint8_testbit, !Z.lor_spec by lia.
    destruct (i <? 8), (Z.testbit (PORTB (dev w)) i), (Z.testbit (Z.shiftl 1 2) i);
      reflexivity.
  - apply Z.bits_inj'. intros i Hi.
    repeat (rewrite ?uint8_testbit, ?Z.lor_spec by lia).
    destruct (i <? 8), (Z.testbit (DDRB (dev w)) i), (Z.testbit (Z.shiftl 1 2) i),
      (Z.testbit (Z.shiftl 1 3) i), (Z.testbit (Z.shiftl 1 5) i); reflexivity.
Qed.

(** ** More on [SdSpi.init] *)

Lemma init_loop_result d :
  exists b r,
    SdSpi.init_loop 8 d 2 0 = Some (b, r) /\ 0 <= r <= 7 /\
    b ∈ supported_divisors /\ (d <= b \/ b = 128) /\
    (r, b) ∈ rate_divisors.
Proof.
  unfold supported_divisors, rate_divisors.
  destruct (init_loop_cases d)
    as [[Hd Hl]|[[Hd Hl]|[[Hd Hl]|[[Hd Hl]|[[Hd Hl]|[[Hd Hl]|[Hd Hl]]]]]]];
    eexists _, _; (split; [exact Hl|]); (split; [lia|]);
    (split; [repeat constructor|]); (split; [lia|repeat constructor]).
Qed.

Lemma init_run SPE MSTR d (w : world avr) b r :
  SdSpi.init_loop 8 d 2 0 = Some (b, r) ->
  SdSpi.init SPE MSTR d w
  = Done tt
      (World (Avr (PORTB (dev w)) (DDRB (dev w))
                  (uint8 (Z.lor (Z.lor (Z.shiftl 1 SPE) (Z.shiftl 1 MSTR))
                                (Z.shiftr r 1)))
                  (uint8 (if negb (Z.land r 1 =? 0) then 0 else Z.shiftl 1 SPI2X))
                  (SPIF_flag (dev w)) (shifter (dev w)) (shift_left (dev w))
                  (SPDR_rx (dev w)) (mosi (dev w)) (clocked (dev w))
                  (dr_writes (dev w)))
             (ram w) (stored w)).
Proof. intros H. unfold SdSpi.init. rewrite H. now destruct w. Qed.

Lemma small_testbit_high x i : 0 <= x < 4 -> 2 <= i -> Z.testbit x i = false.
Proof.
  intros Hx Hi. rewrite <- (Z.mod_small x 4) by lia.
  change 4 with (2 ^ 2). now rewrite Z.mod_pow2_bits_high by lia.
Qed.

(** X3. After [SdSpi.init], whatever the divisor, SPCR has the enable
    and master bits set and, above the clock-select field, no other bit:
    [init] selects nothing but master mode with the defaults of the other
    control bits; what it writes to SPSR is 0 or the doubling bit. *)
Theorem init_control_register_bits SPE MSTR d (w : world avr) :
  2 <= SPE <= 7 -> 2 <= MSTR <= 7 ->
  exists w',
    SdSpi.init SPE MSTR d w = Done tt w' /\
    Z.testbit (SPCR (dev w')) SPE = true /\
    Z.testbit (SPCR (dev w')) MSTR = true /\
    (forall i, 2 <= i -> i <> SPE -> i <> MSTR ->
       Z.testbit (SPCR (dev w')) i = false) /\
    (SPSR_w (dev w') = 0 \/ SPSR_w (dev w') = Z.shiftl 1 SPI2X).
Proof.
  intros HE HM.
  destruct (init_loop_result d) as (b & r & Hloop & Hr & _).
  eexists. split; [apply (init_run _ _ _ _ _ _ Hloop)|].
  cbn [dev SPCR SPSR_w].
  assert (0 <= Z.shiftr r 1 < 4) as Hsel.
  { rewrite Z.shiftr_div_pow2 by lia. change (2 ^ 1) with 2.
    split; [apply Z.div_pos; lia|apply Z.div_lt_upper_bound; lia]. }
  split; [|split; [|split]].
  - rewrite uint8_testbit, !Z.lor_spec, !bit_testbit by lia.
    rewrite Z.eqb_refl. destruct (Z.ltb_spec SPE 8); [reflexivity|lia].
  - rewrite uint8_testbit, !Z.lor_spec, !bit_testbit by lia.
    rewrite Z.eqb_refl, orb_true_r. destruct (Z.ltb_spec MSTR 8); [reflexivity|lia].
  - intros i Hi HiE HiM.
    rewrite uint8_testbit, !Z.lor_spec, !bit_testbit by lia.
    rewrite (small_testbit_high _ i Hsel Hi).
    destruct (Z.eqb_spec i SPE), (Z.eqb_spec i MSTR); [lia..|].
    apply andb_false_r.
  - destruct (Z.land r 1 =? 0); [right|left]; reflexivity.
Qed.

(** X4. Of two calls of [init] the second decides: the first leaves no
    trace. *)
Theorem init_last_call_wins SPE MSTR d1 d2 (w : world avr) :
  (SdSpi.init SPE MSTR d1 ;; SdSpi.init SPE MSTR d2) w
  = SdSpi.init SPE MSTR d2 w.
Proof.
  destruct (init_loop_result d1) as (b1 & r1 & Hloop1 & _).
  destruct (init_loop_result d2) as (b2 & r2 & Hloop2 & _).
  rewrite (bind_Done _ _ _ _ _ (init_run _ _ _ w _ _ Hloop1)).
  now rewrite !(init_run _ _ _ _ _ _ Hloop2).
Qed.

(** X6. The loop of [init] keeps [b] and [r] in step: it ends with [b]
    equal to the SCK divisor that the registers written from [r] select;
    [b] stays between 2 and 128, so its shifts never overflow its 8 bits,
    and is not below the requested divisor unless it is 128. *)
Theorem init_loop_counter_is_the_divisor SPE MSTR d (w : world avr) :
  2 <= SPE <= 7 -> 2 <= MSTR <= 7 ->
  exists b r w',
    SdSpi.init_loop 8 d 2 0 = Some (b, r) /\
    SdSpi.init SPE MSTR d w = Done tt w' /\
    sck_period (dev w') = b /\
    2 <= b <= 128 /\ (d <= b \/ b = 128).
Proof.
  intros HE HM.
  destruct (init_loop_result d) as (b & r & Hloop & Hr & Hb & Hd & Hrb).
  destruct (init_registers SPE MSTR d w b r HE HM Hr Hloop)
    as (w' & Hrun & Hcr & Hsr & _).
  exists b, r, w'. split; [assumption|]. split; [assumption|].
  split; [now apply (sck_period_fields _ r b)|].
  split; [|assumption].
  apply supported_divisors_cases in Hb. lia.
Qed.

(** X7. A larger requested divisor never gives a faster clock. *)
Theorem init_is_monotone SPE MSTR d1 d2 (w1 w2 : world avr) :
  2 <= SPE <= 7 -> 2 <= MSTR <= 7 -> d1 <= d2 ->
  exists w1' w2',
    SdSpi.init SPE MSTR d1 w1 = Done tt w1' /\
    SdSpi.init SPE MSTR d2 w2 = Done tt w2' /\
    sck_period (dev w1') <= sck_period (dev w2').
Proof.
  intros HE HM Hd.
  destruct (init_cases SPE MSTR d1 w1 HE HM)
    as (w1' & r1 & k1 & Hrun1 & _ & _ & Hk1 & _ & _ & Hc1).
  destruct (init_cases SPE MSTR d2 w2 HE HM)
    as (w2' & r2 & k2 & Hrun2 & _ & _ & Hk2 & _ & _ & Hc2).
  exists w1', w2'. split; [assumption|]. split; [assumption|].
  rewrite Hk1, Hk2. lia.
Qed.

(** X8. On a platform with the full ladder of divider constants,
    [SdSpi.init(d)] and [SdSpiLib.init(d)] select the same SCK divisor for
    every [d]; the library is set to MSB first and mode 0, and neither
    [init] transfers a byte. *)
Theorem register_and_library_init_agree
    SPE MSTR platform c divider_of d
    (w : world avr) (v : world SdSpiLib.SPIClass) :
  2 <= SPE <= 7 -> 2 <= MSTR <= 7 ->
  SdSpiLib.dividers platform = Some c -> full_ladder divider_of c ->
  exists w' v' a,
    SdSpi.init SPE MSTR d w = Done tt w' /\
    SdSpiLib.init platform d v = Done tt v' /\
    SdSpiLib.clockDivider (dev v') = Some a /\
    divider_of a = sck_period (dev w') /\
    SdSpiLib.bitOrder (dev v') = Some (SdSpiLib.MSBFIRST platform) /\
    SdSpiLib.dataMode (dev v') = Some (SdSpiLib.SPI_MODE0 platform) /\
    SdSpiLib.sent (dev v') = SdSpiLib.sent (dev v) /\
    mosi (dev w') = mosi (dev w).
Proof.
  intros HE HM Hc Hladder.
  destruct (init_loop_result d) as (b & r & Hloop & Hr & _).
  destruct (init_registers SPE MSTR d w b r HE HM Hr Hloop)
    as (w0 & Hrun0 & _ & _ & _ & _ & _ & Hmosi & _).
  destruct (init_cases SPE MSTR d w HE HM)
    as (w' & r' & k & Hinit & _ & _ & Hk & _ & _ & Hcases).
  assert (w0 = w') as -> by congruence.
  destruct (SdSpiLib_init_run platform d v)
    as (v' & a & Hinit' & Hbo & Hdm & Ha & Hsent & Hsel).
  rewrite Hc in Hsel.
  destruct Hladder as (L2 & L4 & L8 & L16 & L32 & L64 & L128).
  exists w', v', a. do 3 (split; [assumption|]).
  split; [|now repeat split].
  rewrite Hk.
  destruct Hsel as [[? ->]|[[? ->]|[[? ->]|[[? ->]|[[? ->]|[[? ->]|[? ->]]]]]]];
    rewrite ?L2, ?L4, ?L8, ?L16, ?L32, ?L64, ?L128; lia.
Qed.

(** ** Interleaved single-byte operations *)


(** ** Short receives at any clock rate *)

(** X11. For [n <= 2] the pipelined [receive(buf, n)] does what [n]
    calls of [receive()] do at every SCK rate and for every length of a
    loop turn: the byte that its one turn starts is awaited by the spin
    after the loop. *)
Theorem receive_of_two_bytes_needs_no_delay miso turn_cycles n (w : world avr) :
  0 <= n <= 2 -> n <= Z.of_nat (length (ram w)) ->
  shifter (dev w) = None ->
  exists w',
    SdSpi.receive_buf miso turn_cycles n w = Done 0 w' /\
    SdSpi.receive_each miso n w = Done tt w'.
Proof.
  intros Hn Hlen Hidle.
  exists (received miso (Z.to_nat n) w).
  split; [|apply receive_each_received; (lia || assumption)].
  assert (n = 0 \/ n = 1 \/ n = 2) as [->|[->| ->]] by lia.
  - reflexivity.
  - unfold SdSpi.receive_buf. cbn [Z.eqb].
    change (size_t (1 - 1)) with 0. change (Z.to_nat 0) with 0%nat.
    rewrite (bind_Done _ _ _ _ _ (write_SPDR_idle 255 w Hidle)).
    erewrite bind_Done by (now apply (spin_SPIF_busy _ _ 255)).
    cbn [for_lt]. rewrite Z.ltb_irrefl.
    rewrite (bind_Done _ _ _ tt _ eq_refl).
    erewrite bind_Done by (apply spin_SPIF_set; reflexivity).
    erewrite bind_Done by apply read_SPDR_run.
    erewrite bind_Done by (apply store_in; cbn [ram]; lia).
    reflexivity.
  - unfold SdSpi.receive_buf. cbn [Z.eqb].
    change (size_t (2 - 1)) with 1. change (Z.to_nat 1) with 1%nat.
    rewrite (bind_Done _ _ _ _ _ (write_SPDR_idle 255 w Hidle)).
    erewrite bind_Done by (now apply (spin_SPIF_busy _ _ 255)).
    cbn [for_lt dev ram stored]. change (0 <? 1) with true. cbn iota.
    change (size_t (0 + 1)) with 1. rewrite Z.ltb_irrefl.
    change (shift_complete miso 255 (started 255 (dev w)))
      with (xfer miso 255 (dev w)).
    set (w1 := World (xfer miso 255 (dev w)) (ram w) (stored w)).
    assert (exists p,
              delay_8_cycles miso turn_cycles
                (World (started 255 (dev w1))
                       (<[0%nat := SPDR_rx (dev w1)]> (ram w1))
                       (stored w1 ++ [0]))
              = Done tt (World p (<[0%nat := SPDR_rx (dev w1)]> (ram w1))
                               (stored w1 ++ [0])) /\
              spin_SPIF miso
                (World p (<[0%nat := SPDR_rx (dev w1)]> (ram w1))
                       (stored w1 ++ [0]))
              = Done tt (World (xfer miso 255 (dev w1))
                               (<[0%nat := SPDR_rx (dev w1)]> (ram w1))
                               (stored w1 ++ [0]))) as (p & Hdelay & Hspin).
    { unfold delay_8_cycles. cbn [dev shifter started shift_left].
      destruct (shift_cycles (dev w1) <=? turn_cycles).
      - eexists. split; [reflexivity|]. now apply spin_SPIF_set.
      - eexists. split; [reflexivity|].
        now rewrite (spin_SPIF_busy _ _ 255). }
    erewrite bind_Done.
    2:{ erewrite bind_Done.
        2:{ erewrite bind_Done by apply read_SPDR_run.
            erewrite bind_Done by (apply write_SPDR_idle; reflexivity).
            erewrite bind_Done by (apply store_in; unfold w1; cbn [ram]; lia).
            exact Hdelay. }
        reflexivity. }
    rewrite (bind_Done _ _ _ _ _ Hspin).
    erewrite bind_Done by apply read_SPDR_run.
    erewrite bind_Done
      by (apply store_in; cbn [ram]; rewrite length_insert; unfold w1;
          cbn [ram]; lia).
    reflexivity.
Qed.

(** ** Sent bytes, counted *)

Section SentCounted.
Variable miso : nat -> Z.




End SentCounted.

(** ** Command and response *)


(** ** Loops over the buffer, in closed form *)

Lemma on_dev_eq {D A} (f : D -> A * D) (w : world D) :
  on_dev f w = Done (fst (f (dev w))) (World (snd (f (dev w))) (ram w) (stored w)).
Proof. unfold on_dev. now destruct (f (dev w)). Qed.

Lemma filled_length {D} (f : D -> Z * D) k (w : world D) :
  length (ram (filled f k w)) = length (ram w).
Proof. induction k as [|k IH]; [reflexivity|]. cbn. now rewrite length_insert. Qed.

Lemma filled_dev {D} (f : D -> Z * D) k (w : world D) :
  dev (filled f k w) = Nat.iter k (fun d => snd (f d)) (dev w).
Proof. induction k as [|k IH]; [reflexivity|]. cbn. now rewrite IH. Qed.

Lemma filled_stored {D} (f : D -> Z * D) k (w : world D) :
  stored (filled f k w) = stored w ++ seqZ 0 (Z.of_nat k).
Proof.
  induction k as [|k IH]; cbn [filled stored]; [now rewrite app_nil_r|].
  now rewrite IH, seqZ_S, app_assoc.
Qed.

Lemma filled_ram_below {D} (f : D -> Z * D) k (w : world D) (j : nat) :
  (k <= length (ram w))%nat -> (j < k)%nat ->
  ram (filled f k w) !! j
  = Some (fst (f (Nat.iter j (fun d => snd (f d)) (dev w)))).
Proof.
  induction k as [|k IH]; intros Hk Hj; [lia|].
  cbn [filled ram].
  destruct (decide (j = k)) as [->|Hne].
  - rewrite list_lookup_insert_eq by (rewrite filled_length; lia).
    now rewrite filled_dev.
  - rewrite list_lookup_insert_ne by congruence. apply IH; lia.
Qed.

Lemma filled_ram_above {D} (f : D -> Z * D) k (w : world D) (j : nat) :
  (k <= j)%nat -> ram (filled f k w) !! j = ram w !! j.
Proof.
  induction k as [|k IH]; intros Hj; [reflexivity|].
  cbn [filled ram]. rewrite list_lookup_insert_ne by lia. apply IH. lia.
Qed.

Lemma fill_loop_filled {D} (f : D -> Z * D) n (w : world D) :
  0 <= n < 65536 -> n <= Z.of_nat (length (ram w)) ->
  for_lt (Z.to_nat n) 0 n (fun i => b <- on_dev f ;; store i b) w
  = Done tt (filled f (Z.to_nat n) w).
Proof.
  intros Hn Hlen.
  destruct (for_lt_rule (fun i w' => w' = filled f (Z.to_nat i) w)
              (fun i => b <- on_dev f ;; store i b) n Hn)
    with (fuel := Z.to_nat n) (i := 0) (w := w) as (w' & Hrun & ->);
    [|lia|lia|reflexivity|assumption].
  intros i w' Hi ->.
  rewrite (bind_Done _ _ _ _ _ (on_dev_eq f _)).
  rewrite store_in by (cbn [ram]; rewrite filled_length; lia).
  eexists. split; [reflexivity|].
  replace (Z.to_nat (i + 1)) with (S (Z.to_nat i)) by lia.
  cbn [filled dev ram stored]. now rewrite Z2Nat.id by lia.
Qed.

Lemma drain_loop_run {D} (act : Z -> M (world D) unit) (h : Z -> D -> D)
    n (w : world D) :
  (forall b u, act b u = Done tt (World (h b (dev u)) (ram u) (stored u))) ->
  0 <= n < 65536 -> n <= Z.of_nat (length (ram w)) ->
  for_lt (Z.to_nat n) 0 n (fun i => b <- load i ;; act b) w
  = Done tt (World (foldl (fun d b => h b d) (dev w) (take (Z.to_nat n) (ram w)))
                   (ram w) (stored w)).
Proof.
  intros Hact Hn Hlen.
  destruct (for_lt_rule
              (fun i w' =>
                 w' = World (foldl (fun d b => h b d) (dev w)
                                   (take (Z.to_nat i) (ram w)))
                            (ram w) (stored w))
              (fun i => b <- load i ;; act b) n Hn)
    with (fuel := Z.to_nat n) (i := 0) (w := w) as (w' & Hrun & ->);
    [|lia|lia|now destruct w|assumption].
  intros i w' Hi ->.
  destruct (buffer_at (ram w) i) as [v Hv]; [lia|].
  erewrite bind_Done by (apply load_in; [lia|exact Hv]).
  rewrite Hact. eexists. split; [reflexivity|]. cbn [dev ram stored].
  replace (Z.to_nat (i + 1)) with (S (Z.to_nat i)) by lia.
  now rewrite (take_S_r _ _ _ Hv), foldl_snoc.
Qed.

(** ** [SdSpiSoft]: the loops call [m_spi] once per byte, in order *)

(** X15. [SdSpiSoft.receive(buf, n)] calls [m_spi.receive()] exactly [n]
    times and keeps the [i]-th result in [buf[i]]; [SdSpiSoft.send(buf, n)]
    calls [m_spi.send] on [buf[0]], ..., [buf[n-1]] in this order and does
    not touch the buffer; whatever [m_spi] does. *)
Theorem SdSpiSoft_buffers_go_through_m_spi
    SoftSPI (m_spi_receive : SoftSPI -> Z * SoftSPI)
    (m_spi_send : Z -> SoftSPI -> SoftSPI) n (u : world SoftSPI) :
  0 <= n < 65536 -> n <= Z.of_nat (length (ram u)) ->
  (exists u',
     SdSpiSoft.receive_buf SoftSPI m_spi_receive n u = Done 0 u' /\
     dev u' = Nat.iter (Z.to_nat n) (fun s => snd (m_spi_receive s)) (dev u) /\
     (forall j : nat, Z.of_nat j < n ->
        ram u' !! j
        = Some (fst (m_spi_receive
                       (Nat.iter j (fun s => snd (m_spi_receive s)) (dev u))))) /\
     (forall j : nat, n <= Z.of_nat j -> ram u' !! j = ram u !! j) /\
     stored u' = stored u ++ seqZ 0 n) /\
  SdSpiSoft.send_buf SoftSPI m_spi_send n u
  = Done tt (World (foldl (fun s b => m_spi_send b s) (dev u)
                          (take (Z.to_nat n) (ram u)))
                   (ram u) (stored u)).
Proof.
  intros Hn Hlen. split.
  - exists (filled m_spi_receive (Z.to_nat n) u).
    split; [|split; [|split; [|split]]].
    + unfold SdSpiSoft.receive_buf, SdSpiSoft.receive.
      now rewrite (bind_Done _ _ _ _ _ (fill_loop_filled _ n u Hn Hlen)).
    + apply filled_dev.
    + intros j Hj. apply filled_ram_below; lia.
    + intros j Hj. apply filled_ram_above. lia.
    + rewrite filled_stored. now rewrite Z2Nat.id by lia.
  - unfold SdSpiSoft.send_buf.
    apply (drain_loop_run (SdSpiSoft.send SoftSPI m_spi_send)
             (fun b s => m_spi_send b s)); [|assumption..].
    intros b x. reflexivity.
Qed.

(** ** [SdSpiLib]: the loops call [SPI.transfer] once per byte, in order *)

Lemma SPI_exchanges_sent miso bs (s : SdSpiLib.SPIClass) :
  foldl (fun d b => snd (SPI_exchange miso b d)) s bs
  = SdSpiLib.Spi (SdSpiLib.begun s) (SdSpiLib.bitOrder s) (SdSpiLib.dataMode s)
                 (SdSpiLib.clockDivider s) (SdSpiLib.sent s ++ bs).
Proof.
  induction bs as [|b bs IH] using rev_ind.
  - cbn. rewrite app_nil_r. now destruct s.
  - rewrite foldl_snoc, IH. cbn. now rewrite app_assoc.
Qed.

Lemma SPI_dummies_sent miso k (s : SdSpiLib.SPIClass) :
  Nat.iter k (fun d => snd (SPI_exchange miso 255 d)) s
  = SdSpiLib.Spi (SdSpiLib.begun s) (SdSpiLib.bitOrder s) (SdSpiLib.dataMode s)
                 (SdSpiLib.clockDivider s) (SdSpiLib.sent s ++ replicate k 255).
Proof.
  induction k as [|k IH].
  - cbn. rewrite app_nil_r. now destruct s.
  - rewrite Nat.iter_succ, IH, replicate_S_end, app_assoc. reflexivity.
Qed.

(** X14. [SdSpiLib.receive(buf, n)] hands 0xFF to [SPI.transfer] [n]
    times and keeps the [i]-th byte shifted in in [buf[i]];
    [SdSpiLib.send(buf, n)] hands it [buf[0]], ..., [buf[n-1]] in this order
    and does not touch the buffer; neither changes the clock divider. *)
Theorem SdSpiLib_buffers_go_through_transfer
    miso n (v : world SdSpiLib.SPIClass) :
  0 <= n < 65536 -> n <= Z.of_nat (length (ram v)) ->
  (exists v',
     SdSpiLib.receive_buf miso n v = Done 0 v' /\
     SdSpiLib.sent (dev v')
     = SdSpiLib.sent (dev v) ++ replicate (Z.to_nat n) 255 /\
     (forall j : nat, Z.of_nat j < n ->
        ram v' !! j = Some (miso (length (SdSpiLib.sent (dev v)) + j)%nat)) /\
     (forall j : nat, n <= Z.of_nat j -> ram v' !! j = ram v !! j) /\
     stored v' = stored v ++ seqZ 0 n /\
     SdSpiLib.clockDivider (dev v') = SdSpiLib.clockDivider (dev v)) /\
  (exists v',
     SdSpiLib.send_buf miso n v = Done tt v' /\
     SdSpiLib.sent (dev v')
     = SdSpiLib.sent (dev v) ++ take (Z.to_nat n) (ram v) /\
     ram v' = ram v /\ stored v' = stored v /\
     SdSpiLib.clockDivider (dev v') = SdSpiLib.clockDivider (dev v)).
Proof.
  intros Hn Hlen. split.
  - exists (filled (SPI_exchange miso 255) (Z.to_nat n) v).
    split; [|split; [|split; [|split; [|split]]]].
    + unfold SdSpiLib.receive_buf.
      now rewrite (bind_Done _ _ _ _ _
                     (fill_loop_filled (SPI_exchange miso 255) n v Hn Hlen)).
    + now rewrite filled_dev, SPI_dummies_sent.
    + intros j Hj. rewrite filled_ram_below by lia.
      rewrite SPI_dummies_sent. cbn. now rewrite length_app, length_replicate.
    + intros j Hj. apply filled_ram_above. lia.
    + rewrite filled_stored. now rewrite Z2Nat.id by lia.
    + now rewrite filled_dev, SPI_dummies_sent.
  - eexists. split.
    + unfold SdSpiLib.send_buf.
      apply (drain_loop_run (SdSpiLib.send miso)
               (fun b s => snd (SPI_exchange miso b s))); [|assumption..].
      intros b x. reflexivity.
    + cbn [dev ram stored]. rewrite SPI_exchanges_sent. now repeat split.
Qed.

Lemma SdSpiLib_receive_buf_filled miso n (v : world SdSpiLib.SPIClass) :
  0 <= n < 65536 -> n <= Z.of_nat (length (ram v)) ->
  SdSpiLib.receive_buf miso n v
  = Done 0 (filled (SPI_exchange miso 255) (Z.to_nat n) v).
Proof.
  intros Hn Hlen. unfold SdSpiLib.receive_buf.
  now rewrite (bind_Done _ _ _ _ _
                 (fill_loop_filled (SPI_exchange miso 255) n v Hn Hlen)).
Qed.

Lemma SdSpiLib_send_buf_run miso n (v : world SdSpiLib.SPIClass) :
  0 <= n < 65536 -> n <= Z.of_nat (length (ram v)) ->
  SdSpiLib.send_buf miso n v
  = Done tt
      (World (SdSpiLib.Spi (SdSpiLib.begun (dev v)) (SdSpiLib.bitOrder (dev v))
                (SdSpiLib.dataMode (dev v)) (SdSpiLib.clockDivider (dev v))
                (SdSpiLib.sent (dev v) ++ take (Z.to_nat n) (ram v)))
             (ram v) (stored v)).
Proof.
  intros Hn Hlen. unfold SdSpiLib.send_buf.
  rewrite <- SPI_exchanges_sent with (miso := miso).
  apply (drain_loop_run (SdSpiLib.send miso)
           (fun b s => snd (SPI_exchange miso b s))); [|assumption..].
  intros b x. reflexivity.
Qed.

(** X17. [SpiDefault_t] is undefined (the build stops with [#error])
    exactly for a negative [SD_SPI_CONFIGURATION]; otherwise it names a
    class that the same configuration defines, [SdSpi] exactly for 0 and
    for 3 and above, and a class derived from [SdSpiBase] exactly from 2
    on. *)
Theorem default_backend_is_defined SD_SPI_CONFIGURATION DOXYGEN :
  (Config.SpiDefault_t SD_SPI_CONFIGURATION = None <-> SD_SPI_CONFIGURATION < 0) /\
  (forall c, Config.SpiDefault_t SD_SPI_CONFIGURATION = Some c ->
     Config.defined SD_SPI_CONFIGURATION DOXYGEN c = true /\
     (c = Config.SdSpi_class <->
      SD_SPI_CONFIGURATION = 0 \/ 3 <= SD_SPI_CONFIGURATION) /\
     (Config.derives_SdSpiBase SD_SPI_CONFIGURATION c = true <->
      2 <= SD_SPI_CONFIGURATION)).
Proof.
  assert (SD_SPI_CONFIGURATION < 0 \/ SD_SPI_CONFIGURATION = 0 \/
          SD_SPI_CONFIGURATION = 1 \/ SD_SPI_CONFIGURATION = 2 \/
          3 <= SD_SPI_CONFIGURATION) as [Hc|[->|[->|[->|Hc]]]] by lia.
  - assert (Config.SpiDefault_t SD_SPI_CONFIGURATION = None) as ->.
    { unfold Config.SpiDefault_t.
      destruct (Z.eqb_spec SD_SPI_CONFIGURATION 0); [lia|].
      destruct (Z.geb_spec SD_SPI_CONFIGURATION 3); [lia|].
      destruct (Z.eqb_spec SD_SPI_CONFIGURATION 1); [lia|].
      destruct (Z.eqb_spec SD_SPI_CONFIGURATION 2); [lia|reflexivity]. }
    split; [tauto|discriminate].
  - split; [split; [discriminate|lia]|].
    intros c [= <-]. cbn. repeat split; (discriminate || lia || auto).
  - split; [split; [discriminate|lia]|].
    intros c [= <-]. cbn.
    repeat split; try (discriminate || lia || auto); intros [?|?]; lia.
  - split; [split; [discriminate|lia]|].
    intros c [= <-]. cbn.
    repeat split; try (discriminate || lia || auto); intros [?|?]; lia.
  - assert (Config.SpiDefault_t SD_SPI_CONFIGURATION = Some Config.SdSpi_class)
      as ->.
    { unfold Config.SpiDefault_t.
      destruct (Z.geb_spec SD_SPI_CONFIGURATION 3); [|lia].
      now rewrite orb_true_r. }
    split; [split; [discriminate|lia]|].
    intros c [= <-]. cbn [Config.defined Config.derives_SdSpiBase].
    destruct (Z.geb_spec SD_SPI_CONFIGURATION 3); [|lia].
    repeat split; (lia || auto).
Qed.

(** * The transfer functions and the flag of the data sheet *)

(** ** Programs, rearranged *)

Lemma bind_assoc {W A B C} (c : M W A) (k : A -> M W B) (k' : B -> M W C) w :
  bind (bind c k) k' w = bind c (fun a => bind (k a) k') w.
Proof. unfold bind. now destruct (c w). Qed.

Lemma bind_ext_at {W A B} (c : M W A) (k k' : A -> M W B) w :
  (forall a w', c w = Done a w' -> k a w' = k' a w') ->
  bind c k w = bind c k' w.
Proof. unfold bind. intros H. destruct (c w); [now apply H|reflexivity]. Qed.

Lemma bind_ret_r {W} (c : M W unit) w : bind c (fun _ => ret tt) w = c w.
Proof. unfold bind, ret. now destruct (c w) as [[] ?|]. Qed.

Lemma bind_ret_l {W A B} (a : A) (k : A -> M W B) w : bind (ret a) k w = k a w.
Proof. reflexivity. Qed.

Lemma for_lt_end {W} fuel i n (body : Z -> M W unit) w :
  n <= i -> for_lt fuel i n body w = Done tt w.
Proof.
  intros H. destruct fuel; simpl; now destruct (Z.ltb_spec i n); [lia|].
Qed.

Lemma for_lt_turn {W} fuel i n (body : Z -> M W unit) w :
  0 <= i < n -> n < 65536 ->
  for_lt (S fuel) i n body w = bind (body i) (fun _ => for_lt fuel (i + 1) n body) w.
Proof.
  intros H Hn. simpl. destruct (Z.ltb_spec i n); [|lia].
  now rewrite size_t_small by lia.
Qed.

(** ** One program text, two peripherals *)

Lemma SdSpi_runs_on_the_plain_port miso turn_cycles :
  SdSpi.receive miso = SdSpiOn.receive (plain_port miso turn_cycles) /\
  SdSpi.receive_buf miso turn_cycles
  = SdSpiOn.receive_buf (plain_port miso turn_cycles) /\
  SdSpi.send miso = SdSpiOn.send (plain_port miso turn_cycles) /\
  SdSpi.send_buf miso = SdSpiOn.send_buf (plain_port miso turn_cycles) /\
  SdSpi.receive_each miso = SdSpiOn.receive_each (plain_port miso turn_cycles) /\
  SdSpi.send_each miso = SdSpiOn.send_each (plain_port miso turn_cycles).
Proof. repeat split. Qed.

(** Both ports leave the buffer alone. *)
Lemma sheet_port_keeps_buffer SPE MSTR miso turn_cycles :
  port_keeps_buffer (sheet_port SPE MSTR miso turn_cycles).
Proof.
  unfold port_keeps_buffer, keeps_buffer.
  cbn [SPDR_write SPDR_read SPIF_spin turn_delay sheet_port].
  repeat split; intros.
  - unfold sheet_write_SPDR, on_dev in H. now inversion H.
  - unfold sheet_read_SPDR, on_dev in H. now inversion H.
  - unfold sheet_spin_SPIF in H.
    destruct (negb _); [now inversion H|].
    destruct (shifter _); [now inversion H|discriminate].
  - unfold sheet_delay, on_dev in H. now inversion H.
Qed.

Lemma plain_port_keeps_buffer miso turn_cycles :
  port_keeps_buffer (plain_port miso turn_cycles).
Proof.
  unfold port_keeps_buffer, keeps_buffer.
  cbn [SPDR_write SPDR_read SPIF_spin turn_delay plain_port].
  repeat split; intros.
  - unfold write_SPDR, on_dev in H. destruct (shifter _); now inversion H.
  - unfold read_SPDR, on_dev in H. now inversion H.
  - unfold spin_SPIF in H.
    destruct (negb _); [now inversion H|].
    destruct (shifter _); [now inversion H|discriminate].
  - unfold delay_8_cycles in H.
    destruct (shifter _); [|now inversion H].
    destruct (_ <=? _); now inversion H.
Qed.

(** ** The pipelined send on any peripheral *)

(** In [send(buf, n)] and in [n] calls of [send(buf[i])] the same writes
    to SPDR and the same spins follow each other; the loads from [buf]
    fall between them at other places, and no access to the peripheral
    touches [buf]. *)
Section OnAPort.

Context {D : Type}.
Variable P : port D.
Hypothesis HP : port_keeps_buffer P.

Lemma send_loop_then_spin n :
  0 <= n < 65536 ->
  forall fuel fuel' i b (w : world D),
    1 <= i <= n -> n - i < Z.of_nat fuel -> n - i <= Z.of_nat fuel' ->
    n <= Z.of_nat (length (ram w)) ->
    ram w !! Z.to_nat (i - 1) = Some b ->
    bind (SdSpiOn.send_loop P fuel b i n) (fun _ => SPIF_spin P) w
    = bind (SPIF_spin P)
        (fun _ => bind (SdSpiOn.send P b)
           (fun _ => for_lt fuel' i n (fun j => b' <- load j ;; SdSpiOn.send P b'))) w.
Proof.
  destruct HP as (Hw & _ & Hs & _).
  intros Hn fuel. induction fuel as [|fuel IH];
    intros fuel' i b w Hi Hfuel Hfuel' Hlen Hb; [lia|].
  cbn [SdSpiOn.send_loop]. rewrite bind_assoc.
  apply bind_ext_at. intros [] w1 H1. apply Hs in H1.
  unfold SdSpiOn.send. rewrite !bind_assoc.
  apply bind_ext_at. intros [] w2 H2. apply Hw in H2.
  rewrite (bind_assoc (ret tt)), bind_ret_l.
  destruct (Z.eqb_spec i n) as [->|Hne].
  - rewrite bind_ret_l. symmetry.
    erewrite bind_ext_at; [apply bind_ret_r|].
    intros [] w3 _. now apply for_lt_end.
  - assert (exists b', ram w !! Z.to_nat i = Some b') as [b' Hb'].
    { apply lookup_lt_is_Some_2. lia. }
    rewrite bind_assoc.
    erewrite bind_Done by (apply load_in; [lia|]; rewrite H2, H1; exact Hb').
    rewrite size_t_small by lia.
    destruct fuel' as [|fuel']; [lia|].
    rewrite (IH fuel') by
      (try lia; rewrite ?H2, ?H1; try lia;
       now replace (Z.to_nat (i + 1 - 1)) with (Z.to_nat i) by lia).
    apply bind_ext_at. intros [] w3 H3. apply Hs in H3.
    rewrite for_lt_turn by lia. rewrite bind_assoc.
    erewrite (bind_Done (load i))
      by (apply load_in; [lia|]; rewrite H3, H2, H1; exact Hb').
    reflexivity.
Qed.

Lemma send_buf_is_send_each n (w : world D) :
  0 <= n < 65536 -> n <= Z.of_nat (length (ram w)) ->
  SdSpiOn.send_buf P n w = SdSpiOn.send_each P n w.
Proof.
  intros Hn Hlen. unfold SdSpiOn.send_buf, SdSpiOn.send_each.
  destruct (Z.eqb_spec n 0) as [->|Hne]; [reflexivity|].
  destruct HP as (Hw & _ & Hs & _).
  assert (Z.to_nat n = S (Z.to_nat (n - 1))) as Hf by lia.
  pattern (Z.to_nat n) at 2. rewrite Hf. clear Hf.
  rewrite for_lt_turn by lia. rewrite bind_assoc.
  apply bind_ext_at. intros b0 w0 H0.
  assert (w0 = w /\ ram w !! 0%nat = Some b0) as [-> Hb0].
  { unfold load in H0. destruct (_ && _); [|discriminate].
    change (Z.to_nat 0) with 0%nat in H0.
    destruct (ram w !! 0%nat); [|discriminate]. now inversion H0. }
  unfold SdSpiOn.send at 1. rewrite !bind_assoc.
  apply bind_ext_at. intros [] w1 H1. apply Hw in H1.
  rewrite (bind_assoc (ret tt)), bind_ret_l.
  rewrite Z.gtb_ltb. destruct (Z.ltb_spec 1 n) as [Hgt|Hle].
  - assert (exists b1, ram w !! 1%nat = Some b1) as [b1 Hb1].
    { apply lookup_lt_is_Some_2. lia. }
    rewrite bind_assoc.
    erewrite bind_Done by (apply (load_in _ 1); [lia|]; rewrite H1; exact Hb1).
    rewrite (send_loop_then_spin n Hn _ (Z.to_nat (n - 2))) by
      (try lia; rewrite ?H1; try lia; exact Hb1).
    apply bind_ext_at. intros [] w2 H2. apply Hs in H2.
    replace (Z.to_nat (n - 1)) with (S (Z.to_nat (n - 2))) by lia.
    change (0 + 1) with 1.
    rewrite for_lt_turn by lia. rewrite bind_assoc.
    erewrite (bind_Done (load 1))
      by (apply (load_in _ 1); [lia|]; rewrite H2, H1; exact Hb1).
    reflexivity.
  - rewrite bind_ret_l. symmetry.
    erewrite bind_ext_at; [apply bind_ret_r|].
    intros [] w3 _. apply for_lt_end. lia.
Qed.

End OnAPort.

(** ** Transfers on a quiescent bus *)

Section SheetLemmas.

Variables SPE MSTR : Z.
Variable miso : nat -> Z.
Variable turn_cycles : Z.

Lemma sheet_write_quiescent v (w : world sheet) :
  quiescent SPE MSTR (dev w) ->
  sheet_write_SPDR SPE MSTR v w
  = Done tt (World (Sheet (started v (regs (dev w))) false) (ram w) (stored w)).
Proof.
  intros (He & _ & Hi & Hf). unfold sheet_write_SPDR, on_dev, SPDR_access.
  destruct w as [[p seen] r s]. cbn [dev regs SPSR_seen ram stored] in *.
  unfold SPI_master in He.
  destruct seen; cbn [regs SPSR_seen]; unfold load_shifter, SPI_master.
  - cbn [lower_SPIF shifter SPCR]. rewrite Hi, He. unfold started.
    now rewrite (shift_cycles_same p (lower_SPIF p)).
  - rewrite Hi, He.
    destruct (SPIF_flag p); [now discriminate Hf|reflexivity].
Qed.

Lemma sheet_spin_busy (w : world sheet) v :
  SPIF_flag (regs (dev w)) = false -> shifter (regs (dev w)) = Some v ->
  sheet_spin_SPIF miso w
  = Done tt (World (Sheet (shift_complete miso v (regs (dev w))) true)
                   (ram w) (stored w)).
Proof.
  intros H Hv. unfold sheet_spin_SPIF. cbn zeta. now rewrite SPSR_SPIF, H, Hv.
Qed.

Lemma sheet_spin_set (w : world sheet) :
  SPIF_flag (regs (dev w)) = true ->
  sheet_spin_SPIF miso w
  = Done tt (World (Sheet (regs (dev w)) true) (ram w) (stored w)).
Proof. intros H. unfold sheet_spin_SPIF. cbn zeta. now rewrite SPSR_SPIF, H. Qed.

Lemma sheet_send_quiescent v (w : world sheet) :
  quiescent SPE MSTR (dev w) ->
  SdSpiOn.send (sheet_port SPE MSTR miso turn_cycles) v w
  = Done tt (World (sheet_xfer miso v (dev w)) (ram w) (stored w)).
Proof.
  intros Hq. unfold SdSpiOn.send. cbn [SPDR_write SPIF_spin sheet_port].
  rewrite (bind_Done _ _ _ _ _ (sheet_write_quiescent v w Hq)).
  rewrite (bind_Done _ _ _ tt _ eq_refl).
  now rewrite (sheet_spin_busy _ v).
Qed.

Lemma sheet_xfer_quiescent v q :
  quiescent SPE MSTR q -> quiescent SPE MSTR (sheet_xfer miso v q).
Proof. intros (He & Hss & _ & _). now repeat split. Qed.

Lemma sheet_sent_all_snoc vs v q :
  sheet_sent_all miso (vs ++ [v]) q = sheet_xfer miso v (sheet_sent_all miso vs q).
Proof. unfold sheet_sent_all. now rewrite foldl_snoc. Qed.

Lemma sheet_sent_all_quiescent vs q :
  quiescent SPE MSTR q -> quiescent SPE MSTR (sheet_sent_all miso vs q).
Proof.
  intros Hq. induction vs as [|v vs IH] using rev_ind; [assumption|].
  rewrite sheet_sent_all_snoc. now apply sheet_xfer_quiescent.
Qed.

Lemma sheet_sent_all_regs vs q :
  regs (sheet_sent_all miso vs q) = sent_all miso vs (regs q).
Proof.
  induction vs as [|v vs IH] using rev_ind; [reflexivity|].
  rewrite sheet_sent_all_snoc, sent_all_snoc. cbn [sheet_xfer regs]. now rewrite IH.
Qed.

Lemma sheet_send_each_sent n (w : world sheet) :
  0 <= n < 65536 -> n <= Z.of_nat (length (ram w)) ->
  quiescent SPE MSTR (dev w) ->
  SdSpiOn.send_each (sheet_port SPE MSTR miso turn_cycles) n w
  = Done tt (World (sheet_sent_all miso (take (Z.to_nat n) (ram w)) (dev w))
                   (ram w) (stored w)).
Proof.
  intros Hn Hlen Hq. unfold SdSpiOn.send_each.
  destruct (for_lt_rule
              (fun i w' =>
                 w' = World (sheet_sent_all miso (take (Z.to_nat i) (ram w)) (dev w))
                            (ram w) (stored w))
              (fun i =>
                 b <- load i ;; SdSpiOn.send (sheet_port SPE MSTR miso turn_cycles) b)
              n Hn)
    with (fuel := Z.to_nat n) (i := 0) (w := w) as (w' & Hrun & ->);
    [|lia|lia|now destruct w|assumption].
  intros i w' Hi ->.
  destruct (buffer_at (ram w) i) as [v Hv]; [lia|].
  erewrite bind_Done by (apply load_in; [lia|exact Hv]).
  rewrite sheet_send_quiescent by (now apply sheet_sent_all_quiescent).
  eexists. split; [reflexivity|]. cbn [dev ram stored].
  replace (Z.to_nat (i + 1)) with (S (Z.to_nat i)) by lia.
  now rewrite (take_S_r _ _ _ Hv), sheet_sent_all_snoc.
Qed.

End SheetLemmas.

(** ** Pipelined send *)

(** C2, amended. For every [n <= 512] and every buffer,
    [SdSpi.send(buf, n)] does what [n] back-to-back calls of
    [SdSpi.send(buf[i])] do, from every state of the peripheral: the same
    bytes on MOSI in the same order, and the same state at the end. On a
    quiescent bus (the SPI an enabled master with SS an output, no byte
    being shifted, SPIF not up unless a spin has seen it) these bytes are
    exactly [buf[0]], ..., [buf[n - 1]], in this order, and the bus is
    quiescent again. *)
Theorem send_buf_is_n_sends SPE MSTR miso turn_cycles n (w : world sheet) :
  0 <= n <= 512 -> n <= Z.of_nat (length (ram w)) ->
  SdSpiOn.send_buf (sheet_port SPE MSTR miso turn_cycles) n w
  = SdSpiOn.send_each (sheet_port SPE MSTR miso turn_cycles) n w /\
  (quiescent SPE MSTR (dev w) ->
   exists w',
     SdSpiOn.send_buf (sheet_port SPE MSTR miso turn_cycles) n w = Done tt w' /\
     mosi (regs (dev w')) = mosi (regs (dev w)) ++ take (Z.to_nat n) (ram w) /\
     ram w' = ram w /\
     quiescent SPE MSTR (dev w')).
Proof.
  intros Hn Hlen.
  assert (SdSpiOn.send_buf (sheet_port SPE MSTR miso turn_cycles) n w
          = SdSpiOn.send_each (sheet_port SPE MSTR miso turn_cycles) n w) as Heq.
  { apply send_buf_is_send_each; [apply sheet_port_keeps_buffer|lia|assumption]. }
  split; [exact Heq|]. intros Hq.
  eexists. split; [|split; [|split]].
  - rewrite Heq. apply sheet_send_each_sent; (lia || assumption).
  - cbn [dev]. now rewrite sheet_sent_all_regs, sent_all_mosi.
  - reflexivity.
  - now apply sheet_sent_all_quiescent.
Qed.

(** The claim of C2 as stated fails on a bus that is not quiescent, and
    the code itself leaves such a bus behind. After [init(4)] a byte takes
    32 CPU cycles to shift; with a loop turn of 17 cycles
    [receive(buf, 4)] returns while its last dummy byte is still being
    shifted, with 1, 1, 2, 2 in [buf]. A [send(buf, 3)] that follows at
    once loses [buf[0]] to a write collision: MOSI carries the straggler
    0xFF, then 1, 2, where the claim has 1, 1, 2. When the caller first
    takes the time to write the command 64, 0, 149 to [buf], the straggler
    has ended: [send(buf, 3)] finds SPIF up and unseen, takes it for the
    end of its own first byte and loses [buf[1]]: MOSI carries 64, 149,
    two bytes for three. *)
Lemma send_buf_loses_a_byte_after_a_slow_receive :
  exists w,
    (on_regs SdSpi.begin ;; on_regs (SdSpi.init 6 4 4) ;;
     SdSpiOn.receive_buf (sheet_port 6 4 counting_slave 17) 4)
      (World sheet_power_on [0; 0; 0; 0] []) = Done 0 w /\
    ram w = [1; 1; 2; 2] /\
    shifter (regs (dev w)) = Some 255 /\
    (exists w',
       SdSpiOn.send_buf (sheet_port 6 4 counting_slave 17) 3 w = Done tt w' /\
       mosi (regs (dev w')) = mosi (regs (dev w)) ++ [255; 1; 2] /\
       mosi (regs (dev w')) <> mosi (regs (dev w)) ++ take 3 (ram w)) /\
    (exists w1 w',
       (sheet_delay counting_slave 17 ;; store 0 64 ;; store 1 0 ;; store 2 149) w
       = Done tt w1 /\
       ram w1 = [64; 0; 149; 2] /\
       shifter (regs (dev w1)) = None /\
       SdSpiOn.send_buf (sheet_port 6 4 counting_slave 17) 3 w1 = Done tt w' /\
       mosi (regs (dev w')) = mosi (regs (dev w1)) ++ [64; 149] /\
       mosi (regs (dev w')) <> mosi (regs (dev w1)) ++ take 3 (ram w1)).
Proof.
  eexists. split; [vm_compute; reflexivity|].
  split; [reflexivity|]. split; [reflexivity|]. split.
  - eexists. split; [vm_compute; reflexivity|].
    split; [reflexivity|discriminate].
  - eexists _, _. split; [vm_compute; reflexivity|].
    split; [reflexivity|]. split; [reflexivity|].
    split; [vm_compute; reflexivity|]. split; [reflexivity|discriminate].
Qed.

(** ** The single-byte operations from any state of the bus *)

Lemma sheet_write_run SPE MSTR v (w : world sheet) :
  exists q,
    sheet_write_SPDR SPE MSTR v w = Done tt (World q (ram w) (stored w)) /\
    dr_writes (regs q) = S (dr_writes (regs (dev w))) /\
    SPI_master SPE MSTR (regs q) = SPI_master SPE MSTR (regs (dev w)) /\
    (SPI_master SPE MSTR (regs (dev w)) = true -> is_Some (shifter (regs q))) /\
    (SPI_master SPE MSTR (regs (dev w)) = false -> shifter (regs (dev w)) = None ->
     SPIF_flag (regs (dev w)) = false ->
     shifter (regs q) = None /\ SPIF_flag (regs q) = false).
Proof.
  eexists. split; [reflexivity|].
  destruct w as [[p seen] r s]. unfold SPDR_access, load_shifter, SPI_master.
  cbn [dev regs SPSR_seen].
  destruct seen; cbn [regs lower_SPIF shifter SPCR SPIF_flag dr_writes];
    destruct (shifter p) as [u|];
    destruct (Z.testbit (SPCR p) SPE && Z.testbit (SPCR p) MSTR) eqn:He;
    cbn [regs shifter SPCR SPIF_flag dr_writes]; rewrite ?He;
    repeat split; eauto; try congruence.
Qed.

Lemma sheet_spin_run miso (w : world sheet) :
  is_Some (shifter (regs (dev w))) ->
  exists q,
    sheet_spin_SPIF miso w = Done tt (World q (ram w) (stored w)) /\
    SPIF_flag (regs q) = true /\ SPSR_seen q = true /\
    dr_writes (regs q) = dr_writes (regs (dev w)).
Proof.
  intros [u Hu]. unfold sheet_spin_SPIF. cbn zeta. rewrite SPSR_SPIF, Hu.
  destruct (SPIF_flag (regs (dev w))) eqn:Hf; eexists; (split; [reflexivity|]);
    now repeat split.
Qed.

Lemma sheet_spin_hangs miso (w : world sheet) :
  shifter (regs (dev w)) = None -> SPIF_flag (regs (dev w)) = false ->
  sheet_spin_SPIF miso w = Fault Hang.
Proof.
  intros Hs Hf. unfold sheet_spin_SPIF. cbn zeta. now rewrite SPSR_SPIF, Hf, Hs.
Qed.

Lemma sheet_read_seen (w : world sheet) :
  SPSR_seen (dev w) = true ->
  sheet_read_SPDR w
  = Done (SPDR_rx (regs (dev w)))
         (World (Sheet (lower_SPIF (regs (dev w))) false) (ram w) (stored w)).
Proof. intros H. unfold sheet_read_SPDR, on_dev, SPDR_access. now rewrite H. Qed.

Lemma sheet_read_unseen (w : world sheet) :
  SPSR_seen (dev w) = false ->
  sheet_read_SPDR w = Done (SPDR_rx (regs (dev w))) w.
Proof.
  intros H. unfold sheet_read_SPDR, on_dev, SPDR_access. rewrite H. now destruct w.
Qed.

(** X9. With the SPI an enabled master and SS an output,
    [SdSpi.receive()] and [SdSpi.send(b)] return from every state of the
    shifter and of the flag: their spin on SPIF follows a write to SPDR, so
    a byte is on its way or the flag is up. Each writes SPDR once and
    leaves the buffer alone; [receive()] returns what SPDR holds and leaves
    SPIF clear, [send(b)] leaves it set. With the enable bit clear and
    nothing to raise the flag, as from reset until [init], both hang in
    their spin. *)
Theorem single_byte_operations_return_when_enabled
    SPE MSTR miso turn_cycles b (w : world sheet) :
  (SPI_master SPE MSTR (regs (dev w)) = true ->
   SS_output (regs (dev w)) = true ->
   (exists x w',
      SdSpiOn.receive (sheet_port SPE MSTR miso turn_cycles) w = Done x w' /\
      x = SPDR_rx (regs (dev w')) /\ SPIF_flag (regs (dev w')) = false /\
      dr_writes (regs (dev w')) = S (dr_writes (regs (dev w))) /\
      ram w' = ram w /\ stored w' = stored w) /\
   (exists w',
      SdSpiOn.send (sheet_port SPE MSTR miso turn_cycles) b w = Done tt w' /\
      SPIF_flag (regs (dev w')) = true /\
      dr_writes (regs (dev w')) = S (dr_writes (regs (dev w))) /\
      ram w' = ram w /\ stored w' = stored w)) /\
  (Z.testbit (SPCR (regs (dev w))) SPE = false ->
   shifter (regs (dev w)) = None -> SPIF_flag (regs (dev w)) = false ->
   SdSpiOn.receive (sheet_port SPE MSTR miso turn_cycles) w = Fault Hang /\
   SdSpiOn.send (sheet_port SPE MSTR miso turn_cycles) b w = Fault Hang).
Proof.
  split.
  - intros He _. split.
    + unfold SdSpiOn.receive. cbn [SPDR_write SPDR_read SPIF_spin sheet_port].
      destruct (sheet_write_run SPE MSTR 255 w) as (q1 & Hw & Hcount & _ & Hbusy & _).
      rewrite (bind_Done _ _ _ _ _ Hw).
      rewrite (bind_Done _ _ _ tt _ eq_refl).
      destruct (sheet_spin_run miso (World q1 (ram w) (stored w)))
        as (q2 & Hspin & Hflag & Hseen & Hcount2); [now apply Hbusy|].
      rewrite (bind_Done _ _ _ _ _ Hspin), sheet_read_seen by exact Hseen.
      eexists _, _. split; [reflexivity|]. cbn [dev ram stored regs] in *.
      repeat split. cbn. congruence.
    + unfold SdSpiOn.send. cbn [SPDR_write SPIF_spin sheet_port].
      destruct (sheet_write_run SPE MSTR b w) as (q1 & Hw & Hcount & _ & Hbusy & _).
      rewrite (bind_Done _ _ _ _ _ Hw).
      rewrite (bind_Done _ _ _ tt _ eq_refl).
      destruct (sheet_spin_run miso (World q1 (ram w) (stored w)))
        as (q2 & Hspin & Hflag & Hseen & Hcount2); [now apply Hbusy|].
      rewrite Hspin.
      eexists. split; [reflexivity|]. cbn [dev ram stored] in *.
      repeat split; congruence.
  - intros HE Hs Hf.
    assert (SPI_master SPE MSTR (regs (dev w)) = false) as He
      by (unfold SPI_master; now rewrite HE).
    split.
    + unfold SdSpiOn.receive. cbn [SPDR_write SPDR_read SPIF_spin sheet_port].
      destruct (sheet_write_run SPE MSTR 255 w) as (q1 & Hw & _ & _ & _ & Hoff).
      destruct (Hoff He Hs Hf) as [Hs1 Hf1].
      rewrite (bind_Done _ _ _ _ _ Hw).
      rewrite (bind_Done _ _ _ tt _ eq_refl).
      unfold bind. now rewrite sheet_spin_hangs.
    + unfold SdSpiOn.send. cbn [SPDR_write SPIF_spin sheet_port].
      destruct (sheet_write_run SPE MSTR b w) as (q1 & Hw & _ & _ & _ & Hoff).
      destruct (Hoff He Hs Hf) as [Hs1 Hf1].
      rewrite (bind_Done _ _ _ _ _ Hw).
      rewrite (bind_Done _ _ _ tt _ eq_refl).
      now rewrite sheet_spin_hangs.
Qed.

(** ** The receive loop at any clock rate, by the data sheet *)

Ltac sheet_simpl :=
  cbn [dev ram stored regs SPSR_seen shift_complete started elapse shifter
       SPIF_flag mosi clocked dr_writes SPDR_rx shift_left lower_SPIF SPCR].

Lemma sheet_write_idle SPE MSTR v (w : world sheet) :
  SPSR_seen (dev w) = false -> shifter (regs (dev w)) = None ->
  SPI_master SPE MSTR (regs (dev w)) = true ->
  sheet_write_SPDR SPE MSTR v w
  = Done tt
      (World (Sheet (Avr (PORTB (regs (dev w))) (DDRB (regs (dev w)))
                         (SPCR (regs (dev w))) (SPSR_w (regs (dev w)))
                         (SPIF_flag (regs (dev w))) (Some v)
                         (shift_cycles (regs (dev w))) (SPDR_rx (regs (dev w)))
                         (mosi (regs (dev w))) (clocked (regs (dev w)))
                         (S (dr_writes (regs (dev w))))) false)
             (ram w) (stored w)).
Proof.
  intros Hseen Hs He. unfold sheet_write_SPDR, on_dev, SPDR_access, load_shifter.
  rewrite Hseen. cbn iota. now rewrite Hs, He, Hseen.
Qed.

Lemma sheet_write_busy SPE MSTR v u (w : world sheet) :
  SPSR_seen (dev w) = false -> shifter (regs (dev w)) = Some u ->
  sheet_write_SPDR SPE MSTR v w
  = Done tt
      (World (Sheet (Avr (PORTB (regs (dev w))) (DDRB (regs (dev w)))
                         (SPCR (regs (dev w))) (SPSR_w (regs (dev w)))
                         (SPIF_flag (regs (dev w))) (Some u)
                         (shift_left (regs (dev w))) (SPDR_rx (regs (dev w)))
                         (mosi (regs (dev w))) (clocked (regs (dev w)))
                         (S (dr_writes (regs (dev w))))) false)
             (ram w) (stored w)).
Proof.
  intros Hseen Hs. unfold sheet_write_SPDR, on_dev, SPDR_access, load_shifter.
  rewrite Hseen. cbn iota. now rewrite Hs, Hseen.
Qed.

Lemma sheet_read_run (w : world sheet) :
  exists q,
    sheet_read_SPDR w = Done (SPDR_rx (regs (dev w))) (World q (ram w) (stored w)) /\
    SPSR_seen q = false /\
    shifter (regs q) = shifter (regs (dev w)) /\
    (SPSR_seen (dev w) = false -> q = dev w) /\
    SPCR (regs q) = SPCR (regs (dev w)) /\
    SPSR_w (regs q) = SPSR_w (regs (dev w)) /\
    shift_left (regs q) = shift_left (regs (dev w)) /\
    SPDR_rx (regs q) = SPDR_rx (regs (dev w)) /\
    mosi (regs q) = mosi (regs (dev w)) /\
    clocked (regs q) = clocked (regs (dev w)) /\
    dr_writes (regs q) = dr_writes (regs (dev w)).
Proof.
  destruct w as [[p seen] r s]. unfold sheet_read_SPDR, on_dev, SPDR_access.
  cbn [dev regs SPSR_seen]. destruct seen; eexists; (split; [reflexivity|]);
    now repeat split.
Qed.

Lemma sheet_receive_turn SPE MSTR miso turn_cycles (w : world sheet) i w1 :
  0 <= i -> i < Z.of_nat (length (ram w)) ->
  sheet_receiving SPE MSTR miso w i w1 ->
  exists w2,
    (b <- sheet_read_SPDR ;; sheet_write_SPDR SPE MSTR 255 ;; store i b ;;
     sheet_delay miso turn_cycles) w1 = Done tt w2 /\
    sheet_receiving SPE MSTR miso w (i + 1) w2.
Proof.
  intros Hi Hlen (k & Hk & Hstate & Hseen & Hen & Hmosi & Hclk & Hdr & Hrx & Hram & Hl).
  destruct (sheet_read_run w1)
    as (q & Hread & Hq & Hqs & _ & Hqc & Hqw & Hql & Hqr & Hqm & Hqk & Hqd).
  rewrite (bind_Done _ _ _ _ _ Hread).
  assert (<[Z.to_nat i := SPDR_rx (regs (dev w1))]> (ram w1) !! 0%nat
          = Some (miso (clocked (regs (dev w))))) as Hfirst.
  { destruct (Z.eq_dec i 0) as [->|Hne].
    - rewrite list_lookup_insert_eq by (change (Z.to_nat 0) with 0%nat; lia).
      now rewrite Hrx.
    - rewrite list_lookup_insert_ne by lia. apply Hram. lia. }
  assert (length (<[Z.to_nat i := SPDR_rx (regs (dev w1))]> (ram w1)) = length (ram w))
    as Hlen' by now rewrite length_insert.
  assert (Z.to_nat (i + 1 + 1) = S (Z.to_nat (i + 1))) as Hsucc by lia.
  assert ((i + 1 =? 0) = false) as Hnz by lia.
  assert (SPI_master SPE MSTR (regs q) = true) as Hen'
    by (unfold SPI_master in *; now rewrite Hqc).
  destruct Hstate as [(Hs & Hf & Hki)|(Hs & Hki)].
  - erewrite bind_Done
      by (apply sheet_write_idle; cbn [dev]; [assumption|congruence|assumption]).
    erewrite bind_Done by (apply store_in; cbn [ram]; lia).
    unfold sheet_delay, on_dev. sheet_simpl.
    destruct (shift_cycles (regs q) <=? turn_cycles);
      eexists; (split; [reflexivity|]); cbn [dev ram stored].
    + exists (S k). sheet_simpl.
      split; [lia|]. split; [left; repeat split; lia|].
      split; [now rewrite Hnz|]. split; [exact Hen'|].
      split; [now rewrite Hqm, Hmosi, replicate_S_end, app_assoc|].
      split; [lia|]. split; [lia|]. split; [lia|]. now split.
    + exists k. sheet_simpl.
      split; [lia|]. split; [right; repeat split; lia|].
      split; [now rewrite Hnz|]. split; [exact Hen'|].
      split; [congruence|]. split; [lia|]. split; [lia|]. split; [lia|].
      now split.
  - erewrite bind_Done
      by (apply (sheet_write_busy _ _ _ 255); cbn [dev]; [assumption|congruence]).
    erewrite bind_Done by (apply store_in; cbn [ram]; lia).
    unfold sheet_delay, on_dev. sheet_simpl.
    destruct (shift_left (regs q) <=? turn_cycles);
      eexists; (split; [reflexivity|]); cbn [dev ram stored].
    + exists (S k). sheet_simpl.
      split; [lia|]. split; [left; repeat split; lia|].
      split; [now rewrite Hnz|]. split; [exact Hen'|].
      split; [now rewrite Hqm, Hmosi, replicate_S_end, app_assoc|].
      split; [lia|]. split; [lia|]. split; [lia|]. now split.
    + exists k. sheet_simpl.
      split; [lia|]. split; [right; repeat split; lia|].
      split; [now rewrite Hnz|]. split; [exact Hen'|].
      split; [congruence|]. split; [lia|]. split; [lia|]. split; [lia|].
      now split.
Qed.

(** X12. At every SCK rate and for every length of a loop turn,
    [receive(buf, n)] entered on a quiescent bus returns zero, has written
    SPDR exactly [n] times and clocked out nothing but 0xFF, between one
    and [n] bytes of it, has taken as many bytes from MISO and left the
    first of them in [buf[0]]; it returns with SPIF clear, and with the
    bus idle or one more 0xFF byte still being shifted. *)
Theorem receive_buf_clocks_dummy_bytes_at_any_rate
    SPE MSTR miso turn_cycles n (w : world sheet) :
  1 <= n < 65536 -> n <= Z.of_nat (length (ram w)) ->
  quiescent SPE MSTR (dev w) ->
  exists w' (k : nat),
    SdSpiOn.receive_buf (sheet_port SPE MSTR miso turn_cycles) n w = Done 0 w' /\
    1 <= Z.of_nat k <= n /\
    mosi (regs (dev w')) = mosi (regs (dev w)) ++ replicate k 255 /\
    clocked (regs (dev w')) = (clocked (regs (dev w)) + k)%nat /\
    dr_writes (regs (dev w')) = (dr_writes (regs (dev w)) + Z.to_nat n)%nat /\
    ram w' !! 0%nat = Some (miso (clocked (regs (dev w)))) /\
    SPIF_flag (regs (dev w')) = false /\
    (shifter (regs (dev w')) = None \/
     shifter (regs (dev w')) = Some 255 /\ Z.of_nat k < n).
Proof.
  intros Hn Hlen Hq. unfold SdSpiOn.receive_buf.
  cbn [SPDR_write SPDR_read SPIF_spin turn_delay sheet_port].
  destruct (Z.eqb_spec n 0) as [|_]; [lia|].
  rewrite (size_t_small (n - 1)) by lia.
  rewrite (bind_Done _ _ _ _ _ (sheet_write_quiescent SPE MSTR 255 w Hq)).
  erewrite bind_Done by (now apply (sheet_spin_busy _ _ 255)).
  cbn [dev ram stored regs].
  destruct Hq as (He & _ & Hidle & _).
  destruct (for_lt_rule (sheet_receiving SPE MSTR miso w)
              (fun i =>
                 b <- sheet_read_SPDR ;; sheet_write_SPDR SPE MSTR 255 ;; store i b ;;
                 sheet_delay miso turn_cycles) (n - 1))
    with (fuel := Z.to_nat (n - 1)) (i := 0)
         (w := World (Sheet (shift_complete miso 255 (started 255 (regs (dev w)))) true)
                     (ram w) (stored w))
    as (w3 & Hloop & k & Hk & Hstate & Hseen & Hen & Hmosi & Hclk & Hdr & Hrx &
        Hram & Hl);
    [lia| |lia|lia| |].
  - intros i w1 Hi Hinv.
    apply (sheet_receive_turn SPE MSTR miso turn_cycles w i w1); (lia || assumption).
  - exists 1%nat. sheet_simpl.
    split; [lia|]. split; [left; repeat split; lia|].
    split; [reflexivity|]. split; [exact He|].
    split; [reflexivity|]. split; [lia|]. split; [cbn; lia|].
    split; [reflexivity|]. split; [lia|reflexivity].
  - rewrite (bind_Done _ _ _ _ _ Hloop).
    assert (exists p (k' : nat),
              sheet_spin_SPIF miso w3
              = Done tt (World (Sheet p true) (ram w3) (stored w3)) /\
              1 <= Z.of_nat k' <= n /\
              mosi p = mosi (regs (dev w)) ++ replicate k' 255 /\
              clocked p = (clocked (regs (dev w)) + k')%nat /\
              dr_writes p = dr_writes (regs (dev w3)) /\
              (shifter p = None \/ shifter p = Some 255 /\ Z.of_nat k' < n) /\
              (n - 1 = 0 -> SPDR_rx p = miso (clocked (regs (dev w)))))
      as (p & k' & Hspin & Hk' & Hmosi' & Hclk' & Hdr' & Hidle' & Hrx').
    { destruct Hstate as [(Hs & Hf & Hki)|(Hs & Hki)].
      - exists (regs (dev w3)), k. rewrite sheet_spin_set by assumption.
        split; [reflexivity|]. repeat split; (assumption || lia || (now left)).
      - destruct (SPIF_flag (regs (dev w3))) eqn:Hf.
        + exists (regs (dev w3)), k. rewrite sheet_spin_set by assumption.
          split; [reflexivity|].
          split; [lia|]. split; [assumption|]. split; [assumption|].
          split; [reflexivity|]. split; [right; split; [assumption|lia]|lia].
        + exists (shift_complete miso 255 (regs (dev w3))), (S k).
          rewrite (sheet_spin_busy _ _ 255) by assumption.
          split; [reflexivity|]. sheet_simpl.
          split; [lia|].
          split; [now rewrite Hmosi, replicate_S_end, app_assoc|].
          split; [lia|]. split; [reflexivity|]. split; [now left|lia]. }
    rewrite (bind_Done _ _ _ _ _ Hspin).
    erewrite bind_Done by (now apply sheet_read_seen).
    erewrite bind_Done by (apply store_in; cbn [ram]; lia).
    eexists _, k'. split; [reflexivity|]. sheet_simpl.
    split; [assumption|]. split; [assumption|]. split; [assumption|].
    split; [rewrite Hdr', Hdr; lia|]. split; [|split; [reflexivity|assumption]].
    destruct (Z.eq_dec (n - 1) 0) as [Heq|Hne].
    + rewrite Heq. rewrite list_lookup_insert_eq
        by (change (Z.to_nat 0) with 0%nat; lia).
      now rewrite Hrx'.
    + rewrite list_lookup_insert_ne by lia. apply Hram. lia.
Qed.

(** ** The receive loop when the delay covers the shift *)

Section SheetReceived.

Variables SPE MSTR : Z.
Variable miso : nat -> Z.
Variable turn_cycles : Z.

Lemma sheet_receive_quiescent (w : world sheet) :
  quiescent SPE MSTR (dev w) ->
  SdSpiOn.receive (sheet_port SPE MSTR miso turn_cycles) w
  = Done (miso (clocked (regs (dev w))))
         (World (Sheet (lower_SPIF (xfer miso 255 (regs (dev w)))) false)
                (ram w) (stored w)).
Proof.
  intros Hq. unfold SdSpiOn.receive. cbn [SPDR_write SPDR_read SPIF_spin sheet_port].
  rewrite (bind_Done _ _ _ _ _ (sheet_write_quiescent SPE MSTR 255 w Hq)).
  rewrite (bind_Done _ _ _ tt _ eq_refl).
  erewrite bind_Done by (now apply (sheet_spin_busy _ _ 255)).
  now rewrite sheet_read_seen.
Qed.

Lemma received_DDRB k (w : world avr) :
  DDRB (dev (received miso k w)) = DDRB (dev w).
Proof. induction k as [|k IH]; [reflexivity|exact IH]. Qed.

Lemma sheet_received_quiescent k (w : world sheet) :
  quiescent SPE MSTR (dev w) -> quiescent SPE MSTR (dev (sheet_received miso k w)).
Proof.
  intros Hq. destruct k as [|k]; [assumption|].
  destruct Hq as (He & Hss & _ & _).
  split; [|split; [|split; [reflexivity|discriminate]]].
  - unfold SPI_master in *. cbn [sheet_received dev regs lower_SPIF SPCR].
    now rewrite (proj1 (received_clock miso (S k) (plain_world w))).
  - unfold SS_output in *. cbn [sheet_received dev regs lower_SPIF DDRB].
    now rewrite received_DDRB.
Qed.

Lemma sheet_received_length k (w : world sheet) :
  length (ram (sheet_received miso k w)) = length (ram w).
Proof.
  destruct k as [|k]; [reflexivity|].
  cbn [sheet_received ram]. now rewrite received_length.
Qed.

Lemma sheet_received_step k (w : world sheet) :
  quiescent SPE MSTR (dev w) -> (k < length (ram w))%nat ->
  (b <- SdSpiOn.receive (sheet_port SPE MSTR miso turn_cycles) ;; store (Z.of_nat k) b)
    (sheet_received miso k w)
  = Done tt (sheet_received miso (S k) w).
Proof.
  intros Hq Hk.
  rewrite (bind_Done _ _ _ _ _
             (sheet_receive_quiescent _ (sheet_received_quiescent k w Hq))).
  rewrite store_in by (cbn [ram]; rewrite sheet_received_length; lia).
  rewrite Nat2Z.id. destruct k as [|k]; reflexivity.
Qed.

Lemma sheet_receive_each_received n (w : world sheet) :
  0 <= n < 65536 -> n <= Z.of_nat (length (ram w)) ->
  quiescent SPE MSTR (dev w) ->
  SdSpiOn.receive_each (sheet_port SPE MSTR miso turn_cycles) n w
  = Done tt (sheet_received miso (Z.to_nat n) w).
Proof.
  intros Hn Hlen Hq. unfold SdSpiOn.receive_each.
  destruct (for_lt_rule
              (fun i w' => w' = sheet_received miso (Z.to_nat i) w)
              (fun i => b <- SdSpiOn.receive (sheet_port SPE MSTR miso turn_cycles) ;;
                        store i b) n Hn)
    with (fuel := Z.to_nat n) (i := 0) (w := w) as (w' & Hrun & ->);
    [|lia|lia|reflexivity|assumption].
  intros i w' Hi ->.
  exists (sheet_received miso (S (Z.to_nat i)) w).
  split; [|now replace (Z.to_nat (i + 1)) with (S (Z.to_nat i)) by lia].
  rewrite <- (sheet_received_step (Z.to_nat i) w Hq) by lia.
  now rewrite Z2Nat.id by lia.
Qed.

Lemma sheet_delay_covers (w : world sheet) v :
  shift_left (regs (dev w)) <= turn_cycles ->
  shifter (regs (dev w)) = Some v ->
  sheet_delay miso turn_cycles w
  = Done tt (World (Sheet (shift_complete miso v (regs (dev w))) (SPSR_seen (dev w)))
                   (ram w) (stored w)).
Proof.
  intros Hc H. unfold sheet_delay, on_dev. rewrite H.
  now destruct (Z.leb_spec (shift_left (regs (dev w))) turn_cycles); [|lia].
Qed.

(** The state between the turns of the pipelined loop when the delay
    covers the shift: byte [i] is in SPDR, SPIF is up, and only before the
    first turn has a spin seen it. *)
Lemma sheet_receive_buf_received n (w : world sheet) :
  shift_cycles (regs (dev w)) <= turn_cycles ->
  1 <= n < 65536 -> n <= Z.of_nat (length (ram w)) ->
  quiescent SPE MSTR (dev w) ->
  SdSpiOn.receive_buf (sheet_port SPE MSTR miso turn_cycles) n w
  = Done 0 (sheet_received miso (Z.to_nat n) w).
Proof.
  intros Hturn Hn Hlen Hq. unfold SdSpiOn.receive_buf.
  cbn [SPDR_write SPDR_read SPIF_spin turn_delay sheet_port].
  destruct (Z.eqb_spec n 0) as [|_]; [lia|].
  rewrite (size_t_small (n - 1)) by lia.
  rewrite (bind_Done _ _ _ _ _ (sheet_write_quiescent SPE MSTR 255 w Hq)).
  erewrite bind_Done by (now apply (sheet_spin_busy _ _ 255)).
  cbn [dev ram stored regs].
  change (shift_complete miso 255 _) with (xfer miso 255 (regs (dev w))).
  destruct Hq as (He & _ & Hidle & _).
  destruct (for_lt_rule
              (fun i w' =>
                 let r := received miso (Z.to_nat i) (plain_world w) in
                 w' = World (Sheet (xfer miso 255 (dev r)) (i =? 0)) (ram r) (stored r))
              (fun i =>
                 b <- sheet_read_SPDR ;; sheet_write_SPDR SPE MSTR 255 ;; store i b ;;
                 sheet_delay miso turn_cycles) (n - 1))
    with (fuel := Z.to_nat (n - 1)) (i := 0)
         (w := World (Sheet (xfer miso 255 (regs (dev w))) true) (ram w) (stored w))
    as (w' & Hrun & ->); [lia| |lia|lia|reflexivity|].
  - intros i w' Hi ->.
    destruct (received_clock miso (Z.to_nat i) (plain_world w)) as [Hcr Hsr].
    cbn [plain_world dev] in Hcr, Hsr.
    assert (length (ram (received miso (Z.to_nat i) (plain_world w)))
            = length (ram w)) as Hl by apply received_length.
    set (r := received miso (Z.to_nat i) (plain_world w)) in *.
    exists (World (Sheet (xfer miso 255 (xfer miso 255 (dev r))) false)
                  (<[Z.to_nat i := miso (clocked (dev r))]> (ram r))
                  (stored r ++ [i])).
    split.
    + destruct (i =? 0).
      * erewrite bind_Done by (now apply sheet_read_seen).
        erewrite bind_Done.
        2:{ apply sheet_write_idle; [reflexivity|reflexivity|].
            unfold SPI_master in *. cbn [dev regs lower_SPIF xfer SPCR].
            now rewrite Hcr. }
        erewrite bind_Done by (apply store_in; cbn [ram]; lia).
        erewrite (sheet_delay_covers _ 255); [reflexivity| |reflexivity].
        cbn [dev regs shift_left].
        now rewrite (shift_cycles_same (regs (dev w))).
      * erewrite bind_Done by (now apply sheet_read_unseen).
        erewrite bind_Done.
        2:{ apply sheet_write_idle; [reflexivity|reflexivity|].
            unfold SPI_master in *. cbn [dev regs xfer SPCR].
            now rewrite Hcr. }
        erewrite bind_Done by (apply store_in; cbn [ram]; lia).
        erewrite (sheet_delay_covers _ 255); [reflexivity| |reflexivity].
        cbn [dev regs shift_left].
        now rewrite (shift_cycles_same (regs (dev w))).
    + assert ((i + 1 =? 0) = false) as -> by lia.
      replace (Z.to_nat (i + 1)) with (S (Z.to_nat i)) by lia.
      cbn [received dev ram stored xfer SPDR_rx]. fold r.
      now rewrite Z2Nat.id by lia.
  - rewrite (bind_Done _ _ _ _ _ Hrun).
    assert (length (ram (received miso (Z.to_nat (n - 1)) (plain_world w)))
            = length (ram w)) as Hl by apply received_length.
    erewrite bind_Done by (apply sheet_spin_set; reflexivity).
    erewrite bind_Done by (now apply sheet_read_seen).
    erewrite bind_Done by (apply store_in; cbn [ram]; lia).
    replace (Z.to_nat n) with (S (Z.to_nat (n - 1))) by lia.
    cbn [sheet_received received dev ram stored regs xfer SPDR_rx].
    now rewrite Z2Nat.id by lia.
Qed.

End SheetReceived.

Lemma sheet_received_plain miso k (w : world sheet) :
  (1 <= k)%nat ->
  ram (sheet_received miso k w) = ram (received miso k (plain_world w)) /\
  mosi (regs (dev (sheet_received miso k w)))
  = mosi (dev (received miso k (plain_world w))).
Proof. destruct k; [lia|]. now split. Qed.

(** X16. On a quiescent bus and with a loop turn not shorter than the
    shift of a byte, the register and the library back-end are
    interchangeable on the wire: with the same buffer and the same bytes
    arriving on MISO, their [receive(buf, n)] leave the same buffer and
    clock out the same bytes, and so do their [send(buf, n)]. *)
Theorem register_and_library_agree_on_a_quiescent_bus
    SPE MSTR miso turn_cycles n (w : world sheet) (v : world SdSpiLib.SPIClass) :
  shift_cycles (regs (dev w)) <= turn_cycles ->
  0 <= n < 65536 -> n <= Z.of_nat (length (ram w)) ->
  quiescent SPE MSTR (dev w) ->
  ram v = ram w -> length (SdSpiLib.sent (dev v)) = clocked (regs (dev w)) ->
  exists w1 v1 w2 v2,
    SdSpiOn.receive_buf (sheet_port SPE MSTR miso turn_cycles) n w = Done 0 w1 /\
    SdSpiLib.receive_buf miso n v = Done 0 v1 /\
    ram w1 = ram v1 /\
    drop (length (mosi (regs (dev w)))) (mosi (regs (dev w1)))
    = drop (length (SdSpiLib.sent (dev v))) (SdSpiLib.sent (dev v1)) /\
    SdSpiOn.send_buf (sheet_port SPE MSTR miso turn_cycles) n w = Done tt w2 /\
    SdSpiLib.send_buf miso n v = Done tt v2 /\
    drop (length (mosi (regs (dev w)))) (mosi (regs (dev w2)))
    = drop (length (SdSpiLib.sent (dev v))) (SdSpiLib.sent (dev v2)).
Proof.
  intros Hturn Hn Hlen Hq Hram Hclk.
  exists (sheet_received miso (Z.to_nat n) w),
         (filled (SPI_exchange miso 255) (Z.to_nat n) v),
         (World (sheet_sent_all miso (take (Z.to_nat n) (ram w)) (dev w))
                (ram w) (stored w)).
  eexists.
  destruct (Z.eq_dec n 0) as [->|Hne].
  - split; [reflexivity|].
    split; [apply SdSpiLib_receive_buf_filled; [lia|rewrite Hram; lia]|].
    change (Z.to_nat 0) with 0%nat. cbn [sheet_received filled].
    split; [now rewrite Hram|]. split; [now rewrite !drop_all|].
    split; [now destruct w as [[p s] r l]|].
    split; [apply SdSpiLib_send_buf_run; [lia|rewrite Hram; lia]|].
    cbn. now rewrite app_nil_r, !drop_all.
  - destruct (sheet_received_plain miso (Z.to_nat n) w) as [Hr Hm]; [lia|].
    split; [apply sheet_receive_buf_received; (lia || assumption)|].
    split; [apply SdSpiLib_receive_buf_filled; [lia|rewrite Hram; lia]|].
    split.
    { rewrite Hr. apply list_eq. intros j.
      destruct (decide (j < Z.to_nat n)%nat) as [Hj|Hj].
      - rewrite received_ram_below, filled_ram_below
          by (cbn [plain_world ram]; rewrite ?Hram; lia).
        rewrite SPI_dummies_sent. cbn.
        now rewrite length_app, length_replicate, Hclk.
      - rewrite received_ram_above, filled_ram_above by lia. now rewrite Hram. }
    split.
    { rewrite Hm, received_mosi, filled_dev, SPI_dummies_sent. cbn.
      now rewrite !drop_app_length. }
    split.
    { rewrite send_buf_is_send_each
        by (try apply sheet_port_keeps_buffer; lia).
      apply sheet_send_each_sent; (lia || assumption). }
    split; [apply SdSpiLib_send_buf_run; [lia|rewrite Hram; lia]|].
    cbn [dev]. rewrite sheet_sent_all_regs, sent_all_mosi. cbn.
    now rewrite !drop_app_length, Hram.
Qed.

Lemma on_regs_run {A} (c : M (world avr) A) (w : world sheet) a p r l :
  c (plain_world w) = Done a (World p r l) ->
  on_regs c w = Done a (World (Sheet p (SPSR_seen (dev w))) r l).
Proof. unfold on_regs, plain_world. now intros ->. Qed.

(** X18. A quiescent bus is quiescent again after [begin()],
    [init(d)], [receive()], [send(b)] and [send(buf, n)], and after
    [receive(buf, n)] when a loop turn is not shorter than the shift of a
    byte: from [init] on, every operation finds the bus as it expects it
    as long as the multi-byte receive runs at an SCK rate that its delay
    covers. *)
Theorem quiescent_bus_after_each_operation
    SPE MSTR miso turn_cycles d v n (w : world sheet) :
  2 <= SPE <= 7 -> 2 <= MSTR <= 7 ->
  0 <= n < 65536 -> n <= Z.of_nat (length (ram w)) ->
  quiescent SPE MSTR (dev w) ->
  (exists w',
     on_regs SdSpi.begin w = Done tt w' /\ quiescent SPE MSTR (dev w')) /\
  (exists w',
     on_regs (SdSpi.init SPE MSTR d) w = Done tt w' /\
     quiescent SPE MSTR (dev w')) /\
  (exists b w',
     SdSpiOn.receive (sheet_port SPE MSTR miso turn_cycles) w = Done b w' /\
     quiescent SPE MSTR (dev w')) /\
  (exists w',
     SdSpiOn.send (sheet_port SPE MSTR miso turn_cycles) v w = Done tt w' /\
     quiescent SPE MSTR (dev w')) /\
  (exists w',
     SdSpiOn.send_buf (sheet_port SPE MSTR miso turn_cycles) n w = Done tt w' /\
     quiescent SPE MSTR (dev w')) /\
  (shift_cycles (regs (dev w)) <= turn_cycles ->
   exists w',
     SdSpiOn.receive_buf (sheet_port SPE MSTR miso turn_cycles) n w = Done 0 w' /\
     quiescent SPE MSTR (dev w')).
Proof.
  intros HE HM Hn Hlen Hq. split; [|split; [|split; [|split; [|split]]]].
  - eexists. split; [apply on_regs_run, begin_run|].
    destruct Hq as (He & Hss & Hs & Hf).
    split; [exact He|]. split; [|now split].
    unfold SS_output in *. cbn [dev regs DDRB plain_world].
    repeat (rewrite uint8_testbit by lia; rewrite Z.lor_spec).
    now rewrite Hss.
  - destruct (init_loop_result d) as (b & r & Hloop & _).
    eexists. split; [apply on_regs_run, (init_run _ _ _ _ _ _ Hloop)|].
    destruct Hq as (He & Hss & Hs & Hf).
    split; [|now repeat split].
    unfold SPI_master. cbn [dev regs SPCR].
    rewrite !uint8_testbit, !Z.lor_spec, !bit_testbit by lia.
    rewrite !Z.eqb_refl, orb_true_r.
    destruct (Z.ltb_spec SPE 8), (Z.ltb_spec MSTR 8); (reflexivity || lia).
  - eexists _, _. split; [now apply sheet_receive_quiescent|].
    destruct Hq as (He & Hss & Hs & Hf). now repeat split.
  - eexists. split; [now apply sheet_send_quiescent|].
    now apply sheet_xfer_quiescent.
  - eexists. split.
    + rewrite send_buf_is_send_each by (try apply sheet_port_keeps_buffer; lia).
      apply sheet_send_each_sent; (lia || assumption).
    + now apply sheet_sent_all_quiescent.
  - intros Hturn. destruct (Z.eq_dec n 0) as [->|Hne]; [now exists w|].
    eexists. split; [apply sheet_receive_buf_received; (lia || assumption)|].
    now apply sheet_received_quiescent.
Qed.

(** [sheet_full_speed] and [sheet_slow] are reached from reset through
    [begin] and [init], and are quiescent. *)
Lemma sheet_full_speed_after_init buf log :
  (on_regs SdSpi.begin ;; on_regs (SdSpi.init 6 4 2)) (World sheet_power_on buf log)
  = Done tt (World sheet_full_speed buf log) /\
  quiescent 6 4 sheet_full_speed /\
  shift_cycles (regs sheet_full_speed) = 16.
Proof.
  split; [reflexivity|]. split; [|reflexivity].
  split; [reflexivity|]. split; [reflexivity|]. split; [reflexivity|discriminate].
Qed.

Lemma sheet_slow_after_init buf log :
  (on_regs SdSpi.begin ;; on_regs (SdSpi.init 6 4 128)) (World sheet_power_on buf log)
  = Done tt (World sheet_slow buf log) /\
  quiescent 6 4 sheet_slow /\
  shift_cycles (regs sheet_slow) = 1024.
Proof.
  split; [reflexivity|]. split; [|reflexivity].
  split; [reflexivity|]. split; [reflexivity|]. split; [reflexivity|discriminate].
Qed.
(** ** The two peripherals *)

(** X19. On a quiescent bus the two peripherals agree up to SPIF:
    [receive()], [send(b)] and [send(buf, n)], and [receive(buf, n)] when
    a loop turn is not shorter than the shift of a byte, return the same
    value and leave the same buffer, the same stores and, but for SPIF, the
    same registers, whether SPIF falls with the write that starts a
    transfer or by the rule of the data sheet. *)
Theorem peripherals_agree_on_a_quiescent_bus
    SPE MSTR miso turn_cycles n b (w : world sheet) :
  0 <= n < 65536 -> n <= Z.of_nat (length (ram w)) ->
  quiescent SPE MSTR (dev w) ->
  (exists x wp ws,
     SdSpi.receive miso (plain_world w) = Done x wp /\
     SdSpiOn.receive (sheet_port SPE MSTR miso turn_cycles) w = Done x ws /\
     same_up_to_SPIF wp ws) /\
  (exists wp ws,
     SdSpi.send miso b (plain_world w) = Done tt wp /\
     SdSpiOn.send (sheet_port SPE MSTR miso turn_cycles) b w = Done tt ws /\
     same_up_to_SPIF wp ws) /\
  (exists wp ws,
     SdSpi.send_buf miso n (plain_world w) = Done tt wp /\
     SdSpiOn.send_buf (sheet_port SPE MSTR miso turn_cycles) n w = Done tt ws /\
     same_up_to_SPIF wp ws) /\
  (shift_cycles (regs (dev w)) <= turn_cycles ->
   exists wp ws,
     SdSpi.receive_buf miso turn_cycles n (plain_world w) = Done 0 wp /\
     SdSpiOn.receive_buf (sheet_port SPE MSTR miso turn_cycles) n w = Done 0 ws /\
     same_up_to_SPIF wp ws).
Proof.
  intros Hn Hlen Hq.
  assert (shifter (dev (plain_world w)) = None) as Hidle by apply Hq.
  split; [|split; [|split]].
  - eexists _, _, _. split; [now apply receive_idle|].
    split; [now apply sheet_receive_quiescent|]. now repeat split.
  - eexists _, _. split; [now apply send_idle|].
    split; [now apply sheet_send_quiescent|]. now repeat split.
  - destruct (Z.eq_dec n 0) as [->|Hne].
    + exists (plain_world w), w. now repeat split.
    + eexists _, _. split; [apply send_buf_sent; (lia || assumption)|].
      split.
      * rewrite send_buf_is_send_each by (try apply sheet_port_keeps_buffer; lia).
        apply sheet_send_each_sent; (lia || assumption).
      * split; [|now split]. cbn [dev regs plain_world ram].
        now rewrite sheet_sent_all_regs.
  - intros Hturn. destruct (Z.eq_dec n 0) as [->|Hne].
    + exists (plain_world w), w. now repeat split.
    + eexists _, _. split; [apply receive_buf_received; (lia || assumption)|].
      split; [apply sheet_receive_buf_received; (lia || assumption)|].
      destruct (Z.to_nat n) as [|k] eqn:Hk; [lia|]. now repeat split.
Qed.

(** ** Instances *)

Lemma begin_sets_only_its_pins_witness :
  (0 <= PORTB power_on < 256 /\ 0 <= DDRB power_on < 256) /\
  exists w',
    SdSpi.begin (World power_on [] []) = Done tt w' /\
    Z.testbit (PORTB (dev w')) 2 = true /\
    Z.testbit (DDRB (dev w')) 4 = false.
Proof.
  split; [cbn; lia|].
  destruct (begin_sets_only_its_pins (World power_on [] []))
    as (w' & Hrun & HB & HD & _); [cbn; lia..|].
  exists w'. split; [exact Hrun|].
  split; [now rewrite HB by lia|now rewrite HD by lia].
Defined.

Lemma init_control_register_bits_witness :
  (2 <= 6 <= 7 /\ 2 <= 4 <= 7) /\
  exists w',
    SdSpi.init 6 4 64 (World power_on [] []) = Done tt w' /\
    Z.testbit (SPCR (dev w')) 6 = true /\
    Z.testbit (SPCR (dev w')) 3 = false.
Proof.
  split; [lia|].
  destruct (init_control_register_bits 6 4 64 (World power_on [] []))
    as (w' & Hrun & HE & _ & Hrest & _); [lia..|].
  exists w'. split; [exact Hrun|]. split; [exact HE|]. apply Hrest; lia.
Defined.

Lemma init_loop_counter_is_the_divisor_witness :
  (2 <= 6 <= 7 /\ 2 <= 4 <= 7) /\
  exists b r w',
    SdSpi.init_loop 8 5 2 0 = Some (b, r) /\
    SdSpi.init 6 4 5 (World power_on [] []) = Done tt w' /\
    sck_period (dev w') = b /\
    2 <= b <= 128 /\ (5 <= b \/ b = 128).
Proof.
  split; [lia|].
  apply (init_loop_counter_is_the_divisor 6 4 5); lia.
Defined.

Lemma init_is_monotone_witness :
  (2 <= 6 <= 7 /\ 2 <= 4 <= 7 /\ 3 <= 100) /\
  exists w1' w2',
    SdSpi.init 6 4 3 (World power_on [] []) = Done tt w1' /\
    SdSpi.init 6 4 100 (World power_on [] []) = Done tt w2' /\
    sck_period (dev w1') <= sck_period (dev w2').
Proof.
  split; [lia|].
  apply (init_is_monotone 6 4 3 100); lia.
Defined.

Lemma register_and_library_init_agree_witness :
  (2 <= 6 <= 7 /\ 2 <= 4 <= 7 /\
   SdSpiLib.dividers avr_core = Some avr_core_dividers /\
   full_ladder avr_core_divider_of avr_core_dividers) /\
  exists w' v' a,
    SdSpi.init 6 4 20 (World power_on [] []) = Done tt w' /\
    SdSpiLib.init avr_core 20 (World SPI_fresh [] []) = Done tt v' /\
    SdSpiLib.clockDivider (dev v') = Some a /\
    avr_core_divider_of a = sck_period (dev w').
Proof.
  assert (full_ladder avr_core_divider_of avr_core_dividers) as Hladder
    by (repeat split; reflexivity).
  split; [repeat split; (lia || reflexivity)|].
  destruct (register_and_library_init_agree 6 4 avr_core avr_core_dividers
              avr_core_divider_of 20 (World power_on [] [])
              (World SPI_fresh [] []))
    as (w' & v' & a & Hw & Hv & Ha & Heq & _);
    [lia|lia|reflexivity|exact Hladder|].
  exists w', v', a. split; [exact Hw|]. split; [exact Hv|].
  split; [exact Ha|exact Heq].
Defined.


Lemma receive_of_two_bytes_needs_no_delay_witness :
  (0 <= 2 <= 2 /\ 2 <= Z.of_nat (length [0; 0]) /\ shifter power_on = None) /\
  exists w',
    SdSpi.receive_buf counting_slave 1 2 (World power_on [0; 0] []) = Done 0 w' /\
    SdSpi.receive_each counting_slave 2 (World power_on [0; 0] []) = Done tt w'.
Proof.
  split; [repeat split; (cbn; lia) || reflexivity|].
  apply (receive_of_two_bytes_needs_no_delay counting_slave 1 2
           (World power_on [0; 0] [])); (cbn; lia) || reflexivity.
Defined.


Lemma SdSpiLib_buffers_go_through_transfer_witness :
  (0 <= 2 < 65536 /\ 2 <= Z.of_nat (length [7; 8; 9])) /\
  (exists v',
     SdSpiLib.receive_buf counting_slave 2 (World SPI_fresh [7; 8; 9] [])
     = Done 0 v' /\
     SdSpiLib.sent (dev v') = [] ++ replicate (Z.to_nat 2) 255) /\
  (exists v',
     SdSpiLib.send_buf counting_slave 2 (World SPI_fresh [7; 8; 9] [])
     = Done tt v' /\
     SdSpiLib.sent (dev v') = [] ++ take (Z.to_nat 2) [7; 8; 9]).
Proof.
  split; [cbn; lia|].
  destruct (SdSpiLib_buffers_go_through_transfer counting_slave 2
              (World SPI_fresh [7; 8; 9] []))
    as [(v1 & Hr & Hsent1 & _) (v2 & Hs & Hsent2 & _)]; [lia|cbn; lia|].
  split; [exists v1; split; [exact Hr|exact Hsent1]
         |exists v2; split; [exact Hs|exact Hsent2]].
Defined.

Lemma SdSpiSoft_buffers_go_through_m_spi_witness :
  (0 <= 2 < 65536 /\ 2 <= Z.of_nat (length [7; 8; 9])) /\
  (exists u',
     SdSpiSoft.receive_buf nat (fun k => (counting_slave k, S k)) 2
       (World 0%nat [7; 8; 9] []) = Done 0 u' /\
     dev u' = 2%nat) /\
  SdSpiSoft.send_buf nat (fun b k => S k) 2 (World 0%nat [7; 8; 9] [])
  = Done tt (World 2%nat [7; 8; 9] []).
Proof.
  split; [cbn; lia|].
  destruct (SdSpiSoft_buffers_go_through_m_spi nat
              (fun k => (counting_slave k, S k)) (fun b k => S k) 2
              (World 0%nat [7; 8; 9] []))
    as [(u1 & Hr & Hdev & _) Hs]; [lia|cbn; lia|].
  split; [exists u1; split; [exact Hr|exact Hdev]|exact Hs].
Defined.

Lemma default_backend_is_defined_witness :
  Config.SpiDefault_t 2 = Some Config.SdSpiSoft_class /\
  Config.defined 2 false Config.SdSpiSoft_class = true /\
  Config.derives_SdSpiBase 2 Config.SdSpiSoft_class = true.
Proof.
  destruct (default_backend_is_defined 2 false) as [_ H].
  destruct (H Config.SdSpiSoft_class eq_refl) as (Hdef & _ & Hbase).
  split; [reflexivity|]. split; [exact Hdef|]. apply Hbase. lia.
Defined.

Lemma send_buf_is_n_sends_witness :
  (0 <= 3 <= 512 /\ 3 <= Z.of_nat (length [64; 0; 149; 7]) /\
   quiescent 6 4 sheet_full_speed) /\
  exists w',
    SdSpiOn.send_buf (sheet_port 6 4 counting_slave 17) 3
      (World sheet_full_speed [64; 0; 149; 7] []) = Done tt w' /\
    mosi (regs (dev w')) = [64; 0; 149] /\
    ram w' = [64; 0; 149; 7] /\
    quiescent 6 4 (dev w').
Proof.
  assert (quiescent 6 4 sheet_full_speed) as Hq.
  { split; [reflexivity|]. split; [reflexivity|].
    split; [reflexivity|discriminate]. }
  split.
  - split; [lia|]. split; [cbn; lia|exact Hq].
  - exact (proj2 (send_buf_is_n_sends 6 4 counting_slave 17 3
             (World sheet_full_speed [64; 0; 149; 7] [])
             ltac:(lia) ltac:(cbn; lia)) Hq).
Defined.

Lemma single_byte_operations_return_when_enabled_witness :
  (SPI_master 6 4 (regs sheet_full_speed) = true /\
   SS_output (regs sheet_full_speed) = true /\
   Z.testbit (SPCR (regs sheet_power_on)) 6 = false) /\
  (exists x w',
     SdSpiOn.receive (sheet_port 6 4 counting_slave 17)
       (World sheet_full_speed [] []) = Done x w' /\
     x = SPDR_rx (regs (dev w')) /\ SPIF_flag (regs (dev w')) = false) /\
  SdSpiOn.receive (sheet_port 6 4 counting_slave 17) (World sheet_power_on [] [])
  = Fault Hang.
Proof.
  split; [repeat split|].
  destruct (single_byte_operations_return_when_enabled 6 4 counting_slave 17 0
              (World sheet_full_speed [] [])) as [Hon _].
  destruct (single_byte_operations_return_when_enabled 6 4 counting_slave 17 0
              (World sheet_power_on [] [])) as [_ Hoff].
  destruct (Hon eq_refl eq_refl) as [(x & w' & Hrun & Hx & Hf & _) _].
  destruct (Hoff eq_refl eq_refl eq_refl) as [Hhang _].
  split; [|exact Hhang].
  exists x, w'. split; [exact Hrun|]. split; [exact Hx|exact Hf].
Defined.

Lemma receive_buf_clocks_dummy_bytes_at_any_rate_witness :
  (1 <= 3 < 65536 /\ 3 <= Z.of_nat (length [0; 0; 0]) /\
   quiescent 6 4 sheet_slow) /\
  exists w' (k : nat),
    SdSpiOn.receive_buf (sheet_port 6 4 counting_slave 17) 3
      (World sheet_slow [0; 0; 0] []) = Done 0 w' /\
    1 <= Z.of_nat k <= 3 /\
    mosi (regs (dev w')) = [] ++ replicate k 255 /\
    dr_writes (regs (dev w')) = (0 + Z.to_nat 3)%nat.
Proof.
  assert (quiescent 6 4 sheet_slow) as Hq
    by (split; [reflexivity|]; split; [reflexivity|];
        split; [reflexivity|discriminate]).
  split; [split; [lia|split; [cbn; lia|exact Hq]]|].
  destruct (receive_buf_clocks_dummy_bytes_at_any_rate 6 4 counting_slave 17 3
              (World sheet_slow [0; 0; 0] []))
    as (w' & k & Hrun & Hk & Hmosi & _ & Hdr & _);
    [lia|cbn; lia|exact Hq|].
  exists w', k. split; [exact Hrun|]. split; [exact Hk|].
  split; [exact Hmosi|exact Hdr].
Defined.

Lemma register_and_library_agree_on_a_quiescent_bus_witness :
  (shift_cycles (regs sheet_full_speed) <= 17 /\ 0 <= 2 < 65536 /\
   2 <= Z.of_nat (length [7; 8; 9]) /\ quiescent 6 4 sheet_full_speed /\
   length (SdSpiLib.sent SPI_fresh) = clocked (regs sheet_full_speed)) /\
  exists w1 v1,
    SdSpiOn.receive_buf (sheet_port 6 4 counting_slave 17) 2
      (World sheet_full_speed [7; 8; 9] []) = Done 0 w1 /\
    SdSpiLib.receive_buf counting_slave 2 (World SPI_fresh [7; 8; 9] [])
    = Done 0 v1 /\
    ram w1 = ram v1.
Proof.
  assert (shift_cycles (regs sheet_full_speed) <= 17) as Hturn by (now vm_compute).
  assert (quiescent 6 4 sheet_full_speed) as Hq
    by (split; [reflexivity|]; split; [reflexivity|];
        split; [reflexivity|discriminate]).
  split; [repeat split; (assumption || (cbn; lia) || reflexivity || apply Hq)|].
  destruct (register_and_library_agree_on_a_quiescent_bus 6 4 counting_slave 17 2
              (World sheet_full_speed [7; 8; 9] []) (World SPI_fresh [7; 8; 9] []))
    as (w1 & v1 & _ & _ & Hw & Hv & Hram & _);
    [exact Hturn|lia|cbn; lia|exact Hq|reflexivity|reflexivity|].
  exists w1, v1. split; [exact Hw|]. split; [exact Hv|exact Hram].
Defined.

Lemma quiescent_bus_after_each_operation_witness :
  (2 <= 6 <= 7 /\ 2 <= 4 <= 7 /\ 0 <= 2 < 65536 /\
   2 <= Z.of_nat (length [7; 8; 9]) /\
   quiescent 6 4 sheet_full_speed /\ shift_cycles (regs sheet_full_speed) <= 17) /\
  (exists w',
     SdSpiOn.send_buf (sheet_port 6 4 counting_slave 17) 2
       (World sheet_full_speed [7; 8; 9] []) = Done tt w' /\
     quiescent 6 4 (dev w')) /\
  (exists w',
     SdSpiOn.receive_buf (sheet_port 6 4 counting_slave 17) 2
       (World sheet_full_speed [7; 8; 9] []) = Done 0 w' /\
     quiescent 6 4 (dev w')).
Proof.
  assert (shift_cycles (regs sheet_full_speed) <= 17) as Hturn by (now vm_compute).
  assert (quiescent 6 4 sheet_full_speed) as Hq
    by (split; [reflexivity|]; split; [reflexivity|];
        split; [reflexivity|discriminate]).
  split.
  { split; [lia|]. split; [lia|]. split; [lia|]. split; [cbn; lia|].
    split; [exact Hq|exact Hturn]. }
  destruct (quiescent_bus_after_each_operation 6 4 counting_slave 17 2 0 2
              (World sheet_full_speed [7; 8; 9] []))
    as (_ & _ & _ & _ & Hs & Hr); [lia|lia|lia|cbn; lia|exact Hq|].
  split; [exact Hs|exact (Hr Hturn)].
Defined.

Lemma peripherals_agree_on_a_quiescent_bus_witness :
  (0 <= 2 < 65536 /\ 2 <= Z.of_nat (length [7; 8; 9]) /\
   quiescent 6 4 sheet_full_speed /\ shift_cycles (regs sheet_full_speed) <= 17) /\
  exists wp ws,
    SdSpi.receive_buf counting_slave 17 2 (World full_speed [7; 8; 9] [])
    = Done 0 wp /\
    SdSpiOn.receive_buf (sheet_port 6 4 counting_slave 17) 2
      (World sheet_full_speed [7; 8; 9] []) = Done 0 ws /\
    same_up_to_SPIF wp ws.
Proof.
  assert (shift_cycles (regs sheet_full_speed) <= 17) as Hturn by (now vm_compute).
  assert (quiescent 6 4 sheet_full_speed) as Hq
    by (split; [reflexivity|]; split; [reflexivity|];
        split; [reflexivity|discriminate]).
  split; [split; [lia|split; [cbn; lia|split; [exact Hq|exact Hturn]]]|].
  destruct (peripherals_agree_on_a_quiescent_bus 6 4 counting_slave 17 2 0
              (World sheet_full_speed [7; 8; 9] []))
    as (_ & _ & _ & Hr); [lia|cbn; lia|exact Hq|].
  exact (Hr Hturn).
Defined.
